(** * NumpyIO: the .npy header codec of open3d/core/NumpyIO.h

    A shallow embedding of [cpp/open3d/core/NumpyIO.h] and the properties
    of its header encoder, header parser, array holder and file routines.

    Conventions of the embedding
    - [std::string], [std::vector<char>] and the bytes of a file are
      [list ascii]; a literal of the source is written [lit "..."].
    - [size_t] is [N] with the wrap-around modulo [2^64] written out;
      [int] and [int64_t] are [Z].
    - A call that can raise ([utility::LogError], a standard-library
      exception), abort ([assert]) or has no defined behaviour returns an
      [outcome].
    - Two facts of the build are inputs of the model: whether [NDEBUG] is
      defined (it removes every [assert]) and the byte order of the host
      (probed by [BigEndianChar]).
    - The memory of the host is an input where the code allocates a number
      of bytes taken from its arguments, the buffer of an array: the
      allocation raises [std::length_error] or [std::bad_alloc] when the
      host does not serve it. *)

From Stdlib Require Import ZArith NArith List Ascii String Bool Lia.
From Stdlib Require Import Numbers.DecimalString.
From Stdlib Require Import Numbers.DecimalN Numbers.DecimalPos.
Import ListNotations.

Local Open Scope N_scope.

(** ** Characters and byte strings *)

Definition str := list ascii.

Definition lit (s : string) : str := list_ascii_of_string s.

Definition newline : ascii := Ascii.ascii_of_nat 10.
Definition NUL : ascii := Ascii.zero.
Definition space : ascii := " "%char.

Definition size (s : str) : N := N.of_nat (List.length s).

Definition str_eqb (a b : str) : bool :=
  if list_eq_dec Ascii.ascii_dec a b then true else false.

(** ** size_t arithmetic *)

Definition SIZE_MOD : N := 2 ^ 64.

(** [npos] is [std::string::npos], the largest [size_t]. *)
Definition npos : N := SIZE_MOD - 1.

Definition sz_mul (a b : N) : N := (a * b) mod SIZE_MOD.

Definition sz_sub (a b : N) : N := (a + SIZE_MOD - b mod SIZE_MOD) mod SIZE_MOD.

(** Conversion of a signed integer to [size_t]. *)
Definition sz_of_Z (z : Z) : N := Z.to_N (z mod Z.of_N SIZE_MOD).

Definition INT_MAX : Z := 2147483647.
Definition INT_MIN : Z := -2147483648.

(** Conversion of a [size_t] to [int]: the low 32 bits, read as signed. *)
Definition int_of_sz (n : N) : Z :=
  let r := (Z.of_N n mod 2 ^ 32)%Z in
  if (r <=? INT_MAX)%Z then r else (r - 2 ^ 32)%Z.

(** ** Outcomes *)

(** The failures raised through [utility::LogError], named as in the error
    taxonomy of the specification, and the exceptions of the C++ standard
    library the code can run into. *)
Inductive error : Type :=
  | UnsupportedDtypeError (name : string)
      (* "Unsupported dtype: {}" *)
  | UnsupportedNumpyTypeError (type : ascii) (word_size : N)
      (* "Unsupported Numpy type {} word_size_ {}." *)
  | FileOpenError (file_name : string)
      (* "NumpyLoad: Unable to open file {}." *)
  | PreambleReadError
      (* "ParseNumpyHeader: failed fread" *)
  | MalformedHeaderError (keyword : string)
      (* "ParseNumpyHeader: failed to find header keyword: {}" *)
  | TruncatedFileError
      (* "LoadTheNumpyFile: failed fread" *)
  | std_out_of_range (what : string)
  | std_invalid_argument (what : string)
  | std_length_error (what : string)
  | std_bad_alloc.

Inductive outcome (A : Type) : Type :=
  | Ret (a : A)
  | Throw (e : error)
  | Abort (expr : string)      (* a failed [assert]: the process aborts *)
  | Undefined.                 (* undefined behaviour *)

Arguments Ret {A} a.
Arguments Throw {A} e.
Arguments Abort {A} expr.
Arguments Undefined {A}.

Definition bind {A B} (m : outcome A) (f : A -> outcome B) : outcome B :=
  match m with
  | Ret a => f a
  | Throw e => Throw e
  | Abort x => Abort x
  | Undefined => Undefined
  end.

Notation "x <- m ;; k" := (bind m (fun x => k))
  (at level 61, m at next level, right associativity).
Notation "' p <- m ;; k" := (bind m (fun p => k))
  (at level 61, p pattern, m at next level, right associativity).

(** [assert(cond)]: nothing, [cond] not even evaluated, when [NDEBUG] is
    defined; otherwise the process aborts when [cond] is false. *)
Definition assert (ndebug : bool) (cond : outcome bool) (expr : string)
    : outcome unit :=
  if ndebug then Ret tt
  else b <- cond ;; if b then Ret tt else Abort expr.

(** Modelled from the spec: [utility::LogError] is declared outside this
    header; every error it reports is terminal to the call. *)
Definition LogError {A} (e : error) : outcome A := Throw e.


(** ** The host element types *)

Module Dtype.

Inductive DtypeCode : Type := Undefined | Bool | Int | UInt | Float | Object.

(** Modelled from the spec: [open3d/core/Dtype.h] is not part of this
    header. A [Dtype] is what this header uses of it: the constructor
    [Dtype(code, byte_size, name)], [GetDtypeCode], [ByteSize], [ToString]
    and [==]; the seven element types and their byte sizes are those of
    the mapping table. *)
Record t : Type := mk { GetDtypeCode : DtypeCode; ByteSize : Z; ToString : string }.

Definition Float32 : t := mk Float 4 "Float32".
Definition Float64 : t := mk Float 8 "Float64".
Definition Int32 : t := mk Int 4 "Int32".
Definition Int64 : t := mk Int 8 "Int64".
Definition UInt8 : t := mk UInt 1 "UInt8".
Definition UInt16 : t := mk UInt 2 "UInt16".
Definition Bool_ : t := mk Bool 1 "Bool".

Definition code_eq_dec (a b : DtypeCode) : {a = b} + {a <> b}.
Proof. decide equality. Defined.

Definition eq_dec (a b : t) : {a = b} + {a <> b}.
Proof.
  decide equality;
    [apply string_dec | apply Z.eq_dec | apply code_eq_dec].
Defined.

Definition eqb (a b : t) : bool := if eq_dec a b then true else false.

Definition supported : list t :=
  [Float32; Float64; Int32; Int64; UInt8; UInt16; Bool_].

End Dtype.

Abbreviation Dtype := Dtype.t.

(** ** Encoding *)

(** [BigEndianChar]: ['<'] when the first byte of the int 1 is non-zero,
    that is on a little-endian host. *)
Definition BigEndianChar (little_endian_host : bool) : ascii :=
  if little_endian_host then "<"%char else ">"%char.

Definition DtypeToChar (dtype : Dtype) : outcome ascii :=
  if Dtype.eqb dtype Dtype.Float32 then Ret "f"%char
  else if Dtype.eqb dtype Dtype.Float64 then Ret "f"%char
  else if Dtype.eqb dtype Dtype.Int32 then Ret "i"%char
  else if Dtype.eqb dtype Dtype.Int64 then Ret "i"%char
  else if Dtype.eqb dtype Dtype.UInt8 then Ret "u"%char
  else if Dtype.eqb dtype Dtype.UInt16 then Ret "u"%char
  else if Dtype.eqb dtype Dtype.Bool_ then Ret "b"%char
  else LogError (UnsupportedDtypeError (Dtype.ToString dtype)).

(** Decimal text of an unsigned and of a signed integer, as [operator<<]
    and [fmt::format("{}")] print them. *)
Definition dec_N (n : N) : str := lit (NilZero.string_of_uint (N.to_uint n)).

Definition dec_Z (z : Z) : str := lit (NilZero.string_of_int (Z.to_int z)).

(** [ToByteString((uint16_t) n)]: the two bytes of the object, in the order
    the host stores them. *)
Definition ToByteString_u16 (little_endian_host : bool) (n : N) : str :=
  let v := n mod 2 ^ 16 in
  let lo := Ascii.ascii_of_N (v mod 256) in
  let hi := Ascii.ascii_of_N (v / 256) in
  if little_endian_host then [lo; hi] else [hi; lo].

(** The text of the shape: the first block of [CreateNumpyHeader]. *)
Fixpoint shape_ss_tail (rest : list N) : str :=
  match rest with
  | [] => []
  | n :: rest' => lit ", " ++ dec_N n ++ shape_ss_tail rest'
  end.

Definition shape_ss (shape : list N) : str :=
  match shape with
  | [] => lit "()"
  | [n] => lit "(" ++ dec_N n ++ lit ",)"
  | n0 :: rest =>
      lit "(" ++ dec_N n0 ++ shape_ss_tail rest
        ++ (if (List.length shape =? 1)%nat then lit "," else [])
        ++ lit ")"
  end.

(** The header dictionary before padding. *)
Definition dict_unpadded (little_endian_host : bool) (c : ascii) (dtype : Dtype)
    (shape : list N) : str :=
  lit "{'descr': '" ++ [BigEndianChar little_endian_host] ++ [c]
    ++ dec_Z (Dtype.ByteSize dtype)
    ++ lit "', 'fortran_order': False, 'shape': " ++ shape_ss shape ++ lit ", }".

Definition space_padding (dict_size : N) : N :=
  sz_sub (sz_sub 16 ((10 + dict_size) mod 16)) 1.

Definition pad_dict (dict : str) : str :=
  dict ++ repeat space (N.to_nat (space_padding (size dict))) ++ [newline].

Definition magic : str := Ascii.ascii_of_nat 147 :: lit "NUMPY".

Definition preamble (little_endian_host : bool) (dict : str) : str :=
  magic ++ [Ascii.ascii_of_nat 1] ++ [Ascii.ascii_of_nat 0]
    ++ ToByteString_u16 little_endian_host (size dict).

Definition CreateNumpyHeader (little_endian_host : bool) (shape : list N)
    (dtype : Dtype) : outcome str :=
  c <- DtypeToChar dtype ;;
  let dict := pad_dict (dict_unpadded little_endian_host c dtype shape) in
  Ret (preamble little_endian_host dict ++ dict).

(** ** The array holder *)

(** [data_holder] is a [std::shared_ptr]: [None] is the null pointer.
    [type_] is [None] while the member is uninitialised. *)
Record NumpyArray : Type := mkNumpyArray {
  data_holder : option str;
  shape_ : list N;
  type_ : option ascii;
  word_size_ : N;
  fortran_order_ : bool;
  num_elements_ : N
}.

(** The memory of the host, as far as the buffer of an array goes:
    [max_size] is [std::vector<char>::max_size()], and [grants n] tells
    whether a request of [n] bytes within [max_size] is served. *)
Record allocator : Type := mkAllocator {
  max_size : N;
  grants : N -> bool
}.

(** A request of [n] bytes that the host serves. *)
Definition allocates (mem : allocator) (n : N) : Prop :=
  n <= max_size mem /\ grants mem n = true.

(** [std::make_shared<std::vector<char>>(n)]: [std::length_error] above
    [max_size()], [std::bad_alloc] when the memory is refused, otherwise
    [n] zero bytes. *)
Definition vector_new (mem : allocator) (n : N) : outcome str :=
  if max_size mem <? n
  then Throw (std_length_error "cannot create std::vector larger than max_size()")
  else if grants mem n then Ret (repeat NUL (N.to_nat n))
  else Throw std_bad_alloc.

(** [NumpyArray(shape, type, word_size, fortran_order)]. *)
Definition NumpyArray_new (mem : allocator) (shape : list N) (type : ascii)
    (word_size : N) (fortran_order : bool) : outcome NumpyArray :=
  let num_elements := fold_left sz_mul shape 1 in
  data <- vector_new mem (sz_mul num_elements word_size) ;;
  Ret {| data_holder := Some data;
         shape_ := shape;
         type_ := Some type;
         word_size_ := word_size;
         fortran_order_ := fortran_order;
         num_elements_ := num_elements |}.

(** [NumpyArray()]: [data_holder] and [type_] have no initialiser. *)
Definition NumpyArray_default : NumpyArray :=
  {| data_holder := None;
     shape_ := [];
     type_ := None;
     word_size_ := 0;
     fortran_order_ := false;
     num_elements_ := 0 |}.

(** [GetDataPtr<char>()]: the bytes behind the pointer. The model stops at
    the byte sequence: the address of element 0 of an empty vector is taken
    as a pointer to an empty range. *)
Definition GetDataPtr (arr : NumpyArray) : outcome str :=
  match data_holder arr with
  | None => Undefined
  | Some v => Ret v
  end.

Definition GetDtype (arr : NumpyArray) : outcome Dtype :=
  match type_ arr with
  | None => Undefined
  | Some ty =>
      let ws := word_size_ arr in
      let dtype := Dtype.mk Dtype.Undefined 1 "undefined" in
      let dtype :=
        if Ascii.eqb ty "f" && (ws =? 4) then Dtype.Float32
        else if Ascii.eqb ty "f" && (ws =? 8) then Dtype.Float64
        else if Ascii.eqb ty "i" && (ws =? 4) then Dtype.Int32
        else if Ascii.eqb ty "i" && (ws =? 8) then Dtype.Int64
        else if Ascii.eqb ty "u" && (ws =? 1) then Dtype.UInt8
        else if Ascii.eqb ty "u" && (ws =? 2) then Dtype.UInt16
        else if Ascii.eqb ty "b" then Dtype.Bool_
        else dtype in
      if Dtype.code_eq_dec (Dtype.GetDtypeCode dtype) Dtype.Undefined
      then LogError (UnsupportedNumpyTypeError ty ws)
      else Ret dtype
  end.

Definition GetShape (arr : NumpyArray) : list N := shape_ arr.

Definition GetFortranOrder (arr : NumpyArray) : bool := fortran_order_ arr.

Definition NumBytes (arr : NumpyArray) : outcome N :=
  match data_holder arr with
  | None => Undefined
  | Some v => Ret (size v)
  end.

(** A write of [bytes] at offset [off] through the data pointer; the only
    way the header offers to change the buffer. Writing past the end is
    undefined. *)
Definition write_bytes (arr : NumpyArray) (off : nat) (bytes : str)
    : outcome NumpyArray :=
  match data_holder arr with
  | None => Undefined
  | Some v =>
      if (off + List.length bytes <=? List.length v)%nat then
        Ret {| data_holder :=
                 Some (firstn off v ++ bytes ++ skipn (off + List.length bytes) v);
               shape_ := shape_ arr;
               type_ := type_ arr;
               word_size_ := word_size_ arr;
               fortran_order_ := fortran_order_ arr;
               num_elements_ := num_elements_ arr |}
      else Undefined
  end.

(** ** The string operations used by the parser *)

Fixpoint prefixb (p s : str) : bool :=
  match p, s with
  | [], _ => true
  | _ :: _, [] => false
  | a :: p', b :: s' => Ascii.eqb a b && prefixb p' s'
  end.

(** [s.find(pat)]: the first position where [pat] occurs; [None] is
    [npos]. *)
Fixpoint find_at (pat s : str) (pos : N) {struct s} : option N :=
  if prefixb pat s then Some pos
  else match s with
       | [] => None
       | _ :: s' => find_at pat s' (pos + 1)
       end.

Definition find (s pat : str) : option N := find_at pat s 0.

(** [s.substr(pos, count)]: raises [std::out_of_range] when [pos] is past
    the end, otherwise at most [count] characters from [pos]. *)
Definition substr (s : str) (pos count : N) : outcome str :=
  if size s <? pos then Throw (std_out_of_range "basic_string::substr")
  else Ret (firstn (N.to_nat (N.min count (size s - pos))) (skipn (N.to_nat pos) s)).

(** [s[i]]: the character at [i], the terminator at [i = size], and
    undefined past it. *)
Definition at_index (s : str) (i : N) : outcome ascii :=
  if i <? size s then Ret (nth (N.to_nat i) s NUL)
  else if i =? size s then Ret NUL
  else Undefined.

Definition is_digit (c : ascii) : bool :=
  (48 <=? N_of_ascii c) && (N_of_ascii c <=? 57).

Fixpoint span_digits (s : str) : str * str :=
  match s with
  | [] => ([], [])
  | c :: s' =>
      if is_digit c then let (d, r) := span_digits s' in (c :: d, r)
      else ([], s)
  end.

(** [std::regex_search(s, sm, "[0-9][0-9]*")]: the leftmost, longest run of
    digits as [sm[0]], with [sm.suffix()]. *)
Fixpoint regex_search_num (s : str) : option (str * str) :=
  match s with
  | [] => None
  | c :: s' => if is_digit c then Some (span_digits s) else regex_search_num s'
  end.

Definition digit_val (c : ascii) : Z := (Z.of_N (N_of_ascii c) - 48)%Z.

Definition decimal_value (ds : str) : Z :=
  fold_left (fun acc c => (acc * 10 + digit_val c)%Z) ds 0%Z.

Definition isspace (c : ascii) : bool :=
  let n := N_of_ascii c in (n =? 32) || ((9 <=? n) && (n <=? 13)).

Fixpoint skip_space (s : str) : str :=
  match s with
  | [] => []
  | c :: s' => if isspace c then skip_space s' else s
  end.

(** The integer at the start of [s] as [strtol] reads it in base 10: white
    space, an optional sign, digits. [None] when there is no digit. *)
Definition parse_int (s : str) : option Z :=
  let s1 := skip_space s in
  let '(neg, s2) :=
    match s1 with
    | c :: r =>
        if Ascii.eqb c "-" then (true, r)
        else if Ascii.eqb c "+" then (false, r)
        else (false, s1)
    | [] => (false, [])
    end in
  match fst (span_digits s2) with
  | [] => None
  | ds => Some (if neg then (- decimal_value ds)%Z else decimal_value ds)
  end.

Definition in_int_range (v : Z) : bool := ((INT_MIN <=? v) && (v <=? INT_MAX))%Z.

(** [std::stoi(s)]. *)
Definition stoi (s : str) : outcome Z :=
  match parse_int s with
  | None => Throw (std_invalid_argument "stoi")
  | Some v => if in_int_range v then Ret v else Throw (std_out_of_range "stoi")
  end.

(** [atoi(s)]: 0 when there is no number, undefined when the value does not
    fit an [int]. *)
Definition atoi (s : str) : outcome Z :=
  match parse_int s with
  | None => Ret 0%Z
  | Some v => if in_int_range v then Ret v else Undefined
  end.

(** ** Reading a stream *)

(** An open input stream is the bytes not yet read. [fread(buf, 1, n, fp)]
    gives the bytes read and the stream after them. *)
Definition fread (n : nat) (fp : str) : str * str := (firstn n fp, skipn n fp).

(** The characters [fgets] stores: at most [n], up to and including the
    first newline. *)
Fixpoint fgets_chars (n : nat) (fp : str) : str * str :=
  match n, fp with
  | O, _ => ([], fp)
  | _, [] => ([], [])
  | S n', c :: fp' =>
      if Ascii.eqb c newline then ([c], fp')
      else let (l, r) := fgets_chars n' fp' in (c :: l, r)
  end.

(** [fgets(buffer, size, fp)]: a null pointer at the end of the stream,
    otherwise [buffer] holding at most [size - 1] characters. *)
Definition fgets (bufsize : nat) (fp : str) : option str * str :=
  match fp with
  | [] => (None, fp)
  | _ => let (l, r) := fgets_chars (bufsize - 1) fp in (Some l, r)
  end.

(** [std::string(const char* )]: the characters before the first NUL. *)
Fixpoint c_string (buffer : str) : str :=
  match buffer with
  | [] => []
  | c :: r => if Ascii.eqb c NUL then [] else c :: c_string r
  end.

(** ** Decoding *)

(** The preamble and the header line: the start of [ParseNumpyHeader], up to
    the first [assert]. *)
Definition read_header_line (ndebug : bool) (fp : str) : outcome (str * str) :=
  let '(buffer, fp) := fread 11 fp in
  if negb (List.length buffer =? 11)%nat then LogError PreambleReadError
  else
    match fgets 256 fp with
    | (None, _) => Undefined
    | (Some buffer, fp) =>
        let header := c_string buffer in
        _ <- assert ndebug
               (c <- at_index header (sz_sub (size header) 1) ;;
                Ret (Ascii.eqb c newline))
               "header[header.size() - 1] == '\n'" ;;
        Ret (header, fp)
    end.

(** The block under [// Fortran order]. *)
Definition parse_fortran_order (header : str) : outcome bool :=
  match find header (lit "fortran_order") with
  | None => LogError (MalformedHeaderError "'fortran_order'")
  | Some loc1 =>
      (* a position in a line of at most 255 characters: no wrap-around *)
      let loc1 := loc1 + 16 in
      v <- substr header loc1 4 ;;
      Ret (if str_eqb v (lit "True") then true else false)
  end.

(** The [while (std::regex_search(...))] loop; each round drops at least
    one character of [str_shape], so [fuel] above its length is never used
    up ([shape_loop_fuel]). *)
Fixpoint shape_loop (fuel : nat) (str_shape : str) (shape : list N)
    : outcome (list N) :=
  match fuel with
  | O => Ret shape
  | S fuel' =>
      match regex_search_num str_shape with
      | None => Ret shape
      | Some (sm0, suffix) =>
          v <- stoi sm0 ;;
          shape_loop fuel' suffix (shape ++ [sz_of_Z v])
      end
  end.

(** The block under [// shape]. *)
Definition parse_shape (header : str) : outcome (list N) :=
  match find header (lit "("), find header (lit ")") with
  | Some loc1, Some loc2 =>
      str_shape <- substr header (loc1 + 1) (sz_sub (sz_sub loc2 loc1) 1) ;;
      shape_loop (S (List.length str_shape)) str_shape []
  | _, _ => LogError (MalformedHeaderError "'(' or ')'")
  end.

(** The block under [// Endian, word size, data type]. *)
Definition parse_descr (ndebug : bool) (header : str) : outcome (ascii * N) :=
  match find header (lit "descr") with
  | None => LogError (MalformedHeaderError "'descr'")
  | Some loc1 =>
      let loc1 := loc1 + 9 in
      c <- at_index header loc1 ;;
      let littleEndian :=
        if Ascii.eqb c "<" || Ascii.eqb c "|" then true else false in
      _ <- assert ndebug (Ret littleEndian) "littleEndian" ;;
      type <- at_index header (loc1 + 1) ;;
      str_ws <- substr header (loc1 + 2) npos ;;
      let loc2 := match find str_ws (lit "'") with Some l => l | None => npos end in
      digits <- substr str_ws 0 loc2 ;;
      v <- atoi digits ;;
      Ret (type, sz_of_Z v)
  end.

(** [ParseNumpyHeader(fp, type, word_size, shape, fortran_order)]: the four
    reference parameters are returned, with the stream after the header. *)
Definition ParseNumpyHeader (ndebug : bool) (fp : str)
    : outcome (ascii * N * list N * bool * str) :=
  '(header, fp) <- read_header_line ndebug fp ;;
  fortran_order <- parse_fortran_order header ;;
  shape <- parse_shape header ;;
  '(type, word_size) <- parse_descr ndebug header ;;
  Ret (type, word_size, shape, fortran_order, fp).

(** ** Files *)

(** The file system a call runs in: the bytes of each file that can be
    opened for reading, the names that can be opened for writing, and the
    number of [FILE] handles that are open. *)
Record world : Type := mkWorld {
  files : string -> option str;
  can_write : string -> bool;
  open_handles : nat
}.

Definition set_file (w : world) (name : string) (bytes : str) : world :=
  {| files := fun q => if string_dec q name then Some bytes else files w q;
     can_write := can_write w;
     open_handles := open_handles w |}.

Definition handle_opened (w : world) : world :=
  {| files := files w; can_write := can_write w;
     open_handles := S (open_handles w) |}.

Definition fclose (w : world) : world :=
  {| files := files w; can_write := can_write w;
     open_handles := pred (open_handles w) |}.

(** [fopen(name, "rb")]: the bytes of the file, or null. *)
Definition fopen_rb (w : world) (name : string) : option (str * world) :=
  match files w name with
  | None => None
  | Some bytes => Some (bytes, handle_opened w)
  end.

(** [fopen(name, "wb")]: the file is created or emptied, or null. *)
Definition fopen_wb (w : world) (name : string) : option world :=
  if can_write w name then Some (handle_opened (set_file w name [])) else None.

(** [fwrite] at offset [pos] of the file. *)
Definition write_at (w : world) (name : string) (pos : nat) (bytes : str) : world :=
  match files w name with
  | None => w
  | Some old =>
      set_file w name
        (firstn pos old ++ bytes ++ skipn (pos + List.length bytes) old)
  end.

Definition file_size (w : world) (name : string) : nat :=
  match files w name with
  | None => O
  | Some old => List.length old
  end.

(** The part of [NumpyArray::Load] between [fopen] and [fclose], on the
    bytes of the opened file. *)
Definition Load_body (ndebug : bool) (mem : allocator) (fp : str)
    : outcome NumpyArray :=
  '(type, word_size, shape, fortran_order, fp) <- ParseNumpyHeader ndebug fp ;;
  arr <- NumpyArray_new mem shape type word_size fortran_order ;;
  n <- NumBytes arr ;;
  let '(got, _) := fread (N.to_nat n) fp in
  let nread := size got in
  arr <- write_bytes arr 0 got ;;
  if negb (nread =? n) then LogError TruncatedFileError
  else Ret arr.

(** [NumpyArray::Load(file_name)]: [fclose] is reached on the returning
    path only. *)
Definition Load (ndebug : bool) (mem : allocator) (w : world)
    (file_name : string) : outcome NumpyArray * world :=
  match fopen_rb w file_name with
  | None => (LogError (FileOpenError file_name), w)
  | Some (fp, w) =>
      match Load_body ndebug mem fp with
      | Ret arr => (Ret arr, fclose w)
      | Throw e => (Throw e, w)
      | Abort x => (Abort x, w)
      | Undefined => (Undefined, w)
      end
  end.

(** [std::accumulate(shape.begin(), shape.end(), 1, std::multiplies<size_t>())]:
    the initial value [1] is an [int], so the running product is kept in an
    [int]; each step multiplies as [size_t] and converts back. *)
Definition accumulate_int (shape : list N) : Z :=
  fold_left (fun acc d => int_of_sz (sz_mul (sz_of_Z acc) d)) shape 1%Z.

(** [NumpySave(fname, data, shape, dtype)]; [data] is the memory readable
    from the pointer. The result of [fopen] is not tested: with a null
    [fp] the calls on it are undefined. *)
Definition NumpySave (little_endian_host : bool) (w : world) (fname : string)
    (data : str) (shape : list N) (dtype : Dtype) : outcome unit * world :=
  let fp := fopen_wb w fname in
  let w := match fp with Some w' => w' | None => w end in
  match CreateNumpyHeader little_endian_host shape dtype with
  | Ret header =>
      let num_elements := sz_of_Z (accumulate_int shape) in
      match fp with
      | None => (Undefined, w)
      | Some _ =>
          let w := write_at w fname 0 header in
          let pos := file_size w fname in
          let nbytes := sz_of_Z (Dtype.ByteSize dtype) * num_elements in
          if size data <? nbytes then (Undefined, w)
          else
            let w := write_at w fname pos (firstn (N.to_nat nbytes) data) in
            (Ret tt, fclose w)
      end
  | Throw e => (Throw e, w)
  | Abort x => (Abort x, w)
  | Undefined => (Undefined, w)
  end.

(** ** What the specification says, for comparison with the code *)

(** The shape text in the words of the specification: [()] for rank 0,
    [(n,)] for rank 1, otherwise the dimensions separated by a comma and a
    space, with no trailing comma. *)
Fixpoint join (sep : str) (parts : list str) : str :=
  match parts with
  | [] => []
  | [x] => x
  | x :: rest => x ++ sep ++ join sep rest
  end.

Definition shape_text_spec (shape : list N) : str :=
  match shape with
  | [] => lit "()"
  | [n] => lit "(" ++ dec_N n ++ lit ",)"
  | _ => lit "(" ++ join (lit ", ") (map dec_N shape) ++ lit ")"
  end.

(** The mapping table of the specification: host type, numpy code, word
    size ([None] where the word size is ignored). *)
Definition mapping_table : list (Dtype * ascii * option N) :=
  [ (Dtype.Float32, "f"%char, Some 4);
    (Dtype.Float64, "f"%char, Some 8);
    (Dtype.Int32, "i"%char, Some 4);
    (Dtype.Int64, "i"%char, Some 8);
    (Dtype.UInt8, "u"%char, Some 1);
    (Dtype.UInt16, "u"%char, Some 2);
    (Dtype.Bool_, "b"%char, None) ].

Definition ToNumpyCode_spec (d : Dtype) : outcome ascii :=
  match List.find (fun e => Dtype.eqb d (fst (fst e))) mapping_table with
  | Some e => Ret (snd (fst e))
  | None => Throw (UnsupportedDtypeError (Dtype.ToString d))
  end.

Definition FromNumpyCode_spec (code : ascii) (wordSize : N) : outcome Dtype :=
  match List.find (fun e => Ascii.eqb code (snd (fst e)) &&
                           match snd e with
                           | Some ws => wordSize =? ws
                           | None => true
                           end) mapping_table with
  | Some e => Ret (fst (fst e))
  | None => Throw (UnsupportedNumpyTypeError code wordSize)
  end.

(** [pat] occurs in [s]. *)
Definition contains (s pat : str) : Prop := exists a b, s = a ++ pat ++ b.

(** The product of the dimensions, 1 for the empty shape. *)
Definition product (shape : list N) : N := fold_right N.mul 1 shape.

(** The invariant of an array that holds a buffer: its length is
    [num_elements_ * word_size_] in [size_t] arithmetic. *)
Definition buffer_invariant (arr : NumpyArray) : Prop :=
  exists v, data_holder arr = Some v /\
            size v = sz_mul (num_elements_ arr) (word_size_ arr).

(** The array that [NumpyArray(shape, type, word_size, fortran_order)]
    builds when its allocation is served. *)
Definition fresh_array (shape : list N) (type : ascii) (word_size : N)
    (fortran_order : bool) : NumpyArray :=
  let num_elements := fold_left sz_mul shape 1 in
  {| data_holder := Some (repeat NUL (N.to_nat (sz_mul num_elements word_size)));
     shape_ := shape;
     type_ := Some type;
     word_size_ := word_size;
     fortran_order_ := fortran_order;
     num_elements_ := num_elements |}.

(** The number of bytes [NumpyArray(shape, _, word_size, _)] asks for. *)
Definition bytes_requested (shape : list N) (word_size : N) : N :=
  sz_mul (fold_left sz_mul shape 1) word_size.

Definition no_newline (s : str) : Prop := Forall (fun c => c <> newline) s.

(** The shapes of the round-trip property. *)
Definition roundtrip_shapes : list (list N) := [[]; [5]; [2; 3]; [0]].

(** ** Worlds and files of the examples *)

(** A 64-bit host: [max_size()] of [std::vector<char>] is [2^63 - 1], and a
    request is served up to 4 GiB. *)
Definition host_memory : allocator :=
  {| max_size := 2 ^ 63 - 1; grants := fun n => n <=? 2 ^ 32 |}.

(** A host on which every request within [max_size()] is refused. *)
Definition exhausted_memory : allocator :=
  {| max_size := 2 ^ 63 - 1; grants := fun _ => false |}.

Definition empty_world : world :=
  {| files := fun _ => None; can_write := fun _ => true; open_handles := 0 |}.

(** A world in which no file can be opened for writing. *)
Definition read_only_world : world :=
  {| files := fun _ => None; can_write := fun _ => false; open_handles := 0 |}.

Definition world_with (name : string) (bytes : str) : world :=
  set_file empty_world name bytes.

(** The bytes of a file: preamble, dictionary as given, payload. *)
Definition npy_file (dict payload : str) : str :=
  preamble true dict ++ dict ++ payload.

(** Two int32 stored big-endian. *)
Definition big_endian_file : str :=
  npy_file
    (pad_dict (lit "{'descr': '>i4', 'fortran_order': False, 'shape': (2,), }"))
    (lit "abcdefgh").

Definition little_endian_file : str :=
  npy_file
    (pad_dict (lit "{'descr': '<i4', 'fortran_order': False, 'shape': (2,), }"))
    (lit "abcdefgh").

Definition byte_marker_file : str :=
  npy_file
    (pad_dict (lit "{'descr': '|u1', 'fortran_order': False, 'shape': (2,), }"))
    (lit "ab").

(** A file that ends after the closing brace of the dictionary, with no
    newline. *)
Definition unterminated_file : str :=
  npy_file (lit "{'descr': '<f4', 'fortran_order': False, 'shape': (0,), }") [].

(** A header whose dimensions multiply to [2^64 + 4], followed by 4 bytes. *)
Definition overflow_file : str :=
  npy_file
    (pad_dict (lit "{'descr': '|u1', 'fortran_order': False, 'shape': (2147418113, 1718039348, 5), }"))
    (lit "abcd").

(** A header that declares [3 * (2^31 - 1)^2] bytes, above [2^63], followed
    by 4 bytes. *)
Definition oversized_file : str :=
  npy_file
    (pad_dict (lit "{'descr': '|u1', 'fortran_order': False, 'shape': (2147483647, 2147483647, 3), }"))
    (lit "abcd").

(** A header that declares [4 * (2^31 - 1)] bytes, just under 8 GiB,
    followed by 4 bytes. *)
Definition eight_gigabyte_file : str :=
  npy_file
    (pad_dict (lit "{'descr': '<f4', 'fortran_order': False, 'shape': (2147483647, 1), }"))
    (lit "abcd").

(** A header that declares 24 bytes, followed by 8. *)
Definition truncated_file : str :=
  npy_file
    (pad_dict (lit "{'descr': '<f4', 'fortran_order': False, 'shape': (2, 3), }"))
    (lit "abcdefgh").

Definition no_fortran_order_file : str :=
  npy_file (pad_dict (lit "{'descr': '<f4', 'shape': (2,), }")) (lit "abcdefgh").

Definition no_parenthesis_file : str :=
  npy_file
    (pad_dict (lit "{'descr': '<f4', 'fortran_order': False, 'shape': 2, }"))
    (lit "abcdefgh").

Definition no_descr_file : str :=
  npy_file (pad_dict (lit "{'fortran_order': False, 'shape': (2,), }"))
    (lit "abcdefgh").

(** A dictionary cut right after the key [fortran_order]. *)
Definition cut_after_keyword_file : str :=
  npy_file (lit "{'descr': '<f4', 'fortran_order'" ++ [newline]) [].

(** No [descr], and a dimension that does not fit an [int]. *)
Definition huge_dimension_file : str :=
  npy_file (pad_dict (lit "{'fortran_order': False, 'shape': (4294967296,), }")) [].

(** ** Definitions used to state further properties *)

Definition returns_or_throws {A} (o : outcome A) : Prop :=
  match o with Ret _ | Throw _ => True | _ => False end.

Definition decimal_step (acc : Z) (c : ascii) : Z := (acc * 10 + digit_val c)%Z.

Definition dims_fit (dims : list N) : bool :=
  forallb (fun d => (Z.of_N d <=? INT_MAX)%Z) dims.

Definition shape_loop_result (shape dims : list N) : outcome (list N) :=
  if dims_fit dims then Ret (shape ++ dims)
  else Throw (std_out_of_range "stoi").

(** The text between the parentheses. *)
Definition shape_body (shape : list N) : str :=
  match shape with
  | [] => []
  | [n] => dec_N n ++ lit ","
  | n0 :: rest => dec_N n0 ++ shape_ss_tail rest
  end.

(** The characters of the shape text: digits, commas and spaces. *)
Definition body_char (c : ascii) : bool :=
  is_digit c || Ascii.eqb c "," || Ascii.eqb c " ".

Definition no_NUL (s : str) : Prop := Forall (fun c => c <> NUL) s.

(** The header line up to the shape: the dictionary without its brace. *)
Definition line_prefix (le : bool) (c : ascii) (dtype : Dtype) : str :=
  lit "'descr': '" ++ [BigEndianChar le] ++ [c]
    ++ dec_Z (Dtype.ByteSize dtype)
    ++ lit "', 'fortran_order': False, 'shape': ".

Definition plain_char (c : ascii) : Prop :=
  c <> "("%char /\ c <> ")"%char /\ c <> newline /\ c <> NUL.

(** The header line of [CreateNumpyHeader], without its newline. *)
Definition header_line (le : bool) (c : ascii) (dtype : Dtype) (shape : list N)
    : str :=
  line_prefix le c dtype ++ lit "(" ++ shape_body shape ++ lit ")" ++ lit ", }"
    ++ repeat space
         (N.to_nat (space_padding (size (dict_unpadded le c dtype shape)))).

(** A text in which a newline can only be the last character. *)
Definition one_line (s : str) : Prop :=
  exists body, no_newline body /\ (s = body \/ s = body ++ [newline]).

Definition payload24 : str := lit "abcdefghijklmnopqrstuvwx".

Definition Float16 : Dtype := Dtype.mk Dtype.Float 2 "Float16".

(** Thirty dimensions of ten digits: a header of more than 266 bytes. *)
Definition long_shape : list N := repeat 1000000000 30.

Definition shape_2_3 : list N := [2; 3].

(** 2^32 elements: the count does not fit an [int]. *)
Definition shape_64k_64k : list N := [65536; 65536].

Definition file_with_trailing_bytes : str := little_endian_file ++ lit "trailing".

(** The bytes [CreateNumpyHeader] returns; empty when it raises. *)
Definition header_of (le : bool) (shape : list N) (dtype : Dtype) : str :=
  match CreateNumpyHeader le shape dtype with
  | Ret header => header
  | _ => []
  end.

(** No element, and a dimension of 2^32. *)
Definition shape_0_4G : list N := [0; 4294967296].

(** * Properties *)

(** ** Arithmetic of [size_t] *)

Lemma sz_sub_small (a b : N) : b <= a -> a < SIZE_MOD -> sz_sub a b = a - b.
Proof.
  intros Hba Ha. unfold sz_sub.
  rewrite (N.mod_small b) by lia.
  replace (a + SIZE_MOD - b) with ((a - b) + 1 * SIZE_MOD) by lia.
  rewrite N.Div0.mod_add. apply N.mod_small. lia.
Qed.

Lemma fold_left_sz_mul (shape : list N) (a : N) :
  fold_left sz_mul shape (a mod SIZE_MOD) = (a * product shape) mod SIZE_MOD.
Proof.
  revert a. induction shape as [|d shape IH]; intros a.
  - simpl. now rewrite N.mul_1_r.
  - cbn [fold_left product fold_right].
    change (sz_mul (a mod SIZE_MOD) d) with ((a mod SIZE_MOD * d) mod SIZE_MOD).
    rewrite IH.
    rewrite <- N.mul_assoc, N.Div0.mul_mod_idemp_l. reflexivity.
Qed.

Lemma num_elements_product (shape : list N) :
  fold_left sz_mul shape 1 = product shape mod SIZE_MOD.
Proof.
  change 1 with (1 mod SIZE_MOD) at 1.
  rewrite fold_left_sz_mul. now rewrite N.mul_1_l.
Qed.

Lemma sz_product_exact (shape : list N) (ws : N) :
  product shape * ws < SIZE_MOD ->
  (product shape mod SIZE_MOD * ws) mod SIZE_MOD = product shape * ws.
Proof.
  intros Hlt. destruct (N.eq_dec ws 0) as [->|Hws].
  - now rewrite !N.mul_0_r.
  - assert (Hp : product shape < SIZE_MOD) by nia.
    rewrite (N.mod_small _ _ Hp). now apply N.mod_small.
Qed.

Lemma size_repeat (c : ascii) (n : N) : size (repeat c (N.to_nat n)) = n.
Proof. unfold size. rewrite repeat_length. apply N2Nat.id. Qed.

Lemma size_app (a b : str) : size (a ++ b) = size a + size b.
Proof. unfold size. rewrite length_app. lia. Qed.

(** ** Shape text *)

Lemma shape_ss_tail_join (n : N) (rest : list N) :
  dec_N n ++ shape_ss_tail rest = join (lit ", ") (map dec_N (n :: rest)).
Proof.
  revert n. induction rest as [|m rest IH]; intros n.
  - simpl. apply app_nil_r.
  - change (shape_ss_tail (m :: rest))
      with (lit ", " ++ dec_N m ++ shape_ss_tail rest).
    rewrite IH. reflexivity.
Qed.

Lemma shape_ss_spec (shape : list N) : shape_ss shape = shape_text_spec shape.
Proof.
  destruct shape as [|n0 [|n1 rest]]; try reflexivity.
  unfold shape_ss, shape_text_spec.
  rewrite <- shape_ss_tail_join.
  cbn [List.length Nat.eqb]. rewrite app_nil_l, <- !app_assoc. reflexivity.
Qed.

(** C10: the shape text put into the header is [()] for rank 0, [(n,)] for
    rank 1, and for rank 2 and more the dimensions separated by a comma and
    a space with no trailing comma; [(5,)] gives "(5,)" and [(2,3)] gives
    "(2, 3)", and this text follows ['shape': ] in the dictionary of every
    supported element type. *)
Theorem shape_text_rendering :
  shape_ss [] = lit "()" /\
  (forall n, shape_ss [n] = lit "(" ++ dec_N n ++ lit ",)") /\
  (forall n0 n1 rest,
     shape_ss (n0 :: n1 :: rest)
     = lit "(" ++ join (lit ", ") (map dec_N (n0 :: n1 :: rest)) ++ lit ")") /\
  shape_ss [5] = lit "(5,)" /\
  shape_ss [2; 3] = lit "(2, 3)" /\
  (forall le shape,
     Forall (fun dtype =>
               exists pre post,
                 CreateNumpyHeader le shape dtype
                 = Ret (pre ++ lit "'shape': " ++ shape_text_spec shape
                            ++ lit ", }" ++ post)
                 /\ Forall (fun c => c = space \/ c = newline) post)
            Dtype.supported).
Proof.
  split; [reflexivity|].
  split; [reflexivity|].
  split; [intros; apply (shape_ss_spec (n0 :: n1 :: rest))|].
  split; [reflexivity|].
  split; [reflexivity|].
  intros le shape.
  repeat constructor.
  all: match goal with
       | |- exists pre post, CreateNumpyHeader ?le ?shape ?d = _ /\ _ =>
           unfold CreateNumpyHeader;
           destruct (DtypeToChar d) as [c| | |] eqn:Hc; try discriminate Hc;
           exists (preamble le (pad_dict (dict_unpadded le c d shape))
                     ++ lit "{'descr': '" ++ [BigEndianChar le] ++ [c]
                     ++ dec_Z (Dtype.ByteSize d)
                     ++ lit "', 'fortran_order': False, "),
             (repeat space
                (N.to_nat (space_padding (size (dict_unpadded le c d shape))))
                ++ [newline])
       end.
  all: split;
    [ cbn [bind]; f_equal; rewrite <- !app_assoc; f_equal;
      unfold pad_dict, dict_unpadded; rewrite <- shape_ss_spec;
      rewrite <- !app_assoc; reflexivity
    | apply Forall_app; split;
      [ apply Forall_forall; intros x Hx; left; apply (repeat_spec _ _ _ Hx)
      | repeat constructor; now right ] ].
Qed.

(** ** Element-type mapping *)

Lemma Dtype_eqb_neq (d e : Dtype) : d <> e -> Dtype.eqb d e = false.
Proof. unfold Dtype.eqb. destruct (Dtype.eq_dec d e); congruence. Qed.

Lemma DtypeToChar_table (d : Dtype) : DtypeToChar d = ToNumpyCode_spec d.
Proof.
  unfold DtypeToChar, ToNumpyCode_spec, LogError.
  cbn [List.find mapping_table fst snd].
  repeat (match goal with
          | |- context [Dtype.eqb d ?x] => destruct (Dtype.eqb d x)
          end; [reflexivity|]).
  reflexivity.
Qed.

Lemma DtypeToChar_supported (d : Dtype) :
  In d Dtype.supported -> exists c, DtypeToChar d = Ret c.
Proof.
  intros H. simpl in H.
  repeat (destruct H as [<-|H]; [eexists; reflexivity|]).
  contradiction.
Qed.

Lemma DtypeToChar_unsupported (d : Dtype) :
  ~ In d Dtype.supported ->
  DtypeToChar d = Throw (UnsupportedDtypeError (Dtype.ToString d)).
Proof.
  intros H. unfold DtypeToChar, LogError.
  rewrite !Dtype_eqb_neq; [reflexivity | ..];
    intros ->; apply H; simpl; tauto.
Qed.

Lemma supported_NoDup : NoDup Dtype.supported.
Proof.
  unfold Dtype.supported.
  repeat (constructor; [simpl; intuition discriminate|]).
  constructor.
Qed.

Lemma GetDtype_table dh sh (ty : ascii) (ws : N) fo ne :
  GetDtype (mkNumpyArray dh sh (Some ty) ws fo ne) = FromNumpyCode_spec ty ws.
Proof.
  unfold GetDtype, FromNumpyCode_spec, LogError.
  cbn [type_ word_size_ List.find mapping_table fst snd].
  repeat (match goal with
          | |- context [Ascii.eqb ty ?c && (ws =? ?k)] =>
              destruct (Ascii.eqb ty c && (ws =? k)); [reflexivity|]
          end).
  rewrite andb_true_r.
  destruct (Ascii.eqb ty "b"); reflexivity.
Qed.

(** C4, as the claim words it: the types [DtypeToChar] accepts would be the
    entries of a table of six. They are not: seven distinct element types
    are accepted. *)
Lemma mapping_table_not_six_entries :
  ~ (exists table : list Dtype,
        List.length table = 6%nat /\
        forall d, In d table <-> exists c, DtypeToChar d = Ret c).
Proof.
  intros [table [Hlen Htable]].
  assert (Hincl : incl Dtype.supported table).
  { intros d Hd. apply Htable. now apply DtypeToChar_supported. }
  pose proof (NoDup_incl_length supported_NoDup Hincl) as Hle.
  rewrite Hlen in Hle. simpl in Hle. lia.
Qed.

(** C4 (amended): the mapping is total on, and closed over, the table of
    seven entries. [DtypeToChar] is the table lookup: it gives the code of
    each of Float32, Float64, Int32, Int64, UInt8, UInt16 and Bool, and
    raises [UnsupportedDtypeError] for every other host type. [GetDtype] is
    the inverse lookup: it raises [UnsupportedNumpyTypeError] for every pair
    outside the table, such as [('f', 2)], and for code ['b'] the word size
    is ignored. *)
Theorem mapping_total_and_closed :
  List.length mapping_table = 7%nat /\
  map (fun e => fst (fst e)) mapping_table = Dtype.supported /\
  NoDup Dtype.supported /\
  (forall d, DtypeToChar d = ToNumpyCode_spec d) /\
  Forall (fun e => DtypeToChar (fst (fst e)) = Ret (snd (fst e))) mapping_table /\
  (forall d, ~ In d Dtype.supported ->
             DtypeToChar d = Throw (UnsupportedDtypeError (Dtype.ToString d))) /\
  (forall dh sh ty ws fo ne,
     GetDtype (mkNumpyArray dh sh (Some ty) ws fo ne) = FromNumpyCode_spec ty ws) /\
  (forall dh sh fo ne,
     GetDtype (mkNumpyArray dh sh (Some "f"%char) 2 fo ne)
     = Throw (UnsupportedNumpyTypeError "f" 2)) /\
  (forall dh sh ws fo ne,
     GetDtype (mkNumpyArray dh sh (Some "b"%char) ws fo ne) = Ret Dtype.Bool_).
Proof.
  split; [reflexivity|].
  split; [reflexivity|].
  split; [exact supported_NoDup|].
  split; [exact DtypeToChar_table|].
  split; [repeat constructor|].
  split; [exact DtypeToChar_unsupported|].
  split; [exact GetDtype_table|].
  split; [reflexivity|].
  intros. rewrite GetDtype_table. reflexivity.
Qed.

(** A 16-bit float is not in the table: encoding it raises
    [UnsupportedDtypeError]. *)
Lemma mapping_total_and_closed_witness :
  ~ In (Dtype.mk Dtype.Float 2 "Float16") Dtype.supported /\
  DtypeToChar (Dtype.mk Dtype.Float 2 "Float16")
  = Throw (UnsupportedDtypeError "Float16").
Proof.
  assert (H : ~ In (Dtype.mk Dtype.Float 2 "Float16") Dtype.supported).
  { simpl. intuition discriminate. }
  split; [exact H|].
  exact (proj1 (proj2 (proj2 (proj2 (proj2 (proj2 mapping_total_and_closed)))))
           (Dtype.mk Dtype.Float 2 "Float16") H).
Defined.

(** ** The array holder's buffer *)

Lemma vector_new_ok (mem : allocator) (n : N) :
  allocates mem n -> vector_new mem n = Ret (repeat NUL (N.to_nat n)).
Proof.
  intros [Hmax Hg]. unfold vector_new.
  destruct (max_size mem <? n) eqn:Hlt.
  - apply N.ltb_lt in Hlt. lia.
  - now rewrite Hg.
Qed.

Lemma vector_new_inv (mem : allocator) (n : N) (v : str) :
  vector_new mem n = Ret v -> allocates mem n /\ v = repeat NUL (N.to_nat n).
Proof.
  unfold vector_new, allocates.
  destruct (max_size mem <? n) eqn:Hlt; [discriminate|].
  destruct (grants mem n) eqn:Hg; [|discriminate].
  intros [= <-]. apply N.ltb_ge in Hlt. auto.
Qed.

Lemma vector_new_throws (mem : allocator) (n : N) :
  ~ allocates mem n ->
  vector_new mem n
  = Throw (if max_size mem <? n
           then std_length_error "cannot create std::vector larger than max_size()"
           else std_bad_alloc).
Proof.
  intros Hno. unfold vector_new.
  destruct (max_size mem <? n) eqn:Hlt; [reflexivity|].
  destruct (grants mem n) eqn:Hg; [|reflexivity].
  exfalso. apply Hno. apply N.ltb_ge in Hlt. now split.
Qed.

Lemma NumpyArray_new_ok (mem : allocator) shape type word_size fo :
  allocates mem (bytes_requested shape word_size) ->
  NumpyArray_new mem shape type word_size fo
  = Ret (fresh_array shape type word_size fo).
Proof.
  intros Ha. unfold NumpyArray_new.
  unfold bytes_requested in Ha. now rewrite (vector_new_ok _ _ Ha).
Qed.

Lemma NumpyArray_new_inv (mem : allocator) shape type word_size fo arr :
  NumpyArray_new mem shape type word_size fo = Ret arr ->
  allocates mem (bytes_requested shape word_size) /\
  arr = fresh_array shape type word_size fo.
Proof.
  unfold NumpyArray_new, bytes_requested.
  destruct (vector_new mem (sz_mul (fold_left sz_mul shape 1) word_size))
    as [v| | |] eqn:Hv; try discriminate.
  cbn [bind]. intros [= <-].
  destruct (vector_new_inv _ _ _ Hv) as [Ha ->]. now split.
Qed.

Lemma NumpyArray_new_throws (mem : allocator) shape type word_size fo :
  ~ allocates mem (bytes_requested shape word_size) ->
  NumpyArray_new mem shape type word_size fo
  = Throw (if max_size mem <? bytes_requested shape word_size
           then std_length_error "cannot create std::vector larger than max_size()"
           else std_bad_alloc).
Proof.
  intros Hno. unfold NumpyArray_new.
  unfold bytes_requested in *. now rewrite (vector_new_throws _ _ Hno).
Qed.

Lemma fresh_array_invariant shape type word_size fo :
  buffer_invariant (fresh_array shape type word_size fo).
Proof.
  eexists. split; [reflexivity|]. apply size_repeat.
Qed.

Lemma NumpyArray_new_invariant (mem : allocator) shape type word_size fo arr :
  NumpyArray_new mem shape type word_size fo = Ret arr -> buffer_invariant arr.
Proof.
  intros H. destruct (NumpyArray_new_inv _ _ _ _ _ _ H) as [_ ->].
  apply fresh_array_invariant.
Qed.

Lemma write_bytes_length (arr arr' : NumpyArray) (off : nat) (bytes : str) :
  write_bytes arr off bytes = Ret arr' ->
  exists v v', data_holder arr = Some v /\ data_holder arr' = Some v' /\
               List.length v' = List.length v /\
               shape_ arr' = shape_ arr /\ type_ arr' = type_ arr /\
               word_size_ arr' = word_size_ arr /\
               fortran_order_ arr' = fortran_order_ arr /\
               num_elements_ arr' = num_elements_ arr.
Proof.
  unfold write_bytes. destruct (data_holder arr) as [v|]; [|discriminate].
  destruct (off + List.length bytes <=? List.length v)%nat eqn:Hfit;
    [|discriminate].
  intros [= <-]. exists v. eexists. repeat split.
  apply Nat.leb_le in Hfit. cbn [data_holder].
  rewrite !length_app, length_firstn, length_skipn. lia.
Qed.

Lemma write_bytes_invariant (arr arr' : NumpyArray) (off : nat) (bytes : str) :
  buffer_invariant arr -> write_bytes arr off bytes = Ret arr' ->
  buffer_invariant arr' /\ NumBytes arr' = NumBytes arr.
Proof.
  intros [v0 [Hv0 Hsize]] Hw.
  destruct (write_bytes_length _ _ _ _ Hw)
    as (v & v' & Hv & Hv' & Hlen & _ & _ & Hws & _ & Hne).
  rewrite Hv in Hv0. injection Hv0 as ->.
  split.
  - exists v'. split; [exact Hv'|]. unfold size. rewrite Hlen, Hws, Hne.
    exact Hsize.
  - unfold NumBytes. rewrite Hv, Hv'. unfold size. now rewrite Hlen.
Qed.

(** [Load_body] once the header is parsed and the constructor has returned. *)
Lemma Load_body_steps (ndebug : bool) (mem : allocator) (fp : str) :
  Load_body ndebug mem fp
  = ('(type, word_size, shape, fortran_order, fp) <- ParseNumpyHeader ndebug fp ;;
     arr <- NumpyArray_new mem shape type word_size fortran_order ;;
     n <- NumBytes arr ;;
     arr <- write_bytes arr 0 (firstn (N.to_nat n) fp) ;;
     if negb (size (firstn (N.to_nat n) fp) =? n) then LogError TruncatedFileError
     else Ret arr).
Proof.
  unfold Load_body.
  destruct (ParseNumpyHeader ndebug fp)
    as [[[[[type ws] shape] fo] rest]| | |]; reflexivity.
Qed.

Lemma Load_body_invariant (ndebug : bool) (mem : allocator) (fp : str)
    (arr : NumpyArray) :
  Load_body ndebug mem fp = Ret arr -> buffer_invariant arr.
Proof.
  rewrite Load_body_steps.
  destruct (ParseNumpyHeader ndebug fp)
    as [[[[[type ws] shape] fo] rest]| | |]; try discriminate.
  cbn [bind].
  destruct (NumpyArray_new mem shape type ws fo) as [arr0| | |] eqn:Hnew;
    try discriminate.
  cbn [bind].
  destruct (NumBytes arr0) as [n| | |]; try discriminate.
  cbn [bind].
  destruct (write_bytes arr0 0 (firstn (N.to_nat n) rest))
    as [arr'| | |] eqn:Hw; try discriminate.
  cbn [bind].
  destruct (negb (size (firstn (N.to_nat n) rest) =? n)); [discriminate|].
  intros [= <-].
  exact (proj1 (write_bytes_invariant _ _ _ _
                  (NumpyArray_new_invariant _ _ _ _ _ _ Hnew) Hw)).
Qed.

(** C7: the default constructor leaves the holder null. [NumpyArray()] sets
    the empty shape, word size 0 and 0 elements, and never initialises
    [data_holder]: there is no empty buffer, [NumBytes()] and
    [GetDataPtr()] dereference the null pointer, and the invariant of the
    claim does not hold of that array. The constructor from a shape
    allocates even when no byte is asked for (shape [(0)], or word size 0),
    and [NumBytes()] of its array is 0. A second departure: the element
    count and the byte count are computed in [size_t], so shape
    [(2^32, 2^32)] with word size 1 gives element count 0 and an empty
    buffer where the claim has [2^64] bytes. What holds: every array the
    constructor from a shape returns has element count
    [product(shape) mod 2^64] (1 for the empty shape) and a zero-filled
    buffer of [num_elements_ * word_size_] bytes ([size_t] arithmetic,
    which is [product(shape) * word_size] when that is below [2^64]); the
    constructor returns whenever the memory is granted and raises
    [std::length_error] or [std::bad_alloc] otherwise; a write through the
    data pointer keeps the length; and every array [Load] returns satisfies
    the invariant. *)
Theorem array_buffer_invariant :
  (shape_ NumpyArray_default = [] /\
   word_size_ NumpyArray_default = 0 /\
   num_elements_ NumpyArray_default = 0 /\
   data_holder NumpyArray_default = None /\
   NumBytes NumpyArray_default = Undefined /\
   GetDataPtr NumpyArray_default = Undefined /\
   ~ buffer_invariant NumpyArray_default) /\
  (exists arr, NumpyArray_new host_memory [0] "u" 1 false = Ret arr /\
               data_holder arr = Some [] /\ NumBytes arr = Ret 0) /\
  (exists arr, NumpyArray_new host_memory [] "u" 0 false = Ret arr /\
               data_holder arr = Some [] /\ NumBytes arr = Ret 0) /\
  (exists arr,
     NumpyArray_new host_memory [4294967296; 4294967296] "u" 1 false = Ret arr /\
     product [4294967296; 4294967296] * 1 = 18446744073709551616 /\
     num_elements_ arr = 0 /\ data_holder arr = Some [] /\
     NumBytes arr = Ret 0) /\
  (forall mem shape type word_size fo arr,
     NumpyArray_new mem shape type word_size fo = Ret arr ->
     allocates mem (bytes_requested shape word_size) /\
     shape_ arr = shape /\ type_ arr = Some type /\
     word_size_ arr = word_size /\ fortran_order_ arr = fo /\
     num_elements_ arr = product shape mod SIZE_MOD /\
     (shape = [] -> num_elements_ arr = 1) /\
     data_holder arr
       = Some (repeat NUL (N.to_nat (sz_mul (num_elements_ arr) word_size))) /\
     NumBytes arr = Ret (sz_mul (num_elements_ arr) (word_size_ arr)) /\
     (product shape * word_size < SIZE_MOD ->
      NumBytes arr = Ret (product shape * word_size)) /\
     buffer_invariant arr) /\
  (forall mem shape type word_size fo,
     allocates mem (bytes_requested shape word_size) ->
     exists arr, NumpyArray_new mem shape type word_size fo = Ret arr) /\
  (forall mem shape type word_size fo,
     ~ allocates mem (bytes_requested shape word_size) ->
     NumpyArray_new mem shape type word_size fo
     = Throw (if max_size mem <? bytes_requested shape word_size
              then std_length_error
                     "cannot create std::vector larger than max_size()"
              else std_bad_alloc)) /\
  (forall arr off bytes arr',
     buffer_invariant arr -> write_bytes arr off bytes = Ret arr' ->
     buffer_invariant arr' /\ NumBytes arr' = NumBytes arr) /\
  (forall ndebug mem fp arr,
     Load_body ndebug mem fp = Ret arr -> buffer_invariant arr).
Proof.
  split.
  { repeat split. intros [v [Hv _]]. discriminate Hv. }
  split; [eexists; repeat split|].
  split; [eexists; repeat split|].
  split; [eexists; repeat split|].
  split.
  { intros mem shape type word_size fo arr H.
    destruct (NumpyArray_new_inv _ _ _ _ _ _ H) as [Ha ->].
    assert (Hn : NumBytes (fresh_array shape type word_size fo)
                 = Ret (sz_mul (fold_left sz_mul shape 1) word_size)).
    { unfold NumBytes. cbn [data_holder fresh_array]. now rewrite size_repeat. }
    split; [exact Ha|]. do 4 (split; [reflexivity|]).
    split; [apply num_elements_product|].
    split; [intros ->; reflexivity|].
    split; [reflexivity|].
    split; [exact Hn|].
    split; [|apply fresh_array_invariant].
    intros Hlt. rewrite Hn. f_equal. unfold sz_mul.
    rewrite num_elements_product. now apply sz_product_exact. }
  split.
  { intros mem shape type word_size fo Ha. eexists.
    now apply NumpyArray_new_ok. }
  split; [intros mem shape type word_size fo; apply NumpyArray_new_throws|].
  split; [intros arr off bytes arr'; apply write_bytes_invariant|].
  exact Load_body_invariant.
Qed.

(** A two-byte array is constructed on a host that grants the memory; a
    request above [max_size()] is refused; the array, overwritten through
    its data pointer, and a loaded file both keep the invariant. *)
Lemma array_buffer_invariant_witness :
  (NumpyArray_new host_memory [2] "u" 1 false
   = Ret (fresh_array [2] "u" 1 false) /\
   buffer_invariant (fresh_array [2] "u" 1 false)) /\
  (allocates host_memory (bytes_requested [2] 1) /\
   exists arr, NumpyArray_new host_memory [2] "u" 1 false = Ret arr) /\
  (~ allocates host_memory (bytes_requested [8589934592] 1) /\
   NumpyArray_new host_memory [8589934592] "u" 1 false
   = Throw std_bad_alloc) /\
  (write_bytes (fresh_array [2] "u" 1 false) 0 (lit "ab")
   = Ret (mkNumpyArray (Some (lit "ab")) [2] (Some "u"%char) 1 false 2) /\
   buffer_invariant
     (mkNumpyArray (Some (lit "ab")) [2] (Some "u"%char) 1 false 2)) /\
  (Load_body false host_memory
     (lit "01234567890'descr': '|u1', 'fortran_order': False, 'shape': (2,), }"
        ++ [newline] ++ lit "ab")
   = Ret (mkNumpyArray (Some (lit "ab")) [2] (Some "u"%char) 1 false 2) /\
   buffer_invariant
     (mkNumpyArray (Some (lit "ab")) [2] (Some "u"%char) 1 false 2)).
Proof.
  pose proof array_buffer_invariant
    as (_ & _ & _ & _ & Hnew & Hok & Hthrow & Hwrite & Hload).
  assert (Hn : NumpyArray_new host_memory [2] "u" 1 false
               = Ret (fresh_array [2] "u" 1 false)) by reflexivity.
  assert (Ha : allocates host_memory (bytes_requested [2] 1)).
  { split; [vm_compute; discriminate|reflexivity]. }
  assert (Hno : ~ allocates host_memory (bytes_requested [8589934592] 1)).
  { intros [_ Hg]. vm_compute in Hg. discriminate Hg. }
  assert (Hinv : buffer_invariant (fresh_array [2] "u" 1 false)).
  { exact (proj2 (proj2 (proj2 (proj2 (proj2 (proj2 (proj2 (proj2 (proj2
             (proj2 (Hnew _ _ _ _ _ _ Hn))))))))))). }
  assert (Hw : write_bytes (fresh_array [2] "u" 1 false) 0 (lit "ab")
               = Ret (mkNumpyArray (Some (lit "ab")) [2] (Some "u"%char) 1
                        false 2)).
  { reflexivity. }
  assert (Hl : Load_body false host_memory
                 (lit "01234567890'descr': '|u1', 'fortran_order': False, 'shape': (2,), }"
                    ++ [newline] ++ lit "ab")
               = Ret (mkNumpyArray (Some (lit "ab")) [2] (Some "u"%char) 1
                        false 2)).
  { vm_compute. reflexivity. }
  split; [split; [exact Hn|exact Hinv]|].
  split; [split; [exact Ha|exact (Hok _ _ "u"%char _ false Ha)]|].
  split; [split; [exact Hno|exact (Hthrow _ _ "u"%char _ false Hno)]|].
  split.
  - split; [exact Hw|]. exact (proj1 (Hwrite _ _ _ _ Hinv Hw)).
  - split; [exact Hl|]. exact (Hload _ _ _ _ Hl).
Defined.

(** ** The padded dictionary *)

Lemma no_newline_app (a b : str) :
  no_newline a -> no_newline b -> no_newline (a ++ b).
Proof. intros Ha Hb. apply Forall_app. now split. Qed.

Lemma no_newline_In (s : str) : no_newline s -> ~ In newline s.
Proof.
  intros H Hin. unfold no_newline in H. rewrite Forall_forall in H.
  now apply (H _ Hin).
Qed.

Lemma digit_not_newline (c : ascii) : is_digit c = true -> c <> newline.
Proof. intros H ->. discriminate H. Qed.

Lemma string_of_uint_digits (d : Decimal.uint) :
  Forall (fun c => is_digit c = true) (lit (NilEmpty.string_of_uint d)).
Proof.
  induction d; cbn [NilEmpty.string_of_uint lit list_ascii_of_string];
    constructor; try reflexivity; exact IHd.
Qed.

Lemma dec_N_digits (n : N) : Forall (fun c => is_digit c = true) (dec_N n).
Proof.
  unfold dec_N, NilZero.string_of_uint.
  destruct (N.to_uint n) eqn:E; try (rewrite <- E; apply string_of_uint_digits).
  repeat constructor.
Qed.

Lemma dec_N_no_newline (n : N) : no_newline (dec_N n).
Proof.
  eapply Forall_impl; [|apply dec_N_digits].
  intros c. apply digit_not_newline.
Qed.

Lemma shape_ss_tail_no_newline (rest : list N) : no_newline (shape_ss_tail rest).
Proof.
  induction rest as [|n rest IH]; [constructor|].
  cbn [shape_ss_tail]. apply no_newline_app; [repeat constructor; discriminate|].
  apply no_newline_app; [apply dec_N_no_newline | exact IH].
Qed.

Lemma shape_ss_no_newline (shape : list N) : no_newline (shape_ss shape).
Proof.
  rewrite shape_ss_spec. destruct shape as [|n0 [|n1 rest]].
  - repeat constructor; discriminate.
  - cbn [shape_text_spec].
    repeat apply no_newline_app; try apply dec_N_no_newline;
      repeat constructor; discriminate.
  - rewrite <- shape_ss_spec. unfold shape_ss.
    repeat apply no_newline_app;
      try apply dec_N_no_newline; try apply shape_ss_tail_no_newline;
      cbn [List.length Nat.eqb]; repeat constructor; discriminate.
Qed.

Lemma space_padding_spec (L : N) :
  space_padding L = 16 - (10 + L) mod 16 - 1 /\ space_padding L <= 15.
Proof.
  assert (Hr : (10 + L) mod 16 < 16) by (apply N.mod_lt; discriminate).
  unfold space_padding.
  set (r := (10 + L) mod 16) in *.
  assert (H16 : 16 < SIZE_MOD) by reflexivity.
  rewrite (sz_sub_small 16 r) by lia.
  rewrite sz_sub_small by lia.
  lia.
Qed.

Lemma padded_size_multiple (L : N) :
  (10 + (L + space_padding L + 1)) mod 16 = 0.
Proof.
  destruct (space_padding_spec L) as [-> _].
  assert (Hr : (10 + L) mod 16 < 16) by (apply N.mod_lt; discriminate).
  pose proof (N.div_mod (10 + L) 16 ltac:(discriminate)) as Hdm.
  set (r := (10 + L) mod 16) in *. set (q := (10 + L) / 16) in *.
  replace (10 + (L + (16 - r - 1) + 1)) with ((1 + q) * 16) by lia.
  apply N.Div0.mod_mul.
Qed.

(** C2: for every shape and every supported element type, on either host,
    with [L] the length of the dictionary before padding, the number of
    padding spaces is [P = 16 - (10 + L) % 16 - 1] and lies in [0, 15]; the
    header is the 10-byte preamble followed by the dictionary;
    [10 + length of the final dictionary] is a multiple of 16; and the
    dictionary is a text without newline followed by one newline. *)
Theorem header_padding_invariant : forall le shape,
  Forall (fun dtype =>
            exists c, DtypeToChar dtype = Ret c /\
              let unpadded := dict_unpadded le c dtype shape in
              let L := size unpadded in
              let P := space_padding L in
              let dict := pad_dict unpadded in
              P = 16 - (10 + L) mod 16 - 1 /\
              0 <= P <= 15 /\
              dict = unpadded ++ repeat space (N.to_nat P) ++ [newline] /\
              CreateNumpyHeader le shape dtype = Ret (preamble le dict ++ dict) /\
              size (preamble le dict) = 10 /\
              (10 + size dict) mod 16 = 0 /\
              exists body, dict = body ++ [newline] /\ ~ In newline body)
         Dtype.supported.
Proof.
  intros le shape.
  repeat constructor.
  all: eexists; split; [reflexivity|].
  all: cbv zeta.
  all: match goal with
       | |- context [space_padding ?L] =>
           destruct (space_padding_spec L) as [Heq Hle]
       end.
  all: split; [exact Heq|].
  all: split; [split; [apply N.le_0_l | exact Hle]|].
  all: split; [reflexivity|].
  all: split; [reflexivity|].
  all: split; [destruct le; reflexivity|].
  all: split;
    [ unfold pad_dict; rewrite !size_app, size_repeat;
      change (size [newline]) with 1;
      match goal with
      | |- (10 + (?L + (?P + 1))) mod 16 = 0 =>
          replace (10 + (L + (P + 1))) with (10 + (L + P + 1)) by lia;
          apply padded_size_multiple
      end |].
  all: match goal with
       | |- exists body, pad_dict ?u = _ /\ _ =>
           exists (u ++ repeat space (N.to_nat (space_padding (size u))))
       end.
  all: split; [unfold pad_dict; now rewrite <- app_assoc|].
  all: apply no_newline_In, no_newline_app;
    [ unfold dict_unpadded;
      repeat apply no_newline_app; try apply shape_ss_no_newline;
      destruct le; repeat constructor; discriminate
    | apply Forall_forall; intros x Hx; rewrite (repeat_spec _ _ _ Hx);
      discriminate ].
Qed.

(** ** Saving and loading *)

Lemma files_set_file (w : world) (name : string) (bytes : str) :
  files (set_file w name bytes) name = Some bytes.
Proof.
  unfold set_file. cbn [files].
  destruct (string_dec name name); congruence.
Qed.

Lemma write_at_append (w : world) (name : string) (old bytes : str) :
  files w name = Some old ->
  files (write_at w name (List.length old) bytes) name = Some (old ++ bytes).
Proof.
  intros Hold. unfold write_at. rewrite Hold, files_set_file.
  rewrite firstn_all, skipn_all2 by lia. now rewrite app_nil_r.
Qed.

Lemma open_handles_write_at (w : world) (name : string) (pos : nat) (bytes : str) :
  open_handles (write_at w name pos bytes) = open_handles w.
Proof. unfold write_at. destruct (files w name); reflexivity. Qed.

(** What a successful [NumpySave] leaves behind: the header followed by the
    payload, and no handle left open. *)
Lemma NumpySave_writes le (w : world) (fname : string) (data : str)
    (shape : list N) (dtype : Dtype) (header : str) :
  can_write w fname = true ->
  CreateNumpyHeader le shape dtype = Ret header ->
  size data = sz_of_Z (Dtype.ByteSize dtype) * sz_of_Z (accumulate_int shape) ->
  exists w1,
    NumpySave le w fname data shape dtype = (Ret tt, w1) /\
    files w1 fname = Some (header ++ data) /\
    open_handles w1 = open_handles w.
Proof.
  intros Hcw Hheader Hsize.
  unfold NumpySave, fopen_wb. rewrite Hcw, Hheader, <- Hsize.
  rewrite N.ltb_irrefl.
  eexists. split; [reflexivity|].
  split; [|cbn [fclose open_handles]; now rewrite !open_handles_write_at].
  cbn [fclose files].
  set (w0 := handle_opened (set_file w fname [])).
  assert (H0 : files w0 fname = Some []) by apply files_set_file.
  assert (H1 : files (write_at w0 fname 0 header) fname = Some header).
  { apply (write_at_append w0 fname [] header H0). }
  unfold file_size. rewrite H1.
  unfold size. rewrite Nat2N.id, firstn_all.
  now apply write_at_append.
Qed.

(** [Load] on a file whose bytes [Load_body] decodes. *)
Lemma Load_of_file ndebug mem (w : world) (fname : string) (bytes : str)
    (arr : NumpyArray) :
  files w fname = Some bytes ->
  Load_body ndebug mem bytes = Ret arr ->
  Load ndebug mem w fname = (Ret arr, fclose (handle_opened w)).
Proof.
  intros Hf Hb. unfold Load, fopen_rb. now rewrite Hf, Hb.
Qed.

(** After the header, a payload of exactly the declared size becomes the
    buffer of the array. *)
Lemma Load_body_complete ndebug mem (bytes rest : str) type ws shape fo :
  ParseNumpyHeader ndebug bytes = Ret (type, ws, shape, fo, rest) ->
  size rest = sz_mul (fold_left sz_mul shape 1) ws ->
  allocates mem (size rest) ->
  Load_body ndebug mem bytes
  = Ret (mkNumpyArray (Some rest) shape (Some type) ws fo
           (fold_left sz_mul shape 1)).
Proof.
  intros Hp Hsize Ha. unfold Load_body. rewrite Hp. cbn [bind].
  rewrite Hsize in Ha. rewrite (NumpyArray_new_ok _ _ _ _ _ Ha). cbn [bind].
  unfold NumBytes, fresh_array. cbn [data_holder bind].
  rewrite size_repeat, <- Hsize. unfold fread, size.
  rewrite Nat2N.id, firstn_all.
  unfold write_bytes. cbn [data_holder].
  rewrite repeat_length, Nat.add_0_l, Nat.leb_refl.
  cbn [bind firstn app shape_ type_ word_size_ fortran_order_ num_elements_].
  rewrite N.eqb_refl. cbn [negb].
  rewrite skipn_all2 by (rewrite repeat_length; lia).
  now rewrite app_nil_r.
Qed.

(** C1: on a little-endian host, for every element type among Float32,
    Float64, Int32, Int64, UInt8, UInt16 and Bool and every shape among
    [()], [(5,)], [(2,3)] and [(0,)], [NumpySave] of a payload of
    [product(shape) * ByteSize] bytes writes the header of
    [CreateNumpyHeader] followed by the payload, and [Load] of that file,
    in either build and on every host that grants the memory of the
    payload, returns an array with the same shape, the same element type
    through [GetDtype], [fortran_order] false and the same bytes. *)
Theorem save_load_roundtrip :
  forall ndebug mem w fname data shape dtype,
    In dtype Dtype.supported -> In shape roundtrip_shapes ->
    can_write w fname = true ->
    size data = product shape * Z.to_N (Dtype.ByteSize dtype) ->
    allocates mem (size data) ->
    exists header w1 arr w2,
      CreateNumpyHeader true shape dtype = Ret header /\
      NumpySave true w fname data shape dtype = (Ret tt, w1) /\
      files w1 fname = Some (header ++ data) /\
      Load ndebug mem w1 fname = (Ret arr, w2) /\
      GetShape arr = shape /\
      GetDtype arr = Ret dtype /\
      GetFortranOrder arr = false /\
      GetDataPtr arr = Ret data /\
      open_handles w2 = open_handles w.
Proof.
  intros ndebug mem w fname data shape dtype Hd Hs Hcw Hsize Hmem.
  assert (Hheader : exists header, CreateNumpyHeader true shape dtype = Ret header).
  { destruct (DtypeToChar_supported dtype Hd) as [c Hc].
    unfold CreateNumpyHeader. rewrite Hc. eexists. reflexivity. }
  destruct Hheader as [header Hheader].
  assert (Hsize' : size data
                   = sz_of_Z (Dtype.ByteSize dtype) * sz_of_Z (accumulate_int shape)).
  { rewrite Hsize. simpl in Hd, Hs.
    repeat (destruct Hs as [<-|Hs]); [..|contradiction];
    repeat (destruct Hd as [<-|Hd]); try contradiction; reflexivity. }
  destruct (NumpySave_writes true w fname data shape dtype header Hcw Hheader Hsize')
    as (w1 & Hsave & Hfile & Hhandles).
  assert (Hparse : exists type ws,
             ParseNumpyHeader ndebug (header ++ data)
             = Ret (type, ws, shape, false, data) /\
             size data = sz_mul (fold_left sz_mul shape 1) ws /\
             GetDtype (mkNumpyArray (Some data) shape (Some type) ws false
                         (fold_left sz_mul shape 1)) = Ret dtype).
  { simpl in Hd, Hs.
    repeat (destruct Hs as [<-|Hs]); [..|contradiction];
    repeat (destruct Hd as [<-|Hd]); try contradiction;
    vm_compute in Hheader; injection Hheader as <-;
    destruct ndebug;
    (eexists; eexists; split; [vm_compute; reflexivity|];
     split; [rewrite Hsize; reflexivity | reflexivity]). }
  destruct Hparse as (type & ws & Hparse & Hsz & Hdtype).
  pose proof (Load_body_complete ndebug mem _ _ _ _ _ _ Hparse Hsz Hmem)
    as Hbody.
  exists header, w1. eexists. eexists.
  split; [exact Hheader|].
  split; [exact Hsave|].
  split; [exact Hfile|].
  split; [exact (Load_of_file ndebug mem w1 fname _ _ Hfile Hbody)|].
  split; [reflexivity|].
  split; [exact Hdtype|].
  split; [reflexivity|].
  split; [reflexivity|].
  cbn [fclose handle_opened open_handles pred]. exact Hhandles.
Qed.

Lemma Load_body_truncated ndebug mem (bytes rest : str) type ws shape fo :
  ParseNumpyHeader ndebug bytes = Ret (type, ws, shape, fo, rest) ->
  allocates mem (bytes_requested shape ws) ->
  size rest < bytes_requested shape ws ->
  Load_body ndebug mem bytes = Throw TruncatedFileError.
Proof.
  intros Hp Ha Hlt. unfold Load_body. rewrite Hp. cbn [bind].
  rewrite (NumpyArray_new_ok _ _ _ _ _ Ha). cbn [bind].
  unfold NumBytes, fresh_array. cbn [data_holder bind].
  rewrite size_repeat. unfold bytes_requested in Hlt.
  set (n := sz_mul (fold_left sz_mul shape 1) ws) in *.
  unfold fread, write_bytes. cbn [data_holder].
  assert (Hlen : List.length (firstn (N.to_nat n) rest) = List.length rest).
  { rewrite length_firstn. unfold size in Hlt. lia. }
  rewrite repeat_length, Hlen, Nat.add_0_l.
  assert (Hfit : (List.length rest <=? N.to_nat n)%nat = true).
  { apply Nat.leb_le. unfold size in Hlt. lia. }
  rewrite Hfit. cbn [bind]. unfold size. rewrite Hlen.
  assert (Hne : (N.of_nat (List.length rest) =? n) = false).
  { apply N.eqb_neq. unfold size in Hlt. lia. }
  now rewrite Hne.
Qed.

Lemma Load_body_alloc_throw ndebug mem (bytes rest : str) type ws shape fo :
  ParseNumpyHeader ndebug bytes = Ret (type, ws, shape, fo, rest) ->
  ~ allocates mem (bytes_requested shape ws) ->
  Load_body ndebug mem bytes
  = Throw (if max_size mem <? bytes_requested shape ws
           then std_length_error "cannot create std::vector larger than max_size()"
           else std_bad_alloc).
Proof.
  intros Hp Hno. unfold Load_body. rewrite Hp. cbn [bind].
  now rewrite (NumpyArray_new_throws _ _ _ _ _ Hno).
Qed.

Lemma Load_fails ndebug mem (w : world) (fname : string) (bytes : str)
    (e : error) :
  files w fname = Some bytes ->
  Load_body ndebug mem bytes = Throw e ->
  Load ndebug mem w fname = (Throw e, handle_opened w).
Proof.
  intros Hf Hb. unfold Load, fopen_rb. now rewrite Hf, Hb.
Qed.

Lemma NumBytes_fresh_array shape type ws fo :
  NumBytes (fresh_array shape type ws fo) = Ret (bytes_requested shape ws).
Proof.
  unfold NumBytes, fresh_array, bytes_requested. cbn [data_holder].
  now rewrite size_repeat.
Qed.

(** The memory of the host enters [Load_body] through the allocation of
    the buffer only: if the call returns an array on one host, on any other
    it returns the same array when the buffer is granted, and raises the
    error of the allocation when it is not. *)
Lemma Load_body_on_host ndebug mem0 mem (bytes : str) (arr : NumpyArray) (n : N) :
  Load_body ndebug mem0 bytes = Ret arr -> NumBytes arr = Ret n ->
  Load_body ndebug mem bytes = (_ <- vector_new mem n ;; Ret arr).
Proof.
  rewrite !Load_body_steps.
  destruct (ParseNumpyHeader ndebug bytes)
    as [[[[[type ws] shape] fo] rest]| | |]; try discriminate.
  cbn [bind].
  destruct (NumpyArray_new mem0 shape type ws fo) as [arr0| | |] eqn:H0;
    try discriminate.
  destruct (NumpyArray_new_inv _ _ _ _ _ _ H0) as [_ ->].
  cbn [bind]. intros Hrest Hn.
  assert (Hnb : n = bytes_requested shape ws).
  { revert Hrest. rewrite NumBytes_fresh_array. cbn [bind].
    destruct (write_bytes (fresh_array shape type ws fo) 0
                (firstn (N.to_nat (bytes_requested shape ws)) rest))
      as [arr'| | |] eqn:Hw; try discriminate.
    cbn [bind].
    destruct (negb (size (firstn (N.to_nat (bytes_requested shape ws)) rest)
                    =? bytes_requested shape ws)); [discriminate|].
    intros [= <-].
    pose proof (proj2 (write_bytes_invariant _ _ _ _
                         (fresh_array_invariant shape type ws fo) Hw)) as Hsame.
    rewrite NumBytes_fresh_array, Hn in Hsame. now injection Hsame. }
  subst n. unfold NumpyArray_new. fold (bytes_requested shape ws).
  destruct (vector_new mem (bytes_requested shape ws)) as [v| | |] eqn:Hv;
    try reflexivity.
  destruct (vector_new_inv _ _ _ Hv) as [_ ->]. cbn [bind]. exact Hrest.
Qed.

Lemma Load_on_host ndebug mem0 mem (w : world) (fname : string)
    (arr : NumpyArray) (n : N) :
  fst (Load ndebug mem0 w fname) = Ret arr -> NumBytes arr = Ret n ->
  fst (Load ndebug mem w fname) = (_ <- vector_new mem n ;; Ret arr).
Proof.
  unfold Load. destruct (fopen_rb w fname) as [[fp w']|]; [|discriminate].
  intros H0 Hn.
  assert (Hb : Load_body ndebug mem0 fp = Ret arr).
  { destruct (Load_body ndebug mem0 fp); cbn [fst] in H0;
      first [exact H0 | discriminate H0]. }
  rewrite (Load_body_on_host ndebug mem0 mem fp arr n Hb Hn).
  destruct (vector_new mem n); reflexivity.
Qed.

Lemma bytes_requested_product (shape : list N) (ws : N) :
  bytes_requested shape ws = (product shape mod SIZE_MOD * ws) mod SIZE_MOD /\
  (product shape * ws < SIZE_MOD -> bytes_requested shape ws = product shape * ws).
Proof.
  assert (H : bytes_requested shape ws
              = (product shape mod SIZE_MOD * ws) mod SIZE_MOD).
  { unfold bytes_requested. now rewrite num_elements_product. }
  split; [exact H|]. intros Hfit. rewrite H. now apply sz_product_exact.
Qed.

(** Where the truncation check works: the header parses, the byte count
    [product(shape) * word_size] fits a [size_t], the host grants that
    much memory, and fewer bytes follow the header. Then [Load] raises
    [TruncatedFileError] and returns no array. *)
Lemma truncated_payload_detection :
  forall ndebug mem w fname bytes type ws shape fo rest,
    files w fname = Some bytes ->
    ParseNumpyHeader ndebug bytes = Ret (type, ws, shape, fo, rest) ->
    product shape * ws < SIZE_MOD ->
    allocates mem (product shape * ws) ->
    size rest < product shape * ws ->
    fst (Load ndebug mem w fname) = Throw TruncatedFileError /\
    (forall arr, fst (Load ndebug mem w fname) <> Ret arr).
Proof.
  intros ndebug mem w fname bytes type ws shape fo rest Hf Hp Hfit Ha Hlt.
  rewrite <- (proj2 (bytes_requested_product shape ws) Hfit) in Ha, Hlt.
  rewrite (Load_fails ndebug mem w fname bytes TruncatedFileError Hf
             (Load_body_truncated _ _ _ _ _ _ _ _ Hp Ha Hlt)).
  split; [reflexivity | discriminate].
Qed.

(** Where the truncation check is not reached: the header parses and the
    host does not grant the bytes the constructor asks for. [Load] raises
    the error of the allocation, whatever follows the header. *)
Lemma truncated_payload_allocation_error :
  forall ndebug mem w fname bytes type ws shape fo rest,
    files w fname = Some bytes ->
    ParseNumpyHeader ndebug bytes = Ret (type, ws, shape, fo, rest) ->
    ~ allocates mem (bytes_requested shape ws) ->
    fst (Load ndebug mem w fname)
    = Throw (if max_size mem <? bytes_requested shape ws
             then std_length_error
                    "cannot create std::vector larger than max_size()"
             else std_bad_alloc) /\
    fst (Load ndebug mem w fname) <> Throw TruncatedFileError.
Proof.
  intros ndebug mem w fname bytes type ws shape fo rest Hf Hp Hno.
  rewrite (Load_fails ndebug mem w fname bytes _ Hf
             (Load_body_alloc_throw _ _ _ _ _ _ _ _ Hp Hno)).
  cbn [fst]. split; [reflexivity|].
  destruct (max_size mem <? bytes_requested shape ws); discriminate.
Qed.

(** C5: truncation is detected only when the declared byte count fits a
    [size_t] and the buffer is allocated. [truncated_file] declares 24
    bytes and holds 8: [Load] raises [TruncatedFileError]. [overflow_file]
    declares shape [(2147418113, 1718039348, 5)] of one-byte elements,
    that is [2^64 + 4] bytes, and holds 4: the constructor computes the
    count in [size_t], allocates 4 bytes, and [Load] returns an array of
    that shape with a 4-byte buffer, on every host that grants 4 bytes.
    [oversized_file] declares [3 * (2^31 - 1)^2] bytes and holds 4: the
    allocation raises [std::length_error] before the payload is read.
    [eight_gigabyte_file]
    declares 8589934588 bytes and holds 4: on a host that does not grant
    them the allocation raises [std::bad_alloc]. In the last two cases no
    array is returned, the error is not [TruncatedFileError], and the file
    handle stays open. *)
Theorem truncated_payload_departures :
  (forall ndebug,
     Load ndebug host_memory (world_with "t.npy" truncated_file) "t.npy"
     = (Throw TruncatedFileError,
        handle_opened (world_with "t.npy" truncated_file))) /\
  (forall ndebug,
       ParseNumpyHeader ndebug overflow_file
       = Ret ("u"%char, 1, [2147418113; 1718039348; 5], false, lit "abcd") /\
       size (lit "abcd") = 4 /\
       product [2147418113; 1718039348; 5] * 1 = 18446744073709551620 /\
       size (lit "abcd") < product [2147418113; 1718039348; 5] * 1 /\
       bytes_requested [2147418113; 1718039348; 5] 1 = 4 /\
       Load ndebug host_memory (world_with "o.npy" overflow_file) "o.npy"
       = (Ret (mkNumpyArray (Some (lit "abcd")) [2147418113; 1718039348; 5]
                 (Some "u"%char) 1 false 4),
          world_with "o.npy" overflow_file) /\
       forall mem,
         fst (Load ndebug mem (world_with "o.npy" overflow_file) "o.npy")
         = (_ <- vector_new mem 4 ;;
            Ret (mkNumpyArray (Some (lit "abcd"))
                   [2147418113; 1718039348; 5] (Some "u"%char) 1 false 4))) /\
  (forall ndebug,
       ParseNumpyHeader ndebug oversized_file
       = Ret ("u"%char, 1, [2147483647; 2147483647; 3], false, lit "abcd") /\
       size (lit "abcd") = 4 /\
       bytes_requested [2147483647; 2147483647; 3] 1
       = 13835058042397261827 /\
       max_size host_memory < bytes_requested [2147483647; 2147483647; 3] 1 /\
       Load ndebug host_memory (world_with "h.npy" oversized_file) "h.npy"
       = (Throw (std_length_error
                   "cannot create std::vector larger than max_size()"),
          handle_opened (world_with "h.npy" oversized_file))) /\
  (forall ndebug,
       ParseNumpyHeader ndebug eight_gigabyte_file
       = Ret ("f"%char, 4, [2147483647; 1], false, lit "abcd") /\
       size (lit "abcd") = 4 /\
       bytes_requested [2147483647; 1] 4 = 8589934588 /\
       grants host_memory 8589934588 = false /\
       Load ndebug host_memory
         (world_with "g.npy" eight_gigabyte_file) "g.npy"
       = (Throw std_bad_alloc,
          handle_opened (world_with "g.npy" eight_gigabyte_file))).
Proof.
  split; [intros []; vm_compute; reflexivity|].
  split.
  { intros ndebug.
    split; [destruct ndebug; vm_compute; reflexivity|].
    split; [reflexivity|]. split; [reflexivity|]. split; [reflexivity|].
    split; [reflexivity|].
    split; [destruct ndebug; vm_compute; reflexivity|].
    intros mem. apply (Load_on_host _ host_memory);
      destruct ndebug; vm_compute; reflexivity. }
  split.
  { intros ndebug.
    split; [destruct ndebug; vm_compute; reflexivity|].
    split; [reflexivity|]. split; [reflexivity|]. split; [reflexivity|].
    destruct ndebug; vm_compute; reflexivity. }
  intros ndebug.
  split; [destruct ndebug; vm_compute; reflexivity|].
  split; [reflexivity|]. split; [reflexivity|]. split; [reflexivity|].
  destruct ndebug; vm_compute; reflexivity.
Qed.

Lemma prefixb_spec (p s : str) : prefixb p s = true <-> exists b, s = p ++ b.
Proof.
  revert s. induction p as [|a p IH]; intros s.
  - simpl. split; [intros _; now exists s | reflexivity].
  - destruct s as [|c s]; simpl.
    + split; [discriminate | intros [b Hb]; discriminate].
    + rewrite andb_true_iff, IH. split.
      * intros [Hac [b ->]]. apply Ascii.eqb_eq in Hac. subst. now exists b.
      * intros [b [= -> ->]]. split; [apply Ascii.eqb_refl | now exists b].
Qed.

Lemma contains_cons (c : ascii) (s p : str) :
  contains (c :: s) p <-> (exists b, c :: s = p ++ b) \/ contains s p.
Proof.
  split.
  - intros [a [b H]]. destruct a as [|a0 a].
    + left. now exists b.
    + right. injection H as _ ->. now exists a, b.
  - intros [[b H]|[a [b ->]]].
    + now exists [], b.
    + now exists (c :: a), b.
Qed.

Lemma find_at_None (p s : str) (pos : N) :
  find_at p s pos = None <-> ~ contains s p.
Proof.
  revert pos. induction s as [|c s IH]; intros pos.
  - cbn [find_at]. destruct (prefixb p []) eqn:E.
    + apply prefixb_spec in E. destruct E as [b Hb].
      split; [discriminate|]. intros H. exfalso. apply H. now exists [], b.
    + split; [intros _|reflexivity]. intros [a [b H]].
      assert (Hp : prefixb p [] = true).
      { apply prefixb_spec. destruct a; [now exists b | discriminate]. }
      congruence.
  - cbn [find_at]. rewrite contains_cons. destruct (prefixb p (c :: s)) eqn:E.
    + apply prefixb_spec in E. split; [discriminate | tauto].
    + rewrite IH. split.
      * intros Hs [Hp|Hc]; [|tauto].
        apply prefixb_spec in Hp. congruence.
      * tauto.
Qed.

Lemma find_None (s p : str) : find s p = None <-> ~ contains s p.
Proof. apply find_at_None. Qed.

Lemma find_at_Some (p s : str) (pos loc : N) :
  find_at p s pos = Some loc -> contains s p.
Proof.
  revert pos. induction s as [|c s IH]; intros pos; cbn [find_at].
  - destruct (prefixb p []) eqn:Ep; [|discriminate].
    apply prefixb_spec in Ep. destruct Ep as [b Hb]. intros _. now exists [], b.
  - destruct (prefixb p (c :: s)) eqn:Ep.
    + apply prefixb_spec in Ep. intros _. apply contains_cons. now left.
    + intros H. apply contains_cons. right. exact (IH _ H).
Qed.

(** Six float32 saved to and loaded from [a.npy]. *)
Lemma save_load_roundtrip_witness :
  In Dtype.Float32 Dtype.supported /\
  In [2; 3] roundtrip_shapes /\
  can_write empty_world "a.npy" = true /\
  size (lit "abcdefghijklmnopqrstuvwx")
  = product [2; 3] * Z.to_N (Dtype.ByteSize Dtype.Float32) /\
  allocates host_memory (size (lit "abcdefghijklmnopqrstuvwx")) /\
  exists header w1 arr w2,
    CreateNumpyHeader true [2; 3] Dtype.Float32 = Ret header /\
    NumpySave true empty_world "a.npy" (lit "abcdefghijklmnopqrstuvwx") [2; 3]
      Dtype.Float32 = (Ret tt, w1) /\
    files w1 "a.npy"%string = Some (header ++ lit "abcdefghijklmnopqrstuvwx") /\
    Load false host_memory w1 "a.npy" = (Ret arr, w2) /\
    GetShape arr = [2; 3] /\
    GetDtype arr = Ret Dtype.Float32 /\
    GetFortranOrder arr = false /\
    GetDataPtr arr = Ret (lit "abcdefghijklmnopqrstuvwx") /\
    open_handles w2 = open_handles empty_world.
Proof.
  assert (H1 : In Dtype.Float32 Dtype.supported) by (simpl; tauto).
  assert (H2 : In [2; 3] roundtrip_shapes) by (simpl; tauto).
  assert (H3 : can_write empty_world "a.npy" = true) by reflexivity.
  assert (H4 : size (lit "abcdefghijklmnopqrstuvwx")
               = product [2; 3] * Z.to_N (Dtype.ByteSize Dtype.Float32))
    by reflexivity.
  assert (H5 : allocates host_memory (size (lit "abcdefghijklmnopqrstuvwx"))).
  { split; [vm_compute; discriminate|reflexivity]. }
  split; [exact H1|]. split; [exact H2|]. split; [exact H3|].
  split; [exact H4|]. split; [exact H5|].
  exact (save_load_roundtrip false host_memory empty_world "a.npy"
           (lit "abcdefghijklmnopqrstuvwx") [2; 3] Dtype.Float32
           H1 H2 H3 H4 H5).
Defined.

(** [truncated_file] declares 24 bytes and holds 8; [oversized_file] asks
    for more than [max_size()]. *)
Lemma truncated_payload_detection_examples :
  fst (Load false host_memory (world_with "t.npy" truncated_file) "t.npy")
  = Throw TruncatedFileError /\
  fst (Load false host_memory (world_with "h.npy" oversized_file) "h.npy")
  <> Throw TruncatedFileError.
Proof.
  assert (H1 : files (world_with "t.npy" truncated_file) "t.npy"%string
               = Some truncated_file) by reflexivity.
  assert (H2 : ParseNumpyHeader false truncated_file
               = Ret ("f"%char, 4, [2; 3], false, lit "abcdefgh"))
    by (vm_compute; reflexivity).
  assert (H3 : product [2; 3] * 4 < SIZE_MOD) by reflexivity.
  assert (H4 : allocates host_memory (product [2; 3] * 4)).
  { split; [vm_compute; discriminate|reflexivity]. }
  assert (H5 : size (lit "abcdefgh") < product [2; 3] * 4) by reflexivity.
  assert (G1 : files (world_with "h.npy" oversized_file) "h.npy"%string
               = Some oversized_file) by reflexivity.
  assert (G2 : ParseNumpyHeader false oversized_file
               = Ret ("u"%char, 1, [2147483647; 2147483647; 3], false,
                      lit "abcd"))
    by (vm_compute; reflexivity).
  assert (G3 : ~ allocates host_memory
                   (bytes_requested [2147483647; 2147483647; 3] 1)).
  { intros [Hmax _]. vm_compute in Hmax. now apply Hmax. }
  split.
  - exact (proj1 (truncated_payload_detection false _ _ _ _ _ _ _ _ _
                    H1 H2 H3 H4 H5)).
  - exact (proj2 (truncated_payload_allocation_error false _ _ _ _ _ _ _ _ _
                    G1 G2 G3)).
Defined.

(** ** Missing keywords *)

Lemma Load_body_parse_throw ndebug mem (bytes : str) (e : error) :
  ParseNumpyHeader ndebug bytes = Throw e ->
  Load_body ndebug mem bytes = Throw e.
Proof. intros H. unfold Load_body. now rewrite H. Qed.

Lemma parse_fortran_order_absent (header : str) :
  ~ contains header (lit "fortran_order") ->
  parse_fortran_order header = Throw (MalformedHeaderError "'fortran_order'").
Proof.
  intros H. apply find_None in H. unfold parse_fortran_order. now rewrite H.
Qed.

(** The [// Fortran order] block succeeds exactly when the keyword is found
    and the value offset is not past the end of the line. *)
Lemma parse_fortran_order_present (header : str) (loc1 : N) :
  find header (lit "fortran_order") = Some loc1 ->
  loc1 + 16 <= size header ->
  exists fo, parse_fortran_order header = Ret fo.
Proof.
  intros Hf Hle. unfold parse_fortran_order, substr. rewrite Hf.
  assert (Hlt : (size header <? loc1 + 16) = false) by (apply N.ltb_ge; lia).
  rewrite Hlt. eexists. reflexivity.
Qed.

Lemma parse_shape_absent (header : str) :
  ~ contains header (lit "(") \/ ~ contains header (lit ")") ->
  parse_shape header = Throw (MalformedHeaderError "'(' or ')'").
Proof.
  intros [H|H]; apply find_None in H; unfold parse_shape; rewrite H.
  - reflexivity.
  - now destruct (find header (lit "(")).
Qed.

Lemma parse_descr_absent ndebug (header : str) :
  ~ contains header (lit "descr") ->
  parse_descr ndebug header = Throw (MalformedHeaderError "'descr'").
Proof.
  intros H. apply find_None in H. unfold parse_descr. now rewrite H.
Qed.

(** Where the three checks do end the call as the specification says, given
    the header line read from the file:
    - if [fortran_order] does not occur in it, [Load] raises
      [MalformedHeaderError] naming ['fortran_order'];
    - if [fortran_order] occurs with its value offset (16 characters after
      the start of the keyword) not past the end of the line, and ['('] or
      [')'] does not occur, [Load] raises [MalformedHeaderError] naming
      ['(' or ')'];
    - if moreover the shape between the parentheses is read without error
      and [descr] does not occur, [Load] raises [MalformedHeaderError]
      naming ['descr']. *)
Lemma missing_keyword_detection :
  forall ndebug mem w fname bytes header rest,
    files w fname = Some bytes ->
    read_header_line ndebug bytes = Ret (header, rest) ->
    (~ contains header (lit "fortran_order") ->
     fst (Load ndebug mem w fname) = Throw (MalformedHeaderError "'fortran_order'"))
    /\
    (forall loc1,
       find header (lit "fortran_order") = Some loc1 ->
       loc1 + 16 <= size header ->
       ~ contains header (lit "(") \/ ~ contains header (lit ")") ->
       fst (Load ndebug mem w fname) = Throw (MalformedHeaderError "'(' or ')'"))
    /\
    (forall loc1 shape,
       find header (lit "fortran_order") = Some loc1 ->
       loc1 + 16 <= size header ->
       parse_shape header = Ret shape ->
       ~ contains header (lit "descr") ->
       fst (Load ndebug mem w fname) = Throw (MalformedHeaderError "'descr'")).
Proof.
  intros ndebug mem w fname bytes header rest Hf Hline.
  assert (Hload : forall e, ParseNumpyHeader ndebug bytes = Throw e ->
                            fst (Load ndebug mem w fname) = Throw e).
  { intros e He.
    now rewrite (Load_fails ndebug mem w fname bytes e Hf
                   (Load_body_parse_throw _ _ _ _ He)). }
  repeat split.
  - intros Habs. apply Hload. unfold ParseNumpyHeader.
    rewrite Hline. cbn [bind].
    now rewrite (parse_fortran_order_absent header Habs).
  - intros loc1 Hfo Hle Habs. apply Hload. unfold ParseNumpyHeader.
    rewrite Hline. cbn [bind].
    destruct (parse_fortran_order_present header loc1 Hfo Hle) as [fo ->].
    cbn [bind]. now rewrite (parse_shape_absent header Habs).
  - intros loc1 shape Hfo Hle Hshape Habs. apply Hload. unfold ParseNumpyHeader.
    rewrite Hline. cbn [bind].
    destruct (parse_fortran_order_present header loc1 Hfo Hle) as [fo ->].
    cbn [bind]. rewrite Hshape. cbn [bind].
    now rewrite (parse_descr_absent ndebug header Habs).
Qed.

(** C6: what the code does where a keyword is missing and the claim fails.
    A dictionary cut right after the key [fortran_order] has no
    parenthesis: [Load] ends in the [std::out_of_range] of [substr], before
    the check of the parentheses is reached. A dictionary without [descr]
    whose dimension does not fit an [int] ends in the [std::out_of_range]
    of [stoi], before the check of [descr] is reached. *)
Theorem missing_keyword_other_errors :
  (exists header,
     read_header_line false cut_after_keyword_file = Ret (header, []) /\
     header = lit "'descr': '<f4', 'fortran_order'" ++ [newline] /\
     ~ contains header (lit "(") /\
     forall mem,
       fst (Load false mem (world_with "m.npy" cut_after_keyword_file) "m.npy")
       = Throw (std_out_of_range "basic_string::substr")) /\
  (exists header,
     read_header_line false huge_dimension_file = Ret (header, []) /\
     ~ contains header (lit "descr") /\
     forall mem,
       fst (Load false mem (world_with "m.npy" huge_dimension_file) "m.npy")
       = Throw (std_out_of_range "stoi")).
Proof.
  split.
  - eexists. split; [vm_compute; reflexivity|].
    split; [reflexivity|].
    split; [apply find_None; vm_compute; reflexivity|].
    intros mem. vm_compute. reflexivity.
  - eexists. split; [vm_compute; reflexivity|].
    split; [apply find_None; vm_compute; reflexivity|].
    intros mem. vm_compute. reflexivity.
Qed.

(** The three checks, each on a file that lacks one keyword. *)
Lemma missing_keyword_detection_examples :
  (exists header rest,
     read_header_line false no_fortran_order_file = Ret (header, rest) /\
     ~ contains header (lit "fortran_order") /\
     fst (Load false host_memory (world_with "m.npy" no_fortran_order_file) "m.npy")
     = Throw (MalformedHeaderError "'fortran_order'")) /\
  (exists header rest,
     read_header_line false no_parenthesis_file = Ret (header, rest) /\
     find header (lit "fortran_order") = Some 17 /\
     17 + 16 <= size header /\
     ~ contains header (lit "(") /\
     fst (Load false host_memory (world_with "m.npy" no_parenthesis_file) "m.npy")
     = Throw (MalformedHeaderError "'(' or ')'")) /\
  (exists header rest,
     read_header_line false no_descr_file = Ret (header, rest) /\
     find header (lit "fortran_order") = Some 1 /\
     1 + 16 <= size header /\
     parse_shape header = Ret [2] /\
     ~ contains header (lit "descr") /\
     fst (Load false host_memory (world_with "m.npy" no_descr_file) "m.npy")
     = Throw (MalformedHeaderError "'descr'")).
Proof.
  split; [|split].
  - assert (Hf : files (world_with "m.npy" no_fortran_order_file) "m.npy"%string
                 = Some no_fortran_order_file) by reflexivity.
    eexists. eexists.
    assert (Hl : read_header_line false no_fortran_order_file
                 = Ret (c_string (fst (fgets_chars 255
                                         (skipn 11 no_fortran_order_file))),
                        lit "abcdefgh")) by (vm_compute; reflexivity).
    split; [exact Hl|].
    assert (Ha : ~ contains (c_string (fst (fgets_chars 255
                                              (skipn 11 no_fortran_order_file))))
                   (lit "fortran_order"))
      by (apply find_None; vm_compute; reflexivity).
    split; [exact Ha|].
    exact (proj1 (missing_keyword_detection false host_memory _ _ _ _ _ Hf Hl) Ha).
  - assert (Hf : files (world_with "m.npy" no_parenthesis_file) "m.npy"%string
                 = Some no_parenthesis_file) by reflexivity.
    eexists. eexists.
    assert (Hl : read_header_line false no_parenthesis_file
                 = Ret (c_string (fst (fgets_chars 255
                                         (skipn 11 no_parenthesis_file))),
                        lit "abcdefgh")) by (vm_compute; reflexivity).
    split; [exact Hl|].
    assert (H1 : find (c_string (fst (fgets_chars 255
                                        (skipn 11 no_parenthesis_file))))
                   (lit "fortran_order") = Some 17) by (vm_compute; reflexivity).
    assert (H2 : 17 + 16 <= size (c_string (fst (fgets_chars 255
                                        (skipn 11 no_parenthesis_file)))))
      by (vm_compute; discriminate).
    assert (Ha : ~ contains (c_string (fst (fgets_chars 255
                                              (skipn 11 no_parenthesis_file))))
                   (lit "("))
      by (apply find_None; vm_compute; reflexivity).
    split; [exact H1|]. split; [exact H2|]. split; [exact Ha|].
    exact (proj1 (proj2 (missing_keyword_detection false host_memory _ _ _ _ _ Hf Hl))
             17 H1 H2 (or_introl Ha)).
  - assert (Hf : files (world_with "m.npy" no_descr_file) "m.npy"%string
                 = Some no_descr_file) by reflexivity.
    eexists. eexists.
    assert (Hl : read_header_line false no_descr_file
                 = Ret (c_string (fst (fgets_chars 255
                                         (skipn 11 no_descr_file))),
                        lit "abcdefgh")) by (vm_compute; reflexivity).
    split; [exact Hl|].
    assert (H1 : find (c_string (fst (fgets_chars 255 (skipn 11 no_descr_file))))
                   (lit "fortran_order") = Some 1) by (vm_compute; reflexivity).
    assert (H2 : 1 + 16 <= size (c_string (fst (fgets_chars 255
                                        (skipn 11 no_descr_file)))))
      by (vm_compute; discriminate).
    assert (H3 : parse_shape (c_string (fst (fgets_chars 255
                                        (skipn 11 no_descr_file)))) = Ret [2])
      by (vm_compute; reflexivity).
    assert (Ha : ~ contains (c_string (fst (fgets_chars 255
                                              (skipn 11 no_descr_file))))
                   (lit "descr"))
      by (apply find_None; vm_compute; reflexivity).
    split; [exact H1|]. split; [exact H2|]. split; [exact H3|].
    split; [exact Ha|].
    exact (proj2 (proj2 (missing_keyword_detection false host_memory _ _ _ _ _ Hf Hl))
             1 [2] H1 H2 H3 Ha).
Defined.

(** ** The shape loop terminates *)

Lemma span_digits_length (s : str) :
  (List.length (snd (span_digits s)) <= List.length s)%nat.
Proof.
  induction s as [|c s IH]; [apply Nat.le_refl|].
  cbn [span_digits]. destruct (is_digit c); [|apply Nat.le_refl].
  destruct (span_digits s) as [d r]. cbn [snd List.length] in *. lia.
Qed.

Lemma regex_search_num_shorter (s sm0 suffix : str) :
  regex_search_num s = Some (sm0, suffix) ->
  (List.length suffix < List.length s)%nat.
Proof.
  induction s as [|c s IH]; [discriminate|].
  cbn [regex_search_num]. destruct (is_digit c) eqn:Hc.
  - intros [= H]. pose proof (span_digits_length (c :: s)) as Hlen.
    cbn [span_digits] in H, Hlen. rewrite Hc in H, Hlen.
    pose proof (span_digits_length s) as Hs.
    destruct (span_digits s) as [d r]. injection H as _ <-.
    cbn [snd List.length] in *. lia.
  - intros H. specialize (IH H). cbn [List.length]. lia.
Qed.

(** Any fuel above the length of the text gives the same result: the fuel
    [S (length str_shape)] of [parse_shape] is never used up. *)
Lemma shape_loop_fuel (f1 f2 : nat) (s : str) (shape : list N) :
  (List.length s < f1)%nat -> (List.length s < f2)%nat ->
  shape_loop f1 s shape = shape_loop f2 s shape.
Proof.
  revert f2 s shape. induction f1 as [|f1 IH]; intros f2 s shape H1 H2; [lia|].
  destruct f2 as [|f2]; [lia|].
  cbn [shape_loop]. destruct (regex_search_num s) as [[sm0 suffix]|] eqn:E;
    [|reflexivity].
  apply regex_search_num_shorter in E.
  destruct (stoi sm0); cbn [bind]; try reflexivity.
  apply IH; lia.
Qed.

(** ** Behaviour at the inputs where the code departs from the claims *)


(** With [NDEBUG] the marker plays no part in [parse_descr]. *)
Lemma parse_descr_ndebug_ignores_marker (header : str) (loc1 : N) (c : ascii) :
  find header (lit "descr") = Some loc1 ->
  at_index header (loc1 + 9) = Ret c ->
  parse_descr true header
  = (type <- at_index header (loc1 + 9 + 1) ;;
     str_ws <- substr header (loc1 + 9 + 2) npos ;;
     digits <- substr str_ws 0
                 (match find str_ws (lit "'") with Some l => l | None => npos end) ;;
     v <- atoi digits ;;
     Ret (type, sz_of_Z v)).
Proof.
  intros Hf Hc. unfold parse_descr. rewrite Hf, Hc. reflexivity.
Qed.

(** C3: what the code does with the marker of [descr]. [big_endian_file]
    has the marker ['>']: built with [NDEBUG], [Load] accepts it and returns
    the bytes as they are (on every host that grants the 8 bytes of the
    buffer; where it does not, the error is that of the allocation); built
    with assertions, it aborts at [assert(littleEndian)] and raises no
    error. The markers ['<'] and ['|'] are accepted in both builds. *)
Theorem big_endian_marker_handling :
  fst (Load true host_memory (world_with "b.npy" big_endian_file) "b.npy")
  = Ret (mkNumpyArray (Some (lit "abcdefgh")) [2] (Some "i"%char) 4 false 2) /\
  (forall mem,
     fst (Load true mem (world_with "b.npy" big_endian_file) "b.npy")
     = (_ <- vector_new mem 8 ;;
        Ret (mkNumpyArray (Some (lit "abcdefgh")) [2] (Some "i"%char) 4
               false 2))) /\
  (forall mem,
     fst (Load false mem (world_with "b.npy" big_endian_file) "b.npy")
     = Abort "littleEndian") /\
  (forall ndebug mem,
     fst (Load ndebug mem (world_with "b.npy" little_endian_file) "b.npy")
     = (_ <- vector_new mem 8 ;;
        Ret (mkNumpyArray (Some (lit "abcdefgh")) [2] (Some "i"%char) 4
               false 2))) /\
  (forall ndebug mem,
     fst (Load ndebug mem (world_with "b.npy" byte_marker_file) "b.npy")
     = (_ <- vector_new mem 2 ;;
        Ret (mkNumpyArray (Some (lit "ab")) [2] (Some "u"%char) 1 false 2))).
Proof.
  split; [vm_compute; reflexivity|].
  split; [intros mem; apply (Load_on_host _ host_memory); vm_compute; reflexivity|].
  split; [intros mem; vm_compute; reflexivity|].
  split; intros [] mem; apply (Load_on_host _ host_memory); vm_compute; reflexivity.
Qed.

Lemma fgets_chars_bounded (n : nat) (fp : str) :
  (List.length (fst (fgets_chars n fp)) <= n)%nat.
Proof.
  revert fp. induction n as [|n IH]; intros fp; [apply Nat.le_refl|].
  destruct fp as [|c fp]; cbn [fgets_chars]; [cbn; lia|].
  destruct (Ascii.eqb c newline); [cbn; lia|].
  specialize (IH fp). destruct (fgets_chars n fp) as [l r].
  cbn [fst List.length] in *. lia.
Qed.

(** C8: what the code does with a header line that has no newline. The
    line read by [fgets] has at most 255 characters. [unterminated_file]
    ends after the dictionary without a newline: built with [NDEBUG],
    [Load] parses the line and returns an array (on every host that grants
    the empty buffer; where it does not, the error is that of the
    allocation); built with assertions, it aborts at the [assert] on the
    last character and raises no error. *)
Theorem unterminated_header_line_handling :
  (forall fp, List.length (fst (fgets_chars (256 - 1) fp)) <= 255)%nat /\
  read_header_line true unterminated_file
  = Ret (lit "'descr': '<f4', 'fortran_order': False, 'shape': (0,), }", []) /\
  fst (Load true host_memory (world_with "u.npy" unterminated_file) "u.npy")
  = Ret (mkNumpyArray (Some []) [0] (Some "f"%char) 4 false 0) /\
  (forall mem,
     fst (Load true mem (world_with "u.npy" unterminated_file) "u.npy")
     = (_ <- vector_new mem 0 ;;
        Ret (mkNumpyArray (Some []) [0] (Some "f"%char) 4 false 0))) /\
  (forall mem,
     fst (Load false mem (world_with "u.npy" unterminated_file) "u.npy")
     = Abort "header[header.size() - 1] == '\n'").
Proof.
  split; [intros fp; apply (fgets_chars_bounded 255)|].
  split; [vm_compute; reflexivity|].
  split; [vm_compute; reflexivity|].
  split; [intros mem; apply (Load_on_host _ host_memory); vm_compute;
          reflexivity|].
  intros mem. vm_compute. reflexivity.
Qed.

(** C9: what [NumpySave] does where the claim fails. When the file cannot
    be opened, no error is raised: the null [fp] is used and the behaviour
    is undefined. The element count is accumulated in an [int]: for the
    shape [(65536, 65536)] it is 0 and only the header is written. When the
    element type is not supported, the error leaves the file created, empty
    and open. *)
Theorem NumpySave_departures :
  NumpySave true read_only_world "a.npy" (lit "ab") [2] Dtype.UInt8
  = (Undefined, read_only_world) /\
  accumulate_int [65536; 65536] = 0%Z /\
  (forall data, exists header w1,
      CreateNumpyHeader true [65536; 65536] Dtype.UInt8 = Ret header /\
      NumpySave true empty_world "a.npy" data [65536; 65536] Dtype.UInt8
      = (Ret tt, w1) /\
      files w1 "a.npy"%string = Some header) /\
  (exists w1,
      NumpySave true empty_world "a.npy" [] []
        (Dtype.mk Dtype.Float 2 "Float16")
      = (Throw (UnsupportedDtypeError "Float16"), w1) /\
      files w1 "a.npy"%string = Some [] /\
      open_handles w1 = 1%nat).
Proof.
  split; [reflexivity|].
  split; [reflexivity|].
  split.
  - intros data. eexists. eexists.
    split; [vm_compute; reflexivity|].
    unfold NumpySave.
    change (sz_of_Z (Dtype.ByteSize Dtype.UInt8)
            * sz_of_Z (accumulate_int [65536; 65536])) with 0.
    assert (H0 : (size data <? 0) = false) by (apply N.ltb_ge; apply N.le_0_l).
    rewrite H0. cbn [N.to_nat firstn].
    split; [reflexivity|]. vm_compute. reflexivity.
  - eexists. split; [reflexivity|]. split; reflexivity.
Qed.

(** * Further properties of the code *)

(** ** The element count of [NumpySave] *)

Lemma int_of_sz_range (n : N) : (INT_MIN <= int_of_sz n <= INT_MAX)%Z.
Proof.
  unfold int_of_sz, INT_MIN, INT_MAX.
  pose proof (Z.mod_pos_bound (Z.of_N n) (2 ^ 32) ltac:(reflexivity)) as H.
  destruct (Z.leb_spec (Z.of_N n mod 2 ^ 32) 2147483647); lia.
Qed.

Lemma int_of_sz_mod (n : N) : (int_of_sz n mod 2 ^ 32 = Z.of_N n mod 2 ^ 32)%Z.
Proof.
  unfold int_of_sz.
  destruct (Z.leb_spec (Z.of_N n mod 2 ^ 32) INT_MAX).
  - apply Z.mod_mod. discriminate.
  - replace (Z.of_N n mod 2 ^ 32 - 2 ^ 32)%Z
      with (Z.of_N n mod 2 ^ 32 + (-1) * 2 ^ 32)%Z by lia.
    rewrite Z.mod_add by discriminate. apply Z.mod_mod. discriminate.
Qed.

Lemma sz_of_Z_mod32 (z : Z) : (Z.of_N (sz_of_Z z) mod 2 ^ 32 = z mod 2 ^ 32)%Z.
Proof.
  unfold sz_of_Z.
  assert (H : (0 <= z mod Z.of_N SIZE_MOD)%Z)
    by (apply Z.mod_pos_bound; reflexivity).
  rewrite Z2N.id by exact H.
  apply Z.mod_mod_divide. exists (2 ^ 32)%Z. reflexivity.
Qed.

Lemma sz_mul_mod32 (a b : N) :
  (Z.of_N (sz_mul a b) mod 2 ^ 32 = (Z.of_N a * Z.of_N b) mod 2 ^ 32)%Z.
Proof.
  unfold sz_mul. rewrite N2Z.inj_mod, N2Z.inj_mul.
  apply Z.mod_mod_divide. exists (2 ^ 32)%Z. reflexivity.
Qed.

Lemma accumulate_step_mod32 (acc : Z) (d : N) :
  (int_of_sz (sz_mul (sz_of_Z acc) d) mod 2 ^ 32 = (acc * Z.of_N d) mod 2 ^ 32)%Z.
Proof.
  rewrite int_of_sz_mod, sz_mul_mod32.
  rewrite <- Z.mul_mod_idemp_l by discriminate.
  rewrite sz_of_Z_mod32.
  apply Z.mul_mod_idemp_l. discriminate.
Qed.

Lemma accumulate_fold_mod32 (shape : list N) (acc : Z) :
  (fold_left (fun acc d => int_of_sz (sz_mul (sz_of_Z acc) d)) shape acc
     mod 2 ^ 32
   = (acc * Z.of_N (product shape)) mod 2 ^ 32)%Z.
Proof.
  revert acc. induction shape as [|d shape IH]; intros acc.
  - cbn. now rewrite Z.mul_1_r.
  - cbn [fold_left product fold_right]. rewrite IH.
    rewrite <- Z.mul_mod_idemp_l by discriminate.
    rewrite accumulate_step_mod32.
    rewrite Z.mul_mod_idemp_l by discriminate.
    rewrite N2Z.inj_mul, Z.mul_assoc. reflexivity.
Qed.

Lemma accumulate_fold_range (shape : list N) (acc : Z) :
  (INT_MIN <= acc <= INT_MAX)%Z ->
  (INT_MIN <= fold_left (fun acc d => int_of_sz (sz_mul (sz_of_Z acc) d))
                shape acc <= INT_MAX)%Z.
Proof.
  revert acc. induction shape as [|d shape IH]; intros acc H; [exact H|].
  cbn [fold_left]. apply IH. apply int_of_sz_range.
Qed.

Lemma sz_of_Z_nonneg (z : Z) :
  (0 <= z < 2 ^ 64)%Z -> sz_of_Z z = Z.to_N z.
Proof.
  intros H. unfold sz_of_Z. change (Z.of_N SIZE_MOD) with (2 ^ 64)%Z.
  now rewrite Z.mod_small.
Qed.

Lemma sz_of_Z_neg (z : Z) :
  (- 2 ^ 64 <= z < 0)%Z -> sz_of_Z z = Z.to_N (z + 2 ^ 64).
Proof.
  intros H. unfold sz_of_Z. change (Z.of_N SIZE_MOD) with (2 ^ 64)%Z.
  f_equal. symmetry. apply Z.mod_unique with (-1)%Z; lia.
Qed.

Lemma accumulate_int_range (shape : list N) :
  (INT_MIN <= accumulate_int shape <= INT_MAX)%Z.
Proof.
  apply accumulate_fold_range. unfold INT_MIN, INT_MAX. lia.
Qed.

Lemma accumulate_int_mod32 (shape : list N) :
  (accumulate_int shape mod 2 ^ 32 = Z.of_N (product shape) mod 2 ^ 32)%Z.
Proof.
  unfold accumulate_int. rewrite accumulate_fold_mod32.
  now rewrite Z.mul_1_l.
Qed.

Lemma accumulate_int_exact (shape : list N) :
  (Z.of_N (product shape) <= INT_MAX)%Z ->
  sz_of_Z (accumulate_int shape) = product shape.
Proof.
  intros Hsmall.
  pose proof (accumulate_int_range shape) as Hr.
  pose proof (accumulate_int_mod32 shape) as Hm.
  unfold INT_MIN, INT_MAX in *.
  pose proof (N2Z.is_nonneg (product shape)) as Hp.
  assert (Heq : accumulate_int shape = Z.of_N (product shape)).
  { destruct (Z.lt_ge_cases (accumulate_int shape) 0) as [Hneg|Hpos].
    - exfalso.
      assert (Hz : (accumulate_int shape mod 2 ^ 32
                    = accumulate_int shape + 2 ^ 32)%Z).
      { symmetry. apply Z.mod_unique with (-1)%Z; lia. }
      rewrite Hz, (Z.mod_small (Z.of_N (product shape))) in Hm by lia. lia.
    - rewrite !Z.mod_small in Hm by lia. exact Hm. }
  rewrite Heq, sz_of_Z_nonneg by lia. apply N2Z.id.
Qed.

(** X2: the element count of [NumpySave] is accumulated in an [int]: it
    always lies in the range of [int] and agrees with the product of the
    shape on the low 32 bits. Converted to [size_t] it is the product
    whenever the product is at most [INT_MAX], and it is not the product
    when the product lies above [INT_MAX] and below [2^64 - 2^31]. *)
Theorem accumulate_int_low_bits (shape : list N) :
  (INT_MIN <= accumulate_int shape <= INT_MAX)%Z /\
  (accumulate_int shape mod 2 ^ 32 = Z.of_N (product shape) mod 2 ^ 32)%Z /\
  ((Z.of_N (product shape) <= INT_MAX)%Z ->
   sz_of_Z (accumulate_int shape) = product shape) /\
  ((INT_MAX < Z.of_N (product shape) < 2 ^ 64 - 2 ^ 31)%Z ->
   sz_of_Z (accumulate_int shape) <> product shape).
Proof.
  pose proof (accumulate_int_range shape) as Hr.
  split; [exact Hr|].
  split; [apply accumulate_int_mod32|].
  split; [apply accumulate_int_exact|].
  unfold INT_MIN, INT_MAX in *.
  intros Hbig Heq.
  destruct (Z.lt_ge_cases (accumulate_int shape) 0) as [Hneg|Hpos].
  - rewrite sz_of_Z_neg in Heq by lia. lia.
  - rewrite sz_of_Z_nonneg in Heq by lia. lia.
Qed.

(** ** [NumpySave] in general *)

Lemma files_set_file_other (w : world) (name other : string) (bytes : str) :
  other <> name -> files (set_file w name bytes) other = files w other.
Proof.
  intros H. unfold set_file. cbn [files].
  destruct (string_dec other name); congruence.
Qed.

Lemma files_write_at_other (w : world) (name other : string) (pos : nat)
    (bytes : str) :
  other <> name -> files (write_at w name pos bytes) other = files w other.
Proof.
  intros H. unfold write_at. destruct (files w name); [|reflexivity].
  now apply files_set_file_other.
Qed.

Lemma NumpySave_writes_prefix le (w : world) (fname : string) (data : str)
    (shape : list N) (dtype : Dtype) (header : str) :
  can_write w fname = true ->
  CreateNumpyHeader le shape dtype = Ret header ->
  sz_of_Z (Dtype.ByteSize dtype) * sz_of_Z (accumulate_int shape) <= size data ->
  exists w1,
    NumpySave le w fname data shape dtype = (Ret tt, w1) /\
    files w1 fname
    = Some (header
              ++ firstn (N.to_nat (sz_of_Z (Dtype.ByteSize dtype)
                                   * sz_of_Z (accumulate_int shape))) data) /\
    (forall other, other <> fname -> files w1 other = files w other) /\
    open_handles w1 = open_handles w.
Proof.
  intros Hcw Hheader Hsize.
  unfold NumpySave, fopen_wb. rewrite Hcw, Hheader.
  apply N.ltb_ge in Hsize. rewrite Hsize.
  eexists. split; [reflexivity|].
  set (w0 := handle_opened (set_file w fname [])).
  assert (H0 : files w0 fname = Some []) by apply files_set_file.
  assert (H1 : files (write_at w0 fname 0 header) fname = Some header).
  { apply (write_at_append w0 fname [] header H0). }
  split; [|split].
  - cbn [fclose files]. unfold file_size. rewrite H1.
    now apply write_at_append.
  - intros other Hother. cbn [fclose files].
    rewrite !files_write_at_other by exact Hother.
    unfold w0. cbn [handle_opened files].
    now apply files_set_file_other.
  - cbn [fclose open_handles]. now rewrite !open_handles_write_at.
Qed.

Lemma supported_ByteSize (dtype : Dtype) :
  In dtype Dtype.supported ->
  sz_of_Z (Dtype.ByteSize dtype) = Z.to_N (Dtype.ByteSize dtype) /\
  1 <= Z.to_N (Dtype.ByteSize dtype) <= 8.
Proof.
  intros H. simpl in H.
  repeat (destruct H as [<-|H]; [split; [reflexivity | cbn; lia]|]).
  contradiction.
Qed.

Lemma NumpySave_count (shape : list N) (dtype : Dtype) :
  In dtype Dtype.supported ->
  (Z.of_N (product shape) <= INT_MAX)%Z ->
  sz_of_Z (Dtype.ByteSize dtype) * sz_of_Z (accumulate_int shape)
  = product shape * Z.to_N (Dtype.ByteSize dtype).
Proof.
  intros Hd Hprod.
  destruct (supported_ByteSize dtype Hd) as [Hbs _].
  rewrite Hbs, (accumulate_int_exact shape Hprod). apply N.mul_comm.
Qed.

(** X3: for a supported type, a path that opens, a shape whose product is
    at most [INT_MAX] and a buffer of at least [product * ByteSize] bytes,
    [NumpySave] returns; the file then holds the header followed by the
    first [product * ByteSize] bytes of the buffer, whatever it held
    before; no other file changes and no handle stays open. *)
Theorem NumpySave_file_contents :
  forall le w fname data shape dtype,
    In dtype Dtype.supported ->
    can_write w fname = true ->
    (Z.of_N (product shape) <= INT_MAX)%Z ->
    product shape * Z.to_N (Dtype.ByteSize dtype) <= size data ->
    exists header w1,
      CreateNumpyHeader le shape dtype = Ret header /\
      NumpySave le w fname data shape dtype = (Ret tt, w1) /\
      files w1 fname
      = Some (header
                ++ firstn (N.to_nat (product shape
                                     * Z.to_N (Dtype.ByteSize dtype))) data) /\
      (forall other, other <> fname -> files w1 other = files w other) /\
      open_handles w1 = open_handles w.
Proof.
  intros le w fname data shape dtype Hd Hcw Hprod Hsize.
  destruct (DtypeToChar_supported dtype Hd) as [c Hc].
  assert (Hheader : exists header, CreateNumpyHeader le shape dtype = Ret header).
  { unfold CreateNumpyHeader. rewrite Hc. eexists. reflexivity. }
  destruct Hheader as [header Hheader].
  pose proof (NumpySave_count shape dtype Hd Hprod) as Hn.
  destruct (NumpySave_writes_prefix le w fname data shape dtype header Hcw
              Hheader) as (w1 & Hsave & Hfile & Hother & Hhandles).
  { now rewrite Hn. }
  exists header, w1. rewrite Hn in Hfile. repeat split; assumption.
Qed.

(** X4: [NumpySave] opens the file before it looks at the type: with an
    unsupported type on a path that opens, the call raises
    [UnsupportedDtypeError], the file is left empty and its handle is left
    open. *)
Theorem NumpySave_unsupported_empties_file :
  forall le w fname data shape dtype,
    ~ In dtype Dtype.supported ->
    can_write w fname = true ->
    exists w1,
      NumpySave le w fname data shape dtype
      = (Throw (UnsupportedDtypeError (Dtype.ToString dtype)), w1) /\
      files w1 fname = Some [] /\
      open_handles w1 = S (open_handles w).
Proof.
  intros le w fname data shape dtype Hd Hcw.
  unfold NumpySave, fopen_wb, CreateNumpyHeader.
  rewrite Hcw, (DtypeToChar_unsupported dtype Hd). cbn [bind].
  eexists. split; [reflexivity|]. split; [|reflexivity].
  cbn [handle_opened files]. apply files_set_file.
Qed.

(** ** Element types back and forth *)

(** X5: [GetDtype] undoes [DtypeToChar]: every array the constructor
    returns for the code and the byte size of a supported type has that
    type, whatever the shape and the host; and every type
    [GetDtype] returns is supported, has the code of the array, and, unless
    it is Bool, the word size of the array as its byte size. *)
Theorem GetDtype_DtypeToChar_inverse :
  Forall (fun d =>
            exists c, DtypeToChar d = Ret c /\
              forall mem shape fo arr,
                NumpyArray_new mem shape c (Z.to_N (Dtype.ByteSize d)) fo
                = Ret arr ->
                GetDtype arr = Ret d)
         Dtype.supported /\
  (forall arr d,
     GetDtype arr = Ret d ->
     In d Dtype.supported /\
     exists c, type_ arr = Some c /\ DtypeToChar d = Ret c /\
               (d = Dtype.Bool_ \/ word_size_ arr = Z.to_N (Dtype.ByteSize d))).
Proof.
  split.
  - repeat constructor; eexists; (split; [reflexivity|]);
      intros mem shape fo arr H;
      destruct (NumpyArray_new_inv _ _ _ _ _ _ H) as [_ ->]; reflexivity.
  - intros [dh sh [ty|] ws fo ne] d; [|discriminate].
    rewrite GetDtype_table. unfold FromNumpyCode_spec.
    cbn [List.find mapping_table fst snd].
    repeat match goal with
           | |- context [Ascii.eqb ty ?c && (ws =? ?k)] =>
               destruct (Ascii.eqb ty c && (ws =? k)) eqn:?
           end;
      try (intros [= <-];
           match goal with
           | H : _ && _ = true |- _ =>
               apply andb_true_iff in H; destruct H as [Hty Hws];
               apply Ascii.eqb_eq in Hty; apply N.eqb_eq in Hws; subst
           end;
           split; [simpl; tauto|]; eexists;
           split; [reflexivity|]; split; [reflexivity|]; right; reflexivity).
    rewrite andb_true_r. destruct (Ascii.eqb ty "b") eqn:Hb; [|discriminate].
    intros [= <-]. apply Ascii.eqb_eq in Hb. subst.
    split; [simpl; tauto|]. eexists.
    split; [reflexivity|]. split; [reflexivity|]. now left.
Qed.

(** ** The start of the stream *)

(** X6: a file of fewer than 11 bytes makes [ParseNumpyHeader] raise the
    "failed fread" error, and [Load] raises it with the handle left
    open. *)
Theorem short_file_rejected :
  forall ndebug mem w fname bytes,
    files w fname = Some bytes ->
    (List.length bytes < 11)%nat ->
    ParseNumpyHeader ndebug bytes = Throw PreambleReadError /\
    Load ndebug mem w fname = (Throw PreambleReadError, handle_opened w).
Proof.
  intros ndebug mem w fname bytes Hf Hlen.
  assert (Hp : ParseNumpyHeader ndebug bytes = Throw PreambleReadError).
  { unfold ParseNumpyHeader, read_header_line, fread.
    rewrite firstn_all2 by lia.
    assert (Hne : (List.length bytes =? 11)%nat = false)
      by (apply Nat.eqb_neq; lia).
    now rewrite Hne. }
  split; [exact Hp|].
  apply (Load_fails ndebug mem w fname bytes _ Hf).
  unfold Load_body. now rewrite Hp.
Qed.

(** X7: a stream of exactly 11 bytes passes the [fread] check and leaves
    nothing for [fgets], which returns a null pointer: building the
    [std::string] from it is undefined, in either build. *)
Theorem preamble_only_file_undefined :
  forall ndebug bytes,
    List.length bytes = 11%nat ->
    ParseNumpyHeader ndebug bytes = Undefined.
Proof.
  intros ndebug bytes Hlen.
  unfold ParseNumpyHeader, read_header_line, fread.
  rewrite firstn_all2, skipn_all2 by lia.
  rewrite Hlen. reflexivity.
Qed.

Lemma fread_app (pre rest : str) (n : nat) :
  List.length pre = n -> fread n (pre ++ rest) = (pre, rest).
Proof.
  intros <-. unfold fread.
  rewrite firstn_app, skipn_app, firstn_all, skipn_all, Nat.sub_diag.
  cbn [firstn skipn]. now rewrite app_nil_r.
Qed.

(** X8: the first 11 bytes are read and never looked at: two streams that
    differ only there are parsed and loaded alike, so neither the magic
    string, the version nor the length field is checked. *)
Theorem preamble_never_inspected :
  forall ndebug mem pre pre' rest,
    List.length pre = 11%nat -> List.length pre' = 11%nat ->
    ParseNumpyHeader ndebug (pre ++ rest) = ParseNumpyHeader ndebug (pre' ++ rest) /\
    Load_body ndebug mem (pre ++ rest) = Load_body ndebug mem (pre' ++ rest).
Proof.
  intros ndebug mem pre pre' rest H H'.
  assert (Hp : ParseNumpyHeader ndebug (pre ++ rest)
               = ParseNumpyHeader ndebug (pre' ++ rest)).
  { unfold ParseNumpyHeader, read_header_line.
    rewrite (fread_app pre rest 11 H), (fread_app pre' rest 11 H').
    now rewrite H, H'. }
  split; [exact Hp|]. unfold Load_body. now rewrite Hp.
Qed.

(** ** What [Load] does with the handle and with bytes after the payload *)

(** X9: [Load] closes the file exactly when it returns an array. When the
    file cannot be opened it raises [FileOpenError] and the world is
    unchanged; when it opens, every other outcome leaves one more handle
    open. The files themselves are never changed. *)
Theorem Load_handle_accounting :
  forall ndebug mem w fname,
    (files w fname = None ->
     Load ndebug mem w fname = (Throw (FileOpenError fname), w)) /\
    (forall bytes, files w fname = Some bytes ->
       (forall arr, fst (Load ndebug mem w fname) = Ret arr ->
                    open_handles (snd (Load ndebug mem w fname)) = open_handles w) /\
       ((forall arr, fst (Load ndebug mem w fname) <> Ret arr) ->
        open_handles (snd (Load ndebug mem w fname)) = S (open_handles w))) /\
    files (snd (Load ndebug mem w fname)) = files w.
Proof.
  intros ndebug mem w fname. unfold Load, fopen_rb, LogError.
  destruct (files w fname) as [bytes|] eqn:Hf.
  - split; [discriminate|]. split.
    + intros b [= <-].
      destruct (Load_body ndebug mem bytes) as [arr| | |]; cbn [fst snd]; split;
        try discriminate; try reflexivity.
      intros H. exfalso. now apply (H arr).
    + now destruct (Load_body ndebug mem bytes).
  - split; [reflexivity|]. split; [discriminate | reflexivity].
Qed.

(** X10: when at least the declared number of bytes follows the header and
    the host grants the buffer, [Load] returns an array holding exactly the
    first of them; bytes after the payload are not read and not
    reported. *)
Theorem Load_ignores_trailing_bytes :
  forall ndebug mem bytes type ws shape fo rest,
    ParseNumpyHeader ndebug bytes = Ret (type, ws, shape, fo, rest) ->
    sz_mul (fold_left sz_mul shape 1) ws <= size rest ->
    allocates mem (sz_mul (fold_left sz_mul shape 1) ws) ->
    Load_body ndebug mem bytes
    = Ret (mkNumpyArray
             (Some (firstn (N.to_nat (sz_mul (fold_left sz_mul shape 1) ws)) rest))
             shape (Some type) ws fo (fold_left sz_mul shape 1)).
Proof.
  intros ndebug mem bytes type ws shape fo rest Hp Hle Ha.
  unfold Load_body. rewrite Hp. cbn [bind].
  rewrite (NumpyArray_new_ok _ _ _ _ _ Ha). cbn [bind].
  unfold NumBytes, fresh_array. cbn [data_holder bind].
  rewrite size_repeat.
  set (n := sz_mul (fold_left sz_mul shape 1) ws) in *.
  unfold fread, write_bytes. cbn [data_holder].
  assert (Hlen : List.length (firstn (N.to_nat n) rest) = N.to_nat n).
  { rewrite length_firstn. unfold size in Hle. lia. }
  rewrite repeat_length, Hlen, Nat.add_0_l, Nat.leb_refl.
  cbn [bind firstn app shape_ type_ word_size_ fortran_order_ num_elements_].
  unfold size. rewrite Hlen, N2Nat.id, N.eqb_refl. cbn [negb].
  rewrite skipn_all2 by (rewrite repeat_length; lia).
  now rewrite app_nil_r.
Qed.

(** ** The two builds *)

Lemma at_index_never_throws (s : str) (i : N) (e : error) :
  at_index s i <> Throw e.
Proof.
  unfold at_index. destruct (i <? size s); [discriminate|].
  destruct (i =? size s); discriminate.
Qed.

Lemma read_header_line_ndebug (fp : str) (o : outcome (str * str)) :
  read_header_line false fp = o -> returns_or_throws o ->
  read_header_line true fp = o.
Proof.
  unfold read_header_line. destruct (fread 11 fp) as [buffer fp'].
  destruct (negb (List.length buffer =? 11)%nat); [easy|].
  destruct (fgets 256 fp') as [[buffer'|] fp'']; [|easy].
  unfold assert.
  destruct (at_index (c_string buffer') (sz_sub (size (c_string buffer')) 1))
    as [c|e| |] eqn:Hat; cbn [bind]; try (intros <-; contradiction).
  - destruct (Ascii.eqb c newline); cbn [bind]; [easy|].
    intros <-. contradiction.
  - now apply at_index_never_throws in Hat.
Qed.

Lemma parse_descr_ndebug (header : str) (o : outcome (ascii * N)) :
  parse_descr false header = o -> returns_or_throws o ->
  parse_descr true header = o.
Proof.
  unfold parse_descr. destruct (find header (lit "descr")) as [loc1|]; [|easy].
  destruct (at_index header (loc1 + 9)) as [c| | |]; cbn [bind]; try easy.
  unfold assert. cbn [bind].
  destruct (Ascii.eqb c "<" || Ascii.eqb c "|")%bool; cbn [bind];
    [easy | intros <-; contradiction].
Qed.

Lemma ParseNumpyHeader_ndebug (fp : str)
    (o : outcome (ascii * N * list N * bool * str)) :
  ParseNumpyHeader false fp = o -> returns_or_throws o ->
  ParseNumpyHeader true fp = o.
Proof.
  unfold ParseNumpyHeader.
  destruct (read_header_line false fp) as [[header rest]| | |] eqn:Hl;
    cbn [bind]; try (intros <-; try contradiction;
                     now rewrite (read_header_line_ndebug fp _ Hl I)).
  rewrite (read_header_line_ndebug fp _ Hl I). cbn [bind].
  destruct (parse_fortran_order header) as [fo| | |]; cbn [bind]; try easy.
  destruct (parse_shape header) as [shape| | |]; cbn [bind]; try easy.
  destruct (parse_descr false header) as [[type ws]| | |] eqn:Hd;
    cbn [bind]; intros <-; try contradiction;
    now rewrite (parse_descr_ndebug header _ Hd I).
Qed.

(** X11: whenever the build with assertions returns an array or raises an
    error on a stream, the build with [NDEBUG] does the same on it, on the
    same host. *)
Theorem NDEBUG_build_agrees_with_debug_build :
  forall mem fp o,
    Load_body false mem fp = o -> returns_or_throws o ->
    Load_body true mem fp = o.
Proof.
  intros mem fp o. unfold Load_body.
  destruct (ParseNumpyHeader false fp) as [r| | |] eqn:Hp; cbn [bind];
    intros <-; try contradiction;
    now rewrite (ParseNumpyHeader_ndebug fp _ Hp I).
Qed.

(** ** Decimal text *)

Lemma decimal_value_acc_pos (d : Decimal.uint) (acc : positive) :
  fold_left decimal_step (lit (NilEmpty.string_of_uint d)) (Zpos acc)
  = Zpos (Pos.of_uint_acc d acc).
Proof.
  revert acc. induction d; intros acc;
    cbn [NilEmpty.string_of_uint lit list_ascii_of_string fold_left
         Pos.of_uint_acc];
    [reflexivity | ..];
    fold (lit (NilEmpty.string_of_uint d));
    match goal with
    | |- fold_left _ _ ?z = Zpos (Pos.of_uint_acc _ ?p) =>
        replace z with (Zpos p);
        [apply IHd
        | unfold decimal_step, digit_val;
          match goal with
          | |- context [N_of_ascii ?c] =>
              let v := eval vm_compute in (N_of_ascii c) in
              change (N_of_ascii c) with v
          end; lia]
    end.
Qed.

Lemma decimal_value_of_uint (d : Decimal.uint) :
  fold_left decimal_step (lit (NilEmpty.string_of_uint d)) 0%Z
  = Z.of_N (Pos.of_uint d).
Proof.
  induction d;
    cbn [NilEmpty.string_of_uint lit list_ascii_of_string fold_left
         Pos.of_uint];
    [reflexivity | ..];
    fold (lit (NilEmpty.string_of_uint d));
    [exact IHd | ..];
    match goal with
    | |- fold_left _ _ ?z = Z.of_N (Npos (Pos.of_uint_acc _ ?p)) =>
        change z with (Zpos p); apply decimal_value_acc_pos
    end.
Qed.

Lemma decimal_value_dec_N (n : N) : decimal_value (dec_N n) = Z.of_N n.
Proof.
  unfold decimal_value, dec_N, NilZero.string_of_uint.
  change (fun acc c => (acc * 10 + digit_val c)%Z) with decimal_step.
  rewrite <- (DecimalN.Unsigned.of_to n) at 2. unfold N.of_uint.
  destruct (N.to_uint n) eqn:E; try apply decimal_value_of_uint.
  reflexivity.
Qed.

Lemma dec_N_nonempty (n : N) : dec_N n <> [].
Proof.
  unfold dec_N, NilZero.string_of_uint.
  destruct (N.to_uint n); discriminate.
Qed.

(** ** Digits in a text *)

Lemma span_digits_app (D T : str) :
  Forall (fun c => is_digit c = true) D ->
  (match T with [] => True | c :: _ => is_digit c = false end) ->
  span_digits (D ++ T) = (D, T).
Proof.
  intros HD HT. induction HD as [|c D Hc _ IH].
  - destruct T as [|t T]; [reflexivity|]. cbn [app span_digits]. now rewrite HT.
  - cbn [app span_digits]. now rewrite Hc, IH.
Qed.

Lemma regex_search_num_skip (sep D T : str) :
  Forall (fun c => is_digit c = false) sep ->
  Forall (fun c => is_digit c = true) D -> D <> [] ->
  (match T with [] => True | c :: _ => is_digit c = false end) ->
  regex_search_num (sep ++ D ++ T) = Some (D, T).
Proof.
  intros Hsep HD Hne HT. induction Hsep as [|c sep Hc _ IH].
  - destruct D as [|d D]; [congruence|].
    cbn [app regex_search_num].
    change (d :: D ++ T) with ((d :: D) ++ T).
    rewrite (Forall_inv HD). now rewrite span_digits_app.
  - cbn [app regex_search_num]. now rewrite Hc.
Qed.

Lemma regex_search_num_none (s : str) :
  Forall (fun c => is_digit c = false) s -> regex_search_num s = None.
Proof.
  induction 1 as [|c s Hc _ IH]; [reflexivity|].
  cbn [regex_search_num]. now rewrite Hc.
Qed.

Lemma digit_not_space (c : ascii) : is_digit c = true -> isspace c = false.
Proof.
  unfold is_digit, isspace. intros H.
  apply andb_true_iff in H. destruct H as [H1 H2].
  apply N.leb_le in H1, H2.
  destruct (N_of_ascii c =? 32) eqn:E; [apply N.eqb_eq in E; lia|].
  destruct (N_of_ascii c <=? 13) eqn:E2; [apply N.leb_le in E2; lia|].
  now rewrite andb_false_r.
Qed.

Lemma digit_not_sign (c : ascii) :
  is_digit c = true -> Ascii.eqb c "-" = false /\ Ascii.eqb c "+" = false.
Proof.
  intros H. split; apply Ascii.eqb_neq; intros ->; discriminate H.
Qed.

Lemma parse_int_digits (D : str) :
  Forall (fun c => is_digit c = true) D -> D <> [] ->
  parse_int D = Some (decimal_value D).
Proof.
  intros HD Hne. destruct D as [|d D]; [congruence|].
  pose proof (Forall_inv HD) as Hd.
  unfold parse_int. cbn [skip_space].
  rewrite (digit_not_space d Hd).
  destruct (digit_not_sign d Hd) as [-> ->].
  pose proof (span_digits_app (d :: D) [] HD I) as Hs.
  rewrite app_nil_r in Hs. rewrite Hs. reflexivity.
Qed.

Lemma stoi_dec_N (n : N) :
  stoi (dec_N n)
  = if (Z.of_N n <=? INT_MAX)%Z then Ret (Z.of_N n)
    else Throw (std_out_of_range "stoi").
Proof.
  unfold stoi. rewrite parse_int_digits
    by (apply dec_N_digits || apply dec_N_nonempty).
  rewrite decimal_value_dec_N. unfold in_int_range.
  assert (H : (INT_MIN <=? Z.of_N n)%Z = true).
  { apply Z.leb_le. unfold INT_MIN. lia. }
  now rewrite H.
Qed.

Lemma sz_of_Z_of_N (n : N) : (Z.of_N n <= INT_MAX)%Z -> sz_of_Z (Z.of_N n) = n.
Proof.
  intros H. rewrite sz_of_Z_nonneg; [apply N2Z.id|]. unfold INT_MAX in H. lia.
Qed.

(** ** The shape loop on the text written by [CreateNumpyHeader] *)

Lemma shape_ss_tail_loop (dims : list N) (E : str) (fuel : nat)
    (shape : list N) :
  Forall (fun c => is_digit c = false) E ->
  (List.length dims < fuel)%nat ->
  shape_loop fuel (shape_ss_tail dims ++ E) shape = shape_loop_result shape dims.
Proof.
  intros HE. revert fuel shape.
  induction dims as [|n dims IH]; intros fuel shape Hfuel.
  - destruct fuel as [|fuel]; [cbn in Hfuel; lia|].
    cbn [shape_ss_tail app shape_loop].
    rewrite (regex_search_num_none E HE).
    unfold shape_loop_result. cbn. now rewrite app_nil_r.
  - destruct fuel as [|fuel]; [cbn in Hfuel; lia|].
    cbn [shape_ss_tail shape_loop]. rewrite <- !app_assoc.
    rewrite (regex_search_num_skip (lit ", ") (dec_N n)
               (shape_ss_tail dims ++ E)).
    + rewrite stoi_dec_N. unfold shape_loop_result, dims_fit.
      cbn [forallb]. destruct (Z.of_N n <=? INT_MAX)%Z eqn:Hn; cbn [bind andb].
      * rewrite IH by (cbn in Hfuel; lia).
        unfold shape_loop_result, dims_fit.
        apply Z.leb_le in Hn. rewrite (sz_of_Z_of_N n Hn).
        now rewrite <- app_assoc.
      * reflexivity.
    + repeat constructor.
    + apply dec_N_digits.
    + apply dec_N_nonempty.
    + destruct dims as [|m dims].
      * cbn [shape_ss_tail app]. destruct E; [exact I | exact (Forall_inv HE)].
      * reflexivity.
Qed.

Lemma shape_ss_body (shape : list N) :
  shape_ss shape = lit "(" ++ shape_body shape ++ lit ")".
Proof.
  destruct shape as [|n0 [|n1 rest]]; try reflexivity.
  - cbn [shape_ss shape_body]. now rewrite <- !app_assoc.
  - unfold shape_ss, shape_body. cbn [List.length Nat.eqb].
    now rewrite <- !app_assoc.
Qed.

Lemma shape_loop_first (n0 : N) (rest : list N) (E : str) (fuel : nat) :
  Forall (fun c => is_digit c = false) E ->
  (List.length rest < fuel)%nat ->
  shape_loop (S fuel) (dec_N n0 ++ shape_ss_tail rest ++ E) []
  = shape_loop_result [] (n0 :: rest).
Proof.
  intros HE Hfuel. cbn [shape_loop].
  pose proof (regex_search_num_skip [] (dec_N n0) (shape_ss_tail rest ++ E))
    as Hsearch.
  cbn [app] in Hsearch. rewrite Hsearch.
  - rewrite stoi_dec_N. unfold shape_loop_result, dims_fit. cbn [forallb].
    destruct (Z.of_N n0 <=? INT_MAX)%Z eqn:Hn; cbn [bind andb]; [|reflexivity].
    rewrite (shape_ss_tail_loop rest E fuel _ HE Hfuel).
    apply Z.leb_le in Hn. now rewrite (sz_of_Z_of_N n0 Hn).
  - constructor.
  - apply dec_N_digits.
  - apply dec_N_nonempty.
  - destruct rest as [|m rest].
    + cbn [shape_ss_tail app]. destruct E; [exact I | exact (Forall_inv HE)].
    + reflexivity.
Qed.

Lemma shape_body_loop (shape : list N) (fuel : nat) :
  (List.length shape < fuel)%nat ->
  shape_loop fuel (shape_body shape) [] = shape_loop_result [] shape.
Proof.
  intros Hfuel. destruct fuel as [|fuel]; [lia|].
  destruct shape as [|n0 [|n1 rest]].
  - reflexivity.
  - apply (shape_loop_first n0 [] (lit ",") fuel).
    + repeat constructor.
    + cbn in *. lia.
  - unfold shape_body.
    rewrite <- (app_nil_r (shape_ss_tail (n1 :: rest))).
    apply (shape_loop_first n0 (n1 :: rest) [] fuel); [constructor|].
    cbn in *. lia.
Qed.

Lemma shape_ss_tail_length (rest : list N) :
  (List.length rest <= List.length (shape_ss_tail rest))%nat.
Proof.
  induction rest as [|n rest IH]; [apply Nat.le_refl|].
  cbn [shape_ss_tail List.length]. rewrite !length_app.
  change (List.length (lit ", ")) with 2%nat. lia.
Qed.

Lemma shape_body_length (shape : list N) :
  (List.length shape <= List.length (shape_body shape))%nat.
Proof.
  destruct shape as [|n0 [|n1 rest]]; [apply Nat.le_refl | |].
  - cbn [shape_body List.length]. rewrite length_app.
    change (List.length (lit ",")) with 1%nat. lia.
  - unfold shape_body. rewrite length_app.
    pose proof (shape_ss_tail_length (n1 :: rest)) as H.
    destruct (dec_N n0) eqn:E; [now apply dec_N_nonempty in E|].
    cbn [List.length] in *. lia.
Qed.

Lemma shape_ss_tail_chars (rest : list N) :
  Forall (fun c => body_char c = true) (shape_ss_tail rest).
Proof.
  induction rest as [|n rest IH]; [constructor|].
  cbn [shape_ss_tail]. apply Forall_app. split; [repeat constructor|].
  apply Forall_app. split; [|exact IH].
  eapply Forall_impl; [|apply dec_N_digits].
  intros c Hc. unfold body_char. now rewrite Hc.
Qed.

Lemma shape_body_chars (shape : list N) :
  Forall (fun c => body_char c = true) (shape_body shape).
Proof.
  assert (Hdec : forall n, Forall (fun c => body_char c = true) (dec_N n)).
  { intros n. eapply Forall_impl; [|apply dec_N_digits].
    intros c Hc. unfold body_char. now rewrite Hc. }
  destruct shape as [|n0 [|n1 rest]]; [constructor | |].
  - cbn [shape_body]. apply Forall_app. split; [apply Hdec|repeat constructor].
  - unfold shape_body. apply Forall_app. split; [apply Hdec|].
    apply shape_ss_tail_chars.
Qed.

(** ** [find], [substr] and [operator[]] on a concatenation *)

Lemma find_at_char_skip (c : ascii) (A B : str) (pos : N) :
  Forall (fun x => x <> c) A ->
  find_at [c] (A ++ c :: B) pos = Some (pos + size A).
Proof.
  intros HA. revert pos. induction HA as [|a A Ha _ IH]; intros pos.
  - cbn [app find_at prefixb]. rewrite Ascii.eqb_refl. cbn. f_equal.
    unfold size. cbn. lia.
  - cbn [app find_at prefixb].
    assert (Hne : Ascii.eqb c a = false) by (apply Ascii.eqb_neq; congruence).
    rewrite Hne. cbn [andb]. rewrite IH. f_equal. unfold size.
    cbn [List.length]. lia.
Qed.

Lemma substr_app_inside (A X : str) (pos count : N) :
  pos + count <= size A ->
  substr (A ++ X) pos count
  = Ret (firstn (N.to_nat count) (skipn (N.to_nat pos) A)).
Proof.
  intros H. unfold substr. rewrite size_app.
  assert (Hlt : (size A + size X <? pos) = false) by (apply N.ltb_ge; lia).
  rewrite Hlt. rewrite N.min_l by lia.
  unfold size in H.
  rewrite skipn_app, firstn_app, length_skipn.
  replace (N.to_nat count - (List.length A - N.to_nat pos))%nat with 0%nat by lia.
  cbn [firstn]. now rewrite app_nil_r.
Qed.

Lemma substr_to_end_app (A X : str) (pos : N) :
  pos <= size A -> size (A ++ X) < SIZE_MOD ->
  substr (A ++ X) pos npos = Ret (skipn (N.to_nat pos) A ++ X).
Proof.
  intros H Hsz. unfold substr.
  assert (Hlt : (size (A ++ X) <? pos) = false)
    by (apply N.ltb_ge; rewrite size_app; lia).
  rewrite Hlt. rewrite N.min_r by (unfold npos; lia).
  rewrite firstn_all2.
  - rewrite skipn_app. unfold size in H.
    replace (N.to_nat pos - List.length A)%nat with 0%nat by lia.
    reflexivity.
  - rewrite length_skipn. unfold size. lia.
Qed.

Lemma substr_middle (A B C : str) :
  substr (A ++ B ++ C) (size A) (size B) = Ret B.
Proof.
  unfold substr. rewrite !size_app.
  assert (Hlt : (size A + (size B + size C) <? size A) = false)
    by (apply N.ltb_ge; lia).
  rewrite Hlt. rewrite N.min_l by lia.
  unfold size. rewrite !Nat2N.id.
  rewrite skipn_app, skipn_all, Nat.sub_diag. cbn [skipn app].
  rewrite firstn_app, firstn_all, Nat.sub_diag. cbn [firstn].
  now rewrite app_nil_r.
Qed.

Lemma at_index_app (A X : str) (i : N) :
  i < size A -> at_index (A ++ X) i = Ret (nth (N.to_nat i) A NUL).
Proof.
  intros H. unfold at_index. rewrite size_app.
  assert (Hlt : (i <? size A + size X) = true) by (apply N.ltb_lt; lia).
  rewrite Hlt. f_equal. apply app_nth1. unfold size in H. lia.
Qed.

(** ** The header line *)

Lemma fgets_chars_line (line rest : str) (n : nat) :
  no_newline line -> (List.length line < n)%nat ->
  fgets_chars n (line ++ newline :: rest) = (line ++ [newline], rest).
Proof.
  intros Hl. revert n. induction Hl as [|c line Hc _ IH]; intros n Hn.
  - destruct n as [|n]; [lia|]. cbn [app fgets_chars].
    now rewrite Ascii.eqb_refl.
  - destruct n as [|n]; [cbn in Hn; lia|]. cbn [app fgets_chars].
    assert (Hne : Ascii.eqb c newline = false) by now apply Ascii.eqb_neq.
    rewrite Hne, IH by (cbn in Hn; lia). reflexivity.
Qed.

Lemma fgets_chars_long (line rest : str) (n : nat) :
  no_newline line -> (n <= List.length line)%nat ->
  fgets_chars n (line ++ rest) = (firstn n line, skipn n line ++ rest).
Proof.
  intros Hl. revert n. induction Hl as [|c line Hc _ IH]; intros n Hn.
  - destruct n as [|n]; [|cbn in Hn; lia]. reflexivity.
  - destruct n as [|n]; [reflexivity|]. cbn [app fgets_chars firstn skipn].
    assert (Hne : Ascii.eqb c newline = false) by now apply Ascii.eqb_neq.
    rewrite Hne, IH by (cbn in Hn; lia). reflexivity.
Qed.

Lemma c_string_no_NUL (s : str) : no_NUL s -> c_string s = s.
Proof.
  induction 1 as [|c s Hc _ IH]; [reflexivity|].
  cbn [c_string].
  assert (Hne : Ascii.eqb c NUL = false) by now apply Ascii.eqb_neq.
  now rewrite Hne, IH.
Qed.

Lemma at_index_last (s : str) (c : ascii) :
  size (s ++ [c]) < SIZE_MOD ->
  at_index (s ++ [c]) (sz_sub (size (s ++ [c])) 1) = Ret c.
Proof.
  intros Hsz. rewrite size_app in *. change (size [c]) with 1 in *.
  rewrite sz_sub_small by lia.
  replace (size s + 1 - 1) with (size s) by lia.
  unfold at_index. rewrite size_app. change (size [c]) with 1.
  assert (Hlt : (size s <? size s + 1) = true) by (apply N.ltb_lt; lia).
  rewrite Hlt. f_equal. unfold size. rewrite Nat2N.id. apply nth_middle.
Qed.

(** A stream that holds eleven bytes, a line without newline or NUL of at
    most 254 characters, and a newline: the line is read whole. *)
Lemma read_header_line_ok ndebug (pre line rest : str) :
  List.length pre = 11%nat ->
  no_newline line -> no_NUL line -> (List.length line < 255)%nat ->
  read_header_line ndebug (pre ++ line ++ newline :: rest)
  = Ret (line ++ [newline], rest).
Proof.
  intros Hpre Hnl Hnul Hlen. unfold read_header_line.
  rewrite (fread_app pre _ 11 Hpre), Hpre. cbn [Nat.eqb negb].
  unfold fgets. change (256 - 1)%nat with 255%nat.
  rewrite (fgets_chars_line line rest 255 Hnl Hlen).
  assert (Hc : c_string (line ++ [newline]) = line ++ [newline]).
  { apply c_string_no_NUL. apply Forall_app. split; [exact Hnul|].
    repeat constructor. discriminate. }
  assert (Hat : at_index (line ++ [newline])
                  (sz_sub (size (line ++ [newline])) 1) = Ret newline).
  { apply at_index_last. unfold size. rewrite length_app. cbn [List.length].
    apply N.lt_trans with 1000; [lia | reflexivity]. }
  destruct (line ++ newline :: rest) eqn:E;
    [destruct line; discriminate E|].
  rewrite Hc. unfold assert. rewrite Hat. cbn [bind].
  rewrite Ascii.eqb_refl. now destruct ndebug.
Qed.

Lemma Forall_firstn {A} (P : A -> Prop) (n : nat) (l : list A) :
  Forall P l -> Forall P (firstn n l).
Proof.
  intros H. rewrite <- (firstn_skipn n l) in H.
  apply Forall_app in H. tauto.
Qed.

(** A line of 255 characters or more without newline: in a build with
    assertions the parser aborts. *)
Lemma read_header_line_too_long (pre line rest : str) :
  List.length pre = 11%nat ->
  no_newline line -> no_NUL line -> (255 <= List.length line)%nat ->
  read_header_line false (pre ++ line ++ rest)
  = Abort "header[header.size() - 1] == '\n'".
Proof.
  intros Hpre Hnl Hnul Hlen. unfold read_header_line.
  rewrite (fread_app pre _ 11 Hpre), Hpre. cbn [Nat.eqb negb].
  unfold fgets. change (256 - 1)%nat with 255%nat.
  rewrite (fgets_chars_long line rest 255 Hnl Hlen).
  assert (Hfl : List.length (firstn 255 line) = 255%nat)
    by (rewrite length_firstn; lia).
  assert (Hc : c_string (firstn 255 line) = firstn 255 line).
  { apply c_string_no_NUL. now apply Forall_firstn. }
  pose proof (Forall_firstn _ 255 line Hnl) as Hnl'.
  destruct (exists_last (l := firstn 255 line)) as [l [x Ef]].
  { intros E0. rewrite E0 in Hfl. cbn in Hfl. lia. }
  rewrite Ef in *.
  assert (Hx : x <> newline).
  { apply Forall_app in Hnl'. destruct Hnl' as [_ Hnl'].
    exact (Forall_inv Hnl'). }
  destruct (line ++ rest) eqn:E.
  { destruct line; [cbn in Hlen; lia | discriminate E]. }
  rewrite Hc. unfold assert.
  rewrite at_index_last.
  - cbn [bind]. apply Ascii.eqb_neq in Hx. now rewrite Hx.
  - unfold size. rewrite Hfl. reflexivity.
Qed.

(** ** The fields of a header written by [CreateNumpyHeader] *)

Lemma dict_unpadded_line le c dtype shape :
  dict_unpadded le c dtype shape
  = "{"%char :: line_prefix le c dtype ++ lit "(" ++ shape_body shape
      ++ lit ")" ++ lit ", }".
Proof.
  unfold dict_unpadded, line_prefix. rewrite shape_ss_body.
  rewrite <- !app_assoc. reflexivity.
Qed.

Ltac concrete_dtype Hd Hc :=
  simpl in Hd;
  repeat (destruct Hd as [<-|Hd]; [injection Hc as <-|]);
  [..|contradiction].

Lemma line_prefix_facts le dtype c :
  In dtype Dtype.supported -> DtypeToChar dtype = Ret c ->
  List.length (line_prefix le c dtype) = 49%nat /\
  Forall plain_char (line_prefix le c dtype).
Proof.
  intros Hd Hc. concrete_dtype Hd Hc; destruct le;
    (split; [reflexivity|]);
    repeat constructor; discriminate.
Qed.

Lemma parse_fortran_order_prefix le dtype c (X : str) :
  In dtype Dtype.supported -> DtypeToChar dtype = Ret c ->
  parse_fortran_order (line_prefix le c dtype ++ X) = Ret false.
Proof.
  intros Hd Hc. unfold parse_fortran_order.
  assert (Hf : find (line_prefix le c dtype ++ X) (lit "fortran_order")
               = Some 17).
  { concrete_dtype Hd Hc; destruct le; vm_compute; reflexivity. }
  rewrite Hf.
  rewrite substr_app_inside.
  - concrete_dtype Hd Hc; destruct le; reflexivity.
  - unfold size. rewrite (proj1 (line_prefix_facts le dtype c Hd Hc)).
    discriminate.
Qed.

Lemma parse_descr_prefix ndebug le dtype c (X : str) :
  In dtype Dtype.supported -> DtypeToChar dtype = Ret c ->
  le = true \/ ndebug = true ->
  size (line_prefix le c dtype ++ X) < SIZE_MOD ->
  parse_descr ndebug (line_prefix le c dtype ++ X)
  = Ret (c, Z.to_N (Dtype.ByteSize dtype)).
Proof.
  intros Hd Hc Hbuild Hsz. unfold parse_descr.
  assert (Hf : find (line_prefix le c dtype ++ X) (lit "descr") = Some 1).
  { concrete_dtype Hd Hc; destruct le; vm_compute; reflexivity. }
  rewrite Hf.
  assert (Hlen : size (line_prefix le c dtype) = 49).
  { unfold size. now rewrite (proj1 (line_prefix_facts le dtype c Hd Hc)). }
  rewrite !at_index_app by (rewrite Hlen; reflexivity).
  rewrite substr_to_end_app by (try rewrite Hlen; try discriminate; exact Hsz).
  cbn [bind].
  assert (Hm : nth (N.to_nat (1 + 9)) (line_prefix le c dtype) NUL
               = BigEndianChar le).
  { concrete_dtype Hd Hc; destruct le; reflexivity. }
  assert (Ht : nth (N.to_nat (1 + 9 + 1)) (line_prefix le c dtype) NUL = c).
  { concrete_dtype Hd Hc; destruct le; reflexivity. }
  rewrite Hm, Ht.
  assert (Hassert : assert ndebug
                      (Ret (if (Ascii.eqb (BigEndianChar le) "<"
                                || Ascii.eqb (BigEndianChar le) "|")%bool
                            then true else false)) "littleEndian" = Ret tt).
  { destruct Hbuild as [-> | ->]; [now destruct ndebug | reflexivity]. }
  rewrite Hassert. cbn [bind].
  assert (Hws : exists d rest,
             skipn (N.to_nat (1 + 9 + 2)) (line_prefix le c dtype)
             = d :: "'"%char :: rest /\
             atoi [d] = Ret (Dtype.ByteSize dtype) /\
             d <> "'"%char /\
             sz_of_Z (Dtype.ByteSize dtype) = Z.to_N (Dtype.ByteSize dtype)).
  { concrete_dtype Hd Hc; destruct le; eexists; eexists;
      (split; [reflexivity|]); (split; [reflexivity|]);
      (split; [discriminate | reflexivity]). }
  destruct Hws as (d & rest & -> & Hatoi & Hd' & Hbs).
  cbn [app].
  assert (Hq : find (d :: "'"%char :: rest ++ X) (lit "'") = Some 1).
  { unfold find. cbn [lit list_ascii_of_string find_at prefixb].
    apply Ascii.eqb_neq in Hd'. rewrite Ascii.eqb_sym, Hd'. cbn [andb].
    reflexivity. }
  rewrite Hq.
  change (d :: "'"%char :: rest ++ X) with ([d] ++ ("'"%char :: rest ++ X)).
  rewrite substr_app_inside by reflexivity.
  change (firstn (N.to_nat 1) (skipn (N.to_nat 0) [d])) with [d].
  cbn [bind]. rewrite Hatoi. cbn [bind]. now rewrite Hbs.
Qed.

Lemma body_char_plain (c : ascii) : body_char c = true -> plain_char c.
Proof.
  intros H. repeat split; intros ->; discriminate H.
Qed.

(** The text between the first ['('] and the first [')'] is what the shape
    loop scans. *)
Lemma parse_shape_text (pre body T : str) :
  Forall plain_char pre -> Forall plain_char body ->
  size (pre ++ lit "(" ++ body ++ lit ")" ++ T) < SIZE_MOD ->
  parse_shape (pre ++ lit "(" ++ body ++ lit ")" ++ T)
  = shape_loop (S (List.length body)) body [].
Proof.
  intros Hpre Hbody Hsz. unfold parse_shape, find.
  change (lit "(") with ["("%char]. change (lit ")") with [")"%char].
  cbn [app].
  rewrite (find_at_char_skip "(" pre (body ++ ")"%char :: T) 0)
    by (eapply Forall_impl; [|exact Hpre]; intros a Ha; apply Ha).
  replace (pre ++ "("%char :: body ++ ")"%char :: T)
    with ((pre ++ "("%char :: body) ++ ")"%char :: T)
    by (rewrite <- app_assoc; reflexivity).
  rewrite (find_at_char_skip ")" (pre ++ "("%char :: body) T 0).
  2:{ apply Forall_app. split.
      - eapply Forall_impl; [|exact Hpre]. intros a Ha. apply Ha.
      - constructor; [discriminate|].
        eapply Forall_impl; [|exact Hbody]. intros a Ha. apply Ha. }
  assert (Hsizes : size (pre ++ "("%char :: body) = size pre + 1 + size body).
  { unfold size. rewrite length_app. cbn [List.length]. lia. }
  assert (Hbound : size pre + 1 + size body < SIZE_MOD).
  { revert Hsz. change (lit "(") with ["("%char]. change (lit ")") with [")"%char].
    unfold size. rewrite !length_app. cbn [List.length]. lia. }
  rewrite Hsizes, !N.add_0_l.
  rewrite (sz_sub_small (size pre + 1 + size body) (size pre)) by lia.
  rewrite sz_sub_small by lia.
  replace (size pre + 1 + size body - size pre - 1) with (size body) by lia.
  replace ((pre ++ "("%char :: body) ++ ")"%char :: T)
    with ((pre ++ ["("%char]) ++ body ++ ")"%char :: T)
    by (rewrite <- !app_assoc; reflexivity).
  replace (size pre + 1) with (size (pre ++ ["("%char]))
    by (unfold size; rewrite length_app; cbn [List.length]; lia).
  rewrite substr_middle. reflexivity.
Qed.

Lemma CreateNumpyHeader_line le shape dtype c :
  DtypeToChar dtype = Ret c ->
  exists P,
    List.length P = 10%nat /\
    CreateNumpyHeader le shape dtype
    = Ret (P ++ pad_dict (dict_unpadded le c dtype shape)) /\
    forall data,
      (P ++ pad_dict (dict_unpadded le c dtype shape)) ++ data
      = (P ++ ["{"%char]) ++ header_line le c dtype shape ++ newline :: data.
Proof.
  intros Hc.
  exists (preamble le (pad_dict (dict_unpadded le c dtype shape))).
  split; [destruct le; reflexivity|].
  split; [unfold CreateNumpyHeader; now rewrite Hc|].
  intros data.
  set (P := preamble le (pad_dict (dict_unpadded le c dtype shape))).
  unfold pad_dict, header_line.
  set (k := N.to_nat (space_padding (size (dict_unpadded le c dtype shape)))).
  rewrite (dict_unpadded_line le c dtype shape).
  rewrite <- !app_assoc. cbn [app]. rewrite <- !app_assoc. cbn [app].
  reflexivity.
Qed.

Lemma header_line_length le c dtype shape :
  size (pad_dict (dict_unpadded le c dtype shape))
  = size (header_line le c dtype shape) + 2.
Proof.
  unfold pad_dict, header_line.
  set (k := N.to_nat (space_padding (size (dict_unpadded le c dtype shape)))).
  rewrite (dict_unpadded_line le c dtype shape).
  unfold size. cbn [app List.length]. rewrite !length_app.
  cbn [List.length]. lia.
Qed.

Lemma header_line_clean le c dtype shape :
  In dtype Dtype.supported -> DtypeToChar dtype = Ret c ->
  no_newline (header_line le c dtype shape) /\
  no_NUL (header_line le c dtype shape).
Proof.
  intros Hd Hc.
  assert (H : Forall (fun a => a <> newline /\ a <> NUL)
                (header_line le c dtype shape)).
  { unfold header_line.
    apply Forall_app. split.
    { eapply Forall_impl; [|apply (line_prefix_facts le dtype c Hd Hc)].
      intros a Ha. split; apply Ha. }
    apply Forall_app. split; [repeat constructor; discriminate|].
    apply Forall_app. split.
    { eapply Forall_impl; [|apply shape_body_chars].
      intros a Ha. apply body_char_plain in Ha. split; apply Ha. }
    apply Forall_app. split; [repeat constructor; discriminate|].
    apply Forall_app. split; [repeat constructor; discriminate|].
    apply Forall_forall. intros x Hx. rewrite (repeat_spec _ _ _ Hx).
    split; discriminate. }
  split; (eapply Forall_impl; [|exact H]); intros a Ha; apply Ha.
Qed.

(** Decoding the header [CreateNumpyHeader] wrote, when it fits the line
    buffer. The byte-order marker is reached only when every dimension has
    been read. *)
Lemma ParseNumpyHeader_of_header ndebug le shape dtype header (data : str) :
  In dtype Dtype.supported ->
  CreateNumpyHeader le shape dtype = Ret header ->
  size header <= 266 ->
  (dims_fit shape = true -> le = true \/ ndebug = true) ->
  exists c,
    DtypeToChar dtype = Ret c /\
    ParseNumpyHeader ndebug (header ++ data)
    = if dims_fit shape
      then Ret (c, Z.to_N (Dtype.ByteSize dtype), shape, false, data)
      else Throw (std_out_of_range "stoi").
Proof.
  intros Hd Hheader Hsize Hbuild.
  destruct (DtypeToChar_supported dtype Hd) as [c Hc].
  exists c. split; [exact Hc|].
  destruct (CreateNumpyHeader_line le shape dtype c Hc)
    as (P & HP & Hcreate & Hstream).
  assert (Hh : header = P ++ pad_dict (dict_unpadded le c dtype shape))
    by congruence.
  subst header. rewrite Hstream.
  assert (Hpre : List.length (P ++ ["{"%char]) = 11%nat)
    by (rewrite length_app, HP; reflexivity).
  destruct (header_line_clean le c dtype shape Hd Hc) as [Hnl Hnul].
  assert (Hlen : size (header_line le c dtype shape) <= 254).
  { pose proof (header_line_length le c dtype shape) as Hl.
    rewrite size_app in Hsize.
    assert (H10 : size P = 10) by (unfold size; now rewrite HP).
    lia. }
  unfold ParseNumpyHeader.
  rewrite read_header_line_ok.
  2: exact Hpre.
  2: exact Hnl.
  2: exact Hnul.
  2: unfold size in Hlen; lia.
  cbn [bind].
  assert (Hsz : size (header_line le c dtype shape ++ [newline]) < SIZE_MOD).
  { rewrite size_app. change (size [newline]) with 1.
    apply N.le_lt_trans with 255; [lia | reflexivity]. }
  unfold header_line in *. rewrite <- !app_assoc in *.
  rewrite (parse_fortran_order_prefix le dtype c _ Hd Hc). cbn [bind].
  rewrite parse_shape_text.
  2: apply (line_prefix_facts le dtype c Hd Hc).
  2: eapply Forall_impl; [|apply shape_body_chars];
     intros a; apply body_char_plain.
  2: exact Hsz.
  rewrite shape_body_loop by (pose proof (shape_body_length shape); lia).
  unfold shape_loop_result. cbn [app].
  destruct (dims_fit shape); cbn [bind]; [|reflexivity].
  rewrite (parse_descr_prefix ndebug le dtype c _ Hd Hc (Hbuild eq_refl) Hsz).
  reflexivity.
Qed.

Lemma dims_fit_Forall (shape : list N) :
  dims_fit shape = true <-> Forall (fun d => (Z.of_N d <= INT_MAX)%Z) shape.
Proof.
  unfold dims_fit. rewrite forallb_forall, Forall_forall.
  split; intros H d Hd; specialize (H d Hd); now apply Z.leb_le.
Qed.

Lemma dims_fit_Exists (shape : list N) :
  dims_fit shape = false <-> Exists (fun d => (INT_MAX < Z.of_N d)%Z) shape.
Proof.
  unfold dims_fit. induction shape as [|d shape IH]; cbn [forallb].
  - split; [discriminate | intros H; inversion H].
  - rewrite andb_false_iff, IH, Exists_cons, Z.leb_gt. reflexivity.
Qed.

(** X13: for a supported type, a header of at most 266 bytes (a
    dictionary that fits the 256-byte line buffer) and dimensions that are
    all at most [INT_MAX], on a little-endian host or with [NDEBUG],
    [ParseNumpyHeader] applied to the header of [CreateNumpyHeader]
    followed by any bytes returns the code and byte size of the type, the
    shape, [fortran_order] false, and the bytes that follow. *)
Theorem header_decode_of_encode :
  forall ndebug le shape dtype header data,
    In dtype Dtype.supported ->
    CreateNumpyHeader le shape dtype = Ret header ->
    size header <= 266 ->
    le = true \/ ndebug = true ->
    Forall (fun d => (Z.of_N d <= INT_MAX)%Z) shape ->
    exists c,
      DtypeToChar dtype = Ret c /\
      ParseNumpyHeader ndebug (header ++ data)
      = Ret (c, Z.to_N (Dtype.ByteSize dtype), shape, false, data).
Proof.
  intros ndebug le shape dtype header data Hd Hh Hsize Hbuild Hfit.
  destruct (ParseNumpyHeader_of_header ndebug le shape dtype header data
              Hd Hh Hsize (fun _ => Hbuild)) as (c & Hc & Hp).
  apply dims_fit_Forall in Hfit. rewrite Hfit in Hp. now exists c.
Qed.

(** X14: a header of at most 266 bytes (a dictionary that fits the
    256-byte line buffer) whose shape has a dimension above [INT_MAX] is
    written by [CreateNumpyHeader] but not read back: on either host, in
    either build and whatever the memory, [std::stoi] raises
    [std::out_of_range] in the shape loop, and [Load] raises it with the
    handle left open. *)
Theorem large_dimension_not_loadable :
  forall ndebug le mem shape dtype header data,
    In dtype Dtype.supported ->
    CreateNumpyHeader le shape dtype = Ret header ->
    size header <= 266 ->
    Exists (fun d => (INT_MAX < Z.of_N d)%Z) shape ->
    ParseNumpyHeader ndebug (header ++ data) = Throw (std_out_of_range "stoi") /\
    Load_body ndebug mem (header ++ data) = Throw (std_out_of_range "stoi") /\
    forall w fname,
      files w fname = Some (header ++ data) ->
      Load ndebug mem w fname
      = (Throw (std_out_of_range "stoi"), handle_opened w).
Proof.
  intros ndebug le mem shape dtype header data Hd Hh Hsize Hbig.
  apply dims_fit_Exists in Hbig.
  destruct (ParseNumpyHeader_of_header ndebug le shape dtype header data
              Hd Hh Hsize) as (c & Hc & Hp).
  { rewrite Hbig. discriminate. }
  rewrite Hbig in Hp.
  pose proof (Load_body_parse_throw ndebug mem _ _ Hp) as Hb.
  split; [exact Hp|]. split; [exact Hb|].
  intros w fname Hf. now apply (Load_fails ndebug mem w fname _ _ Hf).
Qed.

(** X15: a header of more than 266 bytes does not fit the line buffer:
    [fgets] stops before the newline and, in a build with assertions, the
    parser aborts on the header it wrote itself. *)
Theorem oversized_header_aborts :
  forall le shape dtype header data,
    In dtype Dtype.supported ->
    CreateNumpyHeader le shape dtype = Ret header ->
    266 < size header ->
    forall mem,
      Load_body false mem (header ++ data)
      = Abort "header[header.size() - 1] == '\n'".
Proof.
  intros le shape dtype header data Hd Hh Hsize mem.
  destruct (DtypeToChar_supported dtype Hd) as [c Hc].
  destruct (CreateNumpyHeader_line le shape dtype c Hc)
    as (P & HP & Hcreate & Hstream).
  assert (Heq : header = P ++ pad_dict (dict_unpadded le c dtype shape))
    by congruence.
  subst header. rewrite Hstream.
  destruct (header_line_clean le c dtype shape Hd Hc) as [Hnl Hnul].
  assert (Hlen : (255 <= List.length (header_line le c dtype shape))%nat).
  { pose proof (header_line_length le c dtype shape) as Hl.
    rewrite size_app in Hsize.
    assert (H10 : size P = 10) by (unfold size; now rewrite HP).
    unfold size in *. lia. }
  unfold Load_body, ParseNumpyHeader.
  rewrite read_header_line_too_long; try assumption; [reflexivity|].
  rewrite length_app, HP. reflexivity.
Qed.

(** X16: for every supported type and every shape whose dimensions and
    product are at most [INT_MAX] and whose header has at most 266 bytes,
    on a little-endian host or with [NDEBUG], and with the memory of the
    payload granted, [NumpySave] followed by [Load] returns an array with
    the same shape and type, [fortran_order] false and the first
    [product * ByteSize] bytes of the saved buffer, and leaves no handle
    open. *)
Theorem save_load_roundtrip_general :
  forall ndebug le w fname data shape dtype header,
    In dtype Dtype.supported ->
    can_write w fname = true ->
    CreateNumpyHeader le shape dtype = Ret header ->
    size header <= 266 ->
    le = true \/ ndebug = true ->
    Forall (fun d => (Z.of_N d <= INT_MAX)%Z) shape ->
    (Z.of_N (product shape) <= INT_MAX)%Z ->
    product shape * Z.to_N (Dtype.ByteSize dtype) <= size data ->
    forall mem,
      allocates mem (product shape * Z.to_N (Dtype.ByteSize dtype)) ->
    exists w1 arr w2,
      NumpySave le w fname data shape dtype = (Ret tt, w1) /\
      Load ndebug mem w1 fname = (Ret arr, w2) /\
      GetShape arr = shape /\
      GetDtype arr = Ret dtype /\
      GetFortranOrder arr = false /\
      GetDataPtr arr
      = Ret (firstn (N.to_nat (product shape * Z.to_N (Dtype.ByteSize dtype)))
               data) /\
      open_handles w2 = open_handles w.
Proof.
  intros ndebug le w fname data shape dtype header
         Hd Hcw Hh Hsize Hbuild Hfit Hprod Hdata mem Hmem.
  pose proof (NumpySave_count shape dtype Hd Hprod) as Hcount.
  destruct (NumpySave_writes_prefix le w fname data shape dtype header Hcw Hh)
    as (w1 & Hsave & Hfile & _ & Hhandles).
  { now rewrite Hcount. }
  rewrite Hcount in Hfile.
  set (n := product shape * Z.to_N (Dtype.ByteSize dtype)) in *.
  destruct (ParseNumpyHeader_of_header ndebug le shape dtype header
              (firstn (N.to_nat n) data) Hd Hh Hsize (fun _ => Hbuild))
    as (c & Hc & Hparse).
  rewrite (proj2 (dims_fit_Forall shape) Hfit) in Hparse.
  destruct (supported_ByteSize dtype Hd) as [_ Hbs].
  assert (Hn : sz_mul (fold_left sz_mul shape 1) (Z.to_N (Dtype.ByteSize dtype))
               = n).
  { unfold sz_mul at 1. rewrite num_elements_product.
    apply sz_product_exact.
    unfold INT_MAX in Hprod.
    assert (Hp : product shape <= 2147483647) by lia.
    apply N.le_lt_trans with (2147483647 * 8); [|reflexivity].
    apply N.mul_le_mono; [exact Hp | lia]. }
  assert (Hsz : size (firstn (N.to_nat n) data) = n).
  { unfold size in *. rewrite length_firstn. lia. }
  pose proof (Load_body_complete ndebug mem _ _ _ _ _ _ Hparse) as Hbody.
  rewrite Hn in Hbody. specialize (Hbody Hsz).
  rewrite Hsz in Hbody. specialize (Hbody Hmem).
  exists w1. eexists. eexists.
  split; [exact Hsave|].
  split; [exact (Load_of_file ndebug mem w1 fname _ _ Hfile Hbody)|].
  split; [reflexivity|].
  split.
  { rewrite GetDtype_table. clear -Hd Hc.
    simpl in Hd.
    repeat (destruct Hd as [<-|Hd]; [injection Hc as <-; reflexivity|]).
    contradiction. }
  split; [reflexivity|].
  split; [reflexivity|].
  cbn [fclose handle_opened open_handles pred]. exact Hhandles.
Qed.

(** ** The header line that is accepted *)

Lemma fgets_chars_one_line (n : nat) (fp : str) :
  one_line (fst (fgets_chars n fp)).
Proof.
  revert fp. induction n as [|n IH]; intros fp.
  - exists []. split; [constructor | now left].
  - destruct fp as [|c fp]; cbn [fgets_chars].
    + exists []. split; [constructor | now left].
    + destruct (Ascii.eqb c newline) eqn:Hc.
      * apply Ascii.eqb_eq in Hc. subst. exists [].
        split; [constructor | now right].
      * apply Ascii.eqb_neq in Hc. specialize (IH fp).
        destruct (fgets_chars n fp) as [l r]. cbn [fst] in *.
        destruct IH as (body & Hbody & [-> | ->]).
        -- exists (c :: body). split; [now constructor | now left].
        -- exists (c :: body). split; [now constructor | now right].
Qed.

Lemma c_string_prefix (b : str) :
  no_NUL (c_string b) /\ exists t, b = c_string b ++ t.
Proof.
  induction b as [|c b [IH1 [t IH2]]].
  - split; [constructor | now exists []].
  - cbn [c_string]. destruct (Ascii.eqb c NUL) eqn:Hc.
    + split; [constructor | now exists (c :: b)].
    + apply Ascii.eqb_neq in Hc. split; [now constructor|].
      exists t. cbn [app]. now rewrite <- IH2.
Qed.

Lemma one_line_prefix (h t : str) : one_line (h ++ t) -> one_line h.
Proof.
  intros (body & Hbody & Hs).
  destruct t as [|x t] using rev_ind.
  - rewrite app_nil_r in Hs. now exists body.
  - clear IHt. exists h. split; [|now left].
    destruct Hs as [Hs | Hs].
    + rewrite <- Hs in Hbody. apply Forall_app in Hbody. tauto.
    + rewrite app_assoc in Hs. apply app_inj_tail in Hs. destruct Hs as [Hs _].
      rewrite <- Hs in Hbody. apply Forall_app in Hbody. tauto.
Qed.

(** X12: a header line that is accepted has at most 255 characters, holds
    no NUL, and holds a newline at most as its last character; in a build
    with assertions it does end with a newline. *)
Theorem read_header_line_invariant :
  forall ndebug fp header rest,
    read_header_line ndebug fp = Ret (header, rest) ->
    (List.length header <= 255)%nat /\
    no_NUL header /\
    one_line header /\
    (ndebug = false ->
     exists body, header = body ++ [newline] /\ no_newline body).
Proof.
  intros ndebug fp header rest. unfold read_header_line.
  destruct (fread 11 fp) as [buffer fp'].
  destruct (negb (List.length buffer =? 11)%nat); [discriminate|].
  unfold fgets. destruct fp' as [|c0 fp']; [discriminate|].
  change (256 - 1)%nat with 255%nat.
  pose proof (fgets_chars_bounded 255 (c0 :: fp')) as Hlen.
  pose proof (fgets_chars_one_line 255 (c0 :: fp')) as Hone.
  destruct (fgets_chars 255 (c0 :: fp')) as [line r]. cbn [fst] in *.
  destruct (c_string_prefix line) as [Hnul [t Ht]].
  assert (Hone' : one_line (c_string line)).
  { apply (one_line_prefix _ t). now rewrite <- Ht. }
  assert (Hlen' : (List.length (c_string line) <= 255)%nat).
  { rewrite Ht, length_app in Hlen. lia. }
  unfold assert. destruct ndebug.
  - cbn [bind]. intros [= <- <-].
    repeat split; try assumption. discriminate.
  - destruct (at_index (c_string line) (sz_sub (size (c_string line)) 1))
      as [c| | |] eqn:Hat; cbn [bind]; try discriminate.
    destruct (Ascii.eqb c newline) eqn:Hc; cbn [bind]; [|discriminate].
    intros [= <- <-]. apply Ascii.eqb_eq in Hc. subst c.
    repeat split; try assumption. intros _.
    destruct (c_string line) as [|x l] eqn:El using rev_ind.
    { vm_compute in Hat. discriminate. }
    clear IHl.
    rewrite at_index_last in Hat.
    2:{ unfold size. apply N.le_lt_trans with 255; [lia | reflexivity]. }
    injection Hat as ->. exists l. split; [reflexivity|].
    destruct Hone' as (body & Hbody & [Hs | Hs]).
    + rewrite <- Hs in Hbody. apply Forall_app in Hbody.
      destruct Hbody as [_ Hbody]. exfalso. now apply (Forall_inv Hbody).
    + apply app_inj_tail in Hs. destruct Hs as [-> _]. exact Hbody.
Qed.

(** ** The length field *)

Lemma ToByteString_u16_value (le : bool) (n : N) :
  exists b0 b1,
    ToByteString_u16 le n = [b0; b1] /\
    (if le then N_of_ascii b0 + 256 * N_of_ascii b1
     else 256 * N_of_ascii b0 + N_of_ascii b1) = n mod 2 ^ 16.
Proof.
  unfold ToByteString_u16.
  set (v := n mod 2 ^ 16).
  assert (Hv : v < 65536) by (apply N.mod_lt; discriminate).
  assert (Hlo : v mod 256 < 256) by (apply N.mod_lt; discriminate).
  assert (Hhi : v / 256 < 256)
    by (apply N.Div0.div_lt_upper_bound; exact Hv).
  pose proof (N.div_mod v 256 ltac:(discriminate)) as Hdm.
  destruct le; eexists; eexists; (split; [reflexivity|]);
    rewrite !N_ascii_embedding by assumption; lia.
Qed.

(** X1: for every shape and supported type, the header is the six magic
    bytes, the version bytes 1 and 0, two bytes whose value in the byte
    order of the host is the length of the dictionary modulo 2^16, and the
    dictionary, which starts with an opening brace. *)
Theorem header_layout :
  forall le shape,
    Forall (fun dtype =>
              exists c b0 b1,
                DtypeToChar dtype = Ret c /\
                let dict := pad_dict (dict_unpadded le c dtype shape) in
                CreateNumpyHeader le shape dtype
                = Ret (magic ++ [Ascii.ascii_of_nat 1; Ascii.ascii_of_nat 0]
                         ++ [b0; b1] ++ dict) /\
                (if le then N_of_ascii b0 + 256 * N_of_ascii b1
                 else 256 * N_of_ascii b0 + N_of_ascii b1)
                = size dict mod 2 ^ 16 /\
                hd NUL dict = "{"%char)
           Dtype.supported.
Proof.
  intros le shape. apply Forall_forall. intros dtype Hd.
  destruct (DtypeToChar_supported dtype Hd) as [c Hc].
  destruct (ToByteString_u16_value le
              (size (pad_dict (dict_unpadded le c dtype shape))))
    as (b0 & b1 & Hb & Hv).
  exists c, b0, b1. split; [exact Hc|]. cbv zeta.
  split; [|split; [exact Hv|]].
  - unfold CreateNumpyHeader. rewrite Hc. cbn [bind]. unfold preamble.
    rewrite Hb. now rewrite <- !app_assoc.
  - unfold pad_dict. now rewrite dict_unpadded_line.
Qed.

(** ** What every parsed header satisfies *)

Lemma span_digits_fst_digits (s : str) :
  Forall (fun c => is_digit c = true) (fst (span_digits s)).
Proof.
  induction s as [|c s IH]; [constructor|].
  cbn [span_digits]. destruct (is_digit c) eqn:Hc; [|constructor].
  destruct (span_digits s) as [d r]. cbn [fst] in *. now constructor.
Qed.

Lemma regex_search_num_match (s sm0 suffix : str) :
  regex_search_num s = Some (sm0, suffix) ->
  Forall (fun c => is_digit c = true) sm0 /\ sm0 <> [].
Proof.
  induction s as [|c s IH]; [discriminate|].
  cbn [regex_search_num]. destruct (is_digit c) eqn:Hc; [|exact IH].
  intros H. injection H as H.
  pose proof (span_digits_fst_digits (c :: s)) as Hd.
  cbn [span_digits] in H, Hd. rewrite H in Hd. cbn [fst] in Hd.
  split; [exact Hd|].
  rewrite Hc in H.
  destruct (span_digits s). injection H as <- _. discriminate.
Qed.

Lemma digit_val_range (c : ascii) :
  is_digit c = true -> (0 <= digit_val c <= 9)%Z.
Proof.
  unfold is_digit, digit_val. intros H.
  apply andb_true_iff in H. destruct H as [H1 H2].
  apply N.leb_le in H1, H2. lia.
Qed.

Lemma decimal_fold_nonneg (D : str) (acc : Z) :
  Forall (fun c => is_digit c = true) D -> (0 <= acc)%Z ->
  (0 <= fold_left (fun a c => (a * 10 + digit_val c)%Z) D acc)%Z.
Proof.
  intros HD. revert acc. induction HD as [|c D Hc _ IH]; intros acc Hacc;
    [exact Hacc|].
  cbn [fold_left]. apply IH. pose proof (digit_val_range c Hc). lia.
Qed.

Lemma stoi_match_range (sm0 : str) (v : Z) :
  Forall (fun c => is_digit c = true) sm0 -> sm0 <> [] ->
  stoi sm0 = Ret v -> (0 <= v <= INT_MAX)%Z.
Proof.
  intros HD Hne. unfold stoi. rewrite (parse_int_digits sm0 HD Hne).
  unfold in_int_range.
  destruct (INT_MIN <=? decimal_value sm0)%Z; [|discriminate].
  destruct (decimal_value sm0 <=? INT_MAX)%Z eqn:Hle; [|discriminate].
  intros [= <-]. apply Z.leb_le in Hle. split; [|exact Hle].
  apply decimal_fold_nonneg; [exact HD | lia].
Qed.

Lemma shape_loop_dims (fuel : nat) (s : str) (acc shape : list N) :
  Forall (fun d => (Z.of_N d <= INT_MAX)%Z) acc ->
  shape_loop fuel s acc = Ret shape ->
  Forall (fun d => (Z.of_N d <= INT_MAX)%Z) shape.
Proof.
  revert s acc. induction fuel as [|fuel IH]; intros s acc Hacc;
    cbn [shape_loop]; [now intros [= <-]|].
  destruct (regex_search_num s) as [[sm0 suffix]|] eqn:E;
    [|now intros [= <-]].
  destruct (regex_search_num_match s sm0 suffix E) as [HD Hne].
  destruct (stoi sm0) as [v| | |] eqn:Hv; cbn [bind]; try discriminate.
  apply IH. apply Forall_app. split; [exact Hacc|].
  constructor; [|constructor].
  pose proof (stoi_match_range sm0 v HD Hne Hv) as Hr.
  rewrite sz_of_Z_nonneg by (unfold INT_MAX in Hr; lia).
  rewrite Z2N.id; lia.
Qed.

Lemma parse_shape_dims (header : str) (shape : list N) :
  parse_shape header = Ret shape ->
  Forall (fun d => (Z.of_N d <= INT_MAX)%Z) shape.
Proof.
  unfold parse_shape.
  destruct (find header (lit "(")) as [loc1|]; [|discriminate].
  destruct (find header (lit ")")) as [loc2|]; [|discriminate].
  destruct (substr header (loc1 + 1) (sz_sub (sz_sub loc2 loc1) 1))
    as [str_shape| | |]; cbn [bind]; try discriminate.
  apply shape_loop_dims. constructor.
Qed.

Lemma fgets_chars_split (n : nat) (fp : str) :
  fp = fst (fgets_chars n fp) ++ snd (fgets_chars n fp).
Proof.
  revert fp. induction n as [|n IH]; intros fp; [reflexivity|].
  destruct fp as [|c fp]; [reflexivity|]. cbn [fgets_chars].
  destruct (Ascii.eqb c newline); [reflexivity|].
  specialize (IH fp). destruct (fgets_chars n fp) as [l r].
  cbn [fst snd app] in *. now rewrite <- IH.
Qed.

Lemma fgets_chars_nonempty (n : nat) (c : ascii) (fp : str) :
  fst (fgets_chars (S n) (c :: fp)) <> [].
Proof.
  cbn [fgets_chars]. destruct (Ascii.eqb c newline); [discriminate|].
  destruct (fgets_chars n fp). discriminate.
Qed.

Lemma read_header_line_consumes ndebug (fp header rest : str) :
  read_header_line ndebug fp = Ret (header, rest) ->
  exists consumed,
    fp = consumed ++ rest /\ (12 <= List.length consumed <= 266)%nat.
Proof.
  unfold read_header_line, fread.
  destruct (negb (List.length (firstn 11 fp) =? 11)%nat) eqn:H11;
    [discriminate|].
  apply negb_false_iff, Nat.eqb_eq in H11.
  unfold fgets. destruct (skipn 11 fp) as [|c0 fp'] eqn:Hskip; [discriminate|].
  change (256 - 1)%nat with 255%nat.
  pose proof (fgets_chars_split 255 (c0 :: fp')) as Hsplit.
  pose proof (fgets_chars_bounded 255 (c0 :: fp')) as Hlen.
  pose proof (fgets_chars_nonempty 254 c0 fp') as Hne.
  destruct (fgets_chars 255 (c0 :: fp')) as [line r]. cbn [fst snd] in *.
  intros H.
  assert (Hr : r = rest).
  { destruct (assert ndebug _ _) in H; cbn [bind] in H; try discriminate.
    now injection H. }
  subst r. exists (firstn 11 fp ++ line). split.
  - rewrite <- app_assoc, <- Hsplit, <- Hskip. symmetry. apply firstn_skipn.
  - rewrite length_app, H11. destruct line; [congruence|].
    cbn [List.length] in *. lia.
Qed.

Lemma ParseNumpyHeader_inv ndebug (fp : str) type ws shape fo rest :
  ParseNumpyHeader ndebug fp = Ret (type, ws, shape, fo, rest) ->
  exists header,
    read_header_line ndebug fp = Ret (header, rest) /\
    parse_shape header = Ret shape.
Proof.
  unfold ParseNumpyHeader.
  destruct (read_header_line ndebug fp) as [[header rest']| | |] eqn:Hl;
    cbn [bind]; try discriminate.
  destruct (parse_fortran_order header) as [fo'| | |]; cbn [bind];
    try discriminate.
  destruct (parse_shape header) as [shape'| | |] eqn:Hs; cbn [bind];
    try discriminate.
  destruct (parse_descr ndebug header) as [[type' ws']| | |]; cbn [bind];
    try discriminate.
  intros [= <- <- <- <- <-]. now exists header.
Qed.

(** X17: when [ParseNumpyHeader] returns, every dimension of the shape is
    at most [INT_MAX], and the parser has consumed between 12 and 266 bytes
    of the stream: what it hands back is the stream after them. *)
Theorem parsed_header_invariant :
  forall ndebug fp type ws shape fo rest,
    ParseNumpyHeader ndebug fp = Ret (type, ws, shape, fo, rest) ->
    Forall (fun d => (Z.of_N d <= INT_MAX)%Z) shape /\
    exists consumed,
      fp = consumed ++ rest /\ (12 <= List.length consumed <= 266)%nat.
Proof.
  intros ndebug fp type ws shape fo rest Hp.
  destruct (ParseNumpyHeader_inv _ _ _ _ _ _ _ Hp) as (header & Hl & Hs).
  split; [exact (parse_shape_dims header shape Hs)|].
  exact (read_header_line_consumes ndebug fp header rest Hl).
Qed.

(** X18: an array returned by [Load] has every dimension at most
    [INT_MAX], an element count equal to the product of its shape modulo
    2^64, and a buffer of [num_elements_ * word_size_] bytes (in [size_t]
    arithmetic), on every host. *)
Theorem loaded_dimensions_fit_int :
  forall ndebug mem fp arr,
    Load_body ndebug mem fp = Ret arr ->
    Forall (fun d => (Z.of_N d <= INT_MAX)%Z) (GetShape arr) /\
    num_elements_ arr = product (GetShape arr) mod SIZE_MOD /\
    exists payload, GetDataPtr arr = Ret payload /\
                    size payload = sz_mul (num_elements_ arr) (word_size_ arr).
Proof.
  intros ndebug mem fp arr. rewrite Load_body_steps.
  destruct (ParseNumpyHeader ndebug fp)
    as [[[[[type ws] shape] fo] rest]| | |] eqn:Hp; cbn [bind];
    try discriminate.
  destruct (NumpyArray_new mem shape type ws fo) as [arr0| | |] eqn:Hnew;
    cbn [bind]; try discriminate.
  destruct (NumpyArray_new_inv _ _ _ _ _ _ Hnew) as [_ ->].
  destruct (NumBytes (fresh_array shape type ws fo)) as [n| | |];
    cbn [bind]; try discriminate.
  destruct (write_bytes (fresh_array shape type ws fo) 0
              (firstn (N.to_nat n) rest)) as [arr'| | |] eqn:Hw;
    cbn [bind]; try discriminate.
  destruct (negb (size (firstn (N.to_nat n) rest) =? n)); [discriminate|].
  intros [= <-].
  destruct (write_bytes_length _ _ _ _ Hw)
    as (v & v' & Hv & Hv' & Hlen & Hshape & _ & Hws & _ & Hne).
  destruct (ParseNumpyHeader_inv _ _ _ _ _ _ _ Hp) as (header & _ & Hs).
  pose proof (parse_shape_dims header shape Hs) as Hdims.
  unfold GetShape, GetDataPtr. rewrite Hshape, Hne, Hv', Hws.
  cbn [fresh_array shape_ num_elements_ word_size_].
  split; [exact Hdims|]. split; [apply num_elements_product|].
  exists v'. split; [reflexivity|].
  cbn [fresh_array data_holder] in Hv. injection Hv as <-.
  unfold size. rewrite Hlen. apply size_repeat.
Qed.

Lemma accumulate_int_low_bits_witness :
  ((Z.of_N (product shape_2_3) <= INT_MAX)%Z /\
   sz_of_Z (accumulate_int shape_2_3) = product shape_2_3) /\
  ((INT_MAX < Z.of_N (product shape_64k_64k) < 2 ^ 64 - 2 ^ 31)%Z /\
   sz_of_Z (accumulate_int shape_64k_64k) <> product shape_64k_64k).
Proof.
  assert (H1 : (Z.of_N (product shape_2_3) <= INT_MAX)%Z) by (vm_compute; discriminate).
  assert (H2 : (INT_MAX < Z.of_N (product shape_64k_64k) < 2 ^ 64 - 2 ^ 31)%Z)
    by (split; reflexivity).
  split.
  - split; [exact H1|].
    exact (proj1 (proj2 (proj2 (accumulate_int_low_bits shape_2_3))) H1).
  - split; [exact H2|].
    exact (proj2 (proj2 (proj2 (accumulate_int_low_bits shape_64k_64k))) H2).
Defined.

Lemma NumpySave_file_contents_witness :
  In Dtype.UInt16 Dtype.supported /\
  can_write empty_world "a.npy" = true /\
  (Z.of_N (product shape_2_3) <= INT_MAX)%Z /\
  product shape_2_3 * Z.to_N (Dtype.ByteSize Dtype.UInt16) <= size payload24 /\
  exists header w1,
    CreateNumpyHeader true shape_2_3 Dtype.UInt16 = Ret header /\
    NumpySave true empty_world "a.npy" payload24 shape_2_3 Dtype.UInt16
    = (Ret tt, w1) /\
    files w1 "a.npy"%string
    = Some (header
              ++ firstn (N.to_nat (product shape_2_3
                                   * Z.to_N (Dtype.ByteSize Dtype.UInt16)))
                   payload24) /\
    (forall other, other <> "a.npy"%string ->
                   files w1 other = files empty_world other) /\
    open_handles w1 = open_handles empty_world.
Proof.
  assert (H1 : In Dtype.UInt16 Dtype.supported) by (simpl; tauto).
  assert (H2 : can_write empty_world "a.npy" = true) by reflexivity.
  assert (H3 : (Z.of_N (product shape_2_3) <= INT_MAX)%Z)
    by (vm_compute; discriminate).
  assert (H4 : product shape_2_3 * Z.to_N (Dtype.ByteSize Dtype.UInt16)
               <= size payload24) by (vm_compute; discriminate).
  split; [exact H1|]. split; [exact H2|]. split; [exact H3|].
  split; [exact H4|].
  exact (NumpySave_file_contents true empty_world "a.npy" payload24 shape_2_3
           Dtype.UInt16 H1 H2 H3 H4).
Defined.

Lemma NumpySave_unsupported_empties_file_witness :
  ~ In Float16 Dtype.supported /\
  can_write (world_with "a.npy" payload24) "a.npy" = true /\
  exists w1,
    NumpySave true (world_with "a.npy" payload24) "a.npy" payload24 [2; 3]
      Float16
    = (Throw (UnsupportedDtypeError (Dtype.ToString Float16)), w1) /\
    files w1 "a.npy"%string = Some [] /\
    open_handles w1 = S (open_handles (world_with "a.npy" payload24)).
Proof.
  assert (H1 : ~ In Float16 Dtype.supported) by (simpl; intuition discriminate).
  assert (H2 : can_write (world_with "a.npy" payload24) "a.npy" = true)
    by reflexivity.
  split; [exact H1|]. split; [exact H2|].
  exact (NumpySave_unsupported_empties_file true _ "a.npy" payload24 [2; 3]
           Float16 H1 H2).
Defined.

Lemma GetDtype_DtypeToChar_inverse_witness :
  NumpyArray_new host_memory [2] "i" 8 false
  = Ret (fresh_array [2] "i" 8 false) /\
  GetDtype (fresh_array [2] "i" 8 false) = Ret Dtype.Int64 /\
  In Dtype.Int64 Dtype.supported /\
  exists c, type_ (fresh_array [2] "i" 8 false) = Some c /\
            DtypeToChar Dtype.Int64 = Ret c /\
            (Dtype.Int64 = Dtype.Bool_ \/
             word_size_ (fresh_array [2] "i" 8 false)
             = Z.to_N (Dtype.ByteSize Dtype.Int64)).
Proof.
  assert (H0 : NumpyArray_new host_memory [2] "i" 8 false
               = Ret (fresh_array [2] "i" 8 false)) by reflexivity.
  assert (Hin : In Dtype.Int64 Dtype.supported) by (simpl; tauto).
  assert (H : GetDtype (fresh_array [2] "i" 8 false) = Ret Dtype.Int64).
  { destruct (proj1 (Forall_forall _ _) (proj1 GetDtype_DtypeToChar_inverse)
                Dtype.Int64 Hin) as [c [Hc Hall]].
    injection Hc as <-. exact (Hall host_memory [2] false _ H0). }
  split; [exact H0|]. split; [exact H|].
  exact (proj2 GetDtype_DtypeToChar_inverse _ _ H).
Defined.

Lemma short_file_rejected_witness :
  files (world_with "s.npy" (lit "0123456789")) "s.npy"%string
  = Some (lit "0123456789") /\
  (List.length (lit "0123456789") < 11)%nat /\
  ParseNumpyHeader false (lit "0123456789") = Throw PreambleReadError /\
  Load false host_memory (world_with "s.npy" (lit "0123456789")) "s.npy"
  = (Throw PreambleReadError,
     handle_opened (world_with "s.npy" (lit "0123456789"))).
Proof.
  assert (H1 : files (world_with "s.npy" (lit "0123456789")) "s.npy"%string
               = Some (lit "0123456789")) by reflexivity.
  assert (H2 : (List.length (lit "0123456789") < 11)%nat) by (cbn; lia).
  split; [exact H1|]. split; [exact H2|].
  exact (short_file_rejected false host_memory _ _ _ H1 H2).
Defined.

Lemma preamble_only_file_undefined_witness :
  List.length (lit "0123456789{") = 11%nat /\
  ParseNumpyHeader true (lit "0123456789{") = Undefined.
Proof.
  assert (H : List.length (lit "0123456789{") = 11%nat) by reflexivity.
  split; [exact H|].
  exact (preamble_only_file_undefined true _ H).
Defined.

Lemma preamble_never_inspected_witness :
  List.length (firstn 11 little_endian_file) = 11%nat /\
  List.length (lit "00000000000") = 11%nat /\
  ParseNumpyHeader false
    (firstn 11 little_endian_file ++ skipn 11 little_endian_file)
  = ParseNumpyHeader false (lit "00000000000" ++ skipn 11 little_endian_file).
Proof.
  assert (H1 : List.length (firstn 11 little_endian_file) = 11%nat)
    by reflexivity.
  assert (H2 : List.length (lit "00000000000") = 11%nat) by reflexivity.
  split; [exact H1|]. split; [exact H2|].
  exact (proj1 (preamble_never_inspected false host_memory _ _
                  (skipn 11 little_endian_file) H1 H2)).
Defined.

Lemma Load_handle_accounting_witness :
  files (world_with "t.npy" truncated_file) "t.npy"%string
  = Some truncated_file /\
  (forall arr,
     fst (Load false host_memory (world_with "t.npy" truncated_file) "t.npy") <> Ret arr) /\
  open_handles (snd (Load false host_memory (world_with "t.npy" truncated_file) "t.npy"))
  = S (open_handles (world_with "t.npy" truncated_file)).
Proof.
  assert (H1 : files (world_with "t.npy" truncated_file) "t.npy"%string
               = Some truncated_file) by reflexivity.
  assert (H2 : forall arr,
             fst (Load false host_memory (world_with "t.npy" truncated_file) "t.npy")
             <> Ret arr).
  { intros arr. vm_compute. discriminate. }
  split; [exact H1|]. split; [exact H2|].
  exact (proj2 (proj1 (proj2 (Load_handle_accounting false host_memory _ "t.npy"))
                  _ H1) H2).
Defined.

Lemma Load_ignores_trailing_bytes_witness :
  ParseNumpyHeader false file_with_trailing_bytes
  = Ret ("i"%char, 4, [2], false, lit "abcdefghtrailing") /\
  sz_mul (fold_left sz_mul [2] 1) 4 <= size (lit "abcdefghtrailing") /\
  allocates host_memory (sz_mul (fold_left sz_mul [2] 1) 4) /\
  Load_body false host_memory file_with_trailing_bytes
  = Ret (mkNumpyArray (Some (lit "abcdefgh")) [2] (Some "i"%char) 4 false 2).
Proof.
  assert (H1 : ParseNumpyHeader false file_with_trailing_bytes
               = Ret ("i"%char, 4, [2], false, lit "abcdefghtrailing"))
    by (vm_compute; reflexivity).
  assert (H2 : sz_mul (fold_left sz_mul [2] 1) 4
               <= size (lit "abcdefghtrailing")) by (vm_compute; discriminate).
  assert (H3 : allocates host_memory (sz_mul (fold_left sz_mul [2] 1) 4)).
  { split; [vm_compute; discriminate|reflexivity]. }
  split; [exact H1|]. split; [exact H2|]. split; [exact H3|].
  exact (Load_ignores_trailing_bytes false host_memory _ _ _ _ _ _ H1 H2 H3).
Defined.

Lemma NDEBUG_build_agrees_with_debug_build_witness :
  Load_body false host_memory little_endian_file
  = Ret (mkNumpyArray (Some (lit "abcdefgh")) [2] (Some "i"%char) 4 false 2) /\
  Load_body true host_memory little_endian_file
  = Ret (mkNumpyArray (Some (lit "abcdefgh")) [2] (Some "i"%char) 4 false 2).
Proof.
  assert (H : Load_body false host_memory little_endian_file
              = Ret (mkNumpyArray (Some (lit "abcdefgh")) [2] (Some "i"%char) 4
                       false 2)) by (vm_compute; reflexivity).
  split; [exact H|].
  exact (NDEBUG_build_agrees_with_debug_build host_memory _ _ H I).
Defined.

Lemma read_header_line_invariant_witness :
  exists header rest,
    read_header_line false little_endian_file = Ret (header, rest) /\
    (List.length header <= 255)%nat /\
    exists body, header = body ++ [newline] /\ no_newline body.
Proof.
  assert (H : read_header_line false little_endian_file
              = Ret (c_string (fst (fgets_chars 255 (skipn 11 little_endian_file))),
                     lit "abcdefgh")) by (vm_compute; reflexivity).
  eexists. eexists. split; [exact H|].
  destruct (read_header_line_invariant false _ _ _ H) as (Hlen & _ & _ & Hnl).
  split; [exact Hlen | exact (Hnl eq_refl)].
Defined.

Lemma header_decode_of_encode_witness :
  In Dtype.Float32 Dtype.supported /\
  CreateNumpyHeader true shape_2_3 Dtype.Float32
  = Ret (header_of true shape_2_3 Dtype.Float32) /\
  size (header_of true shape_2_3 Dtype.Float32) <= 266 /\
  Forall (fun d => (Z.of_N d <= INT_MAX)%Z) shape_2_3 /\
  exists c,
    DtypeToChar Dtype.Float32 = Ret c /\
    ParseNumpyHeader false (header_of true shape_2_3 Dtype.Float32 ++ payload24)
    = Ret (c, Z.to_N (Dtype.ByteSize Dtype.Float32), shape_2_3, false,
           payload24).
Proof.
  assert (H1 : In Dtype.Float32 Dtype.supported) by (simpl; tauto).
  assert (H2 : CreateNumpyHeader true shape_2_3 Dtype.Float32
               = Ret (header_of true shape_2_3 Dtype.Float32)) by reflexivity.
  assert (H3 : size (header_of true shape_2_3 Dtype.Float32) <= 266)
    by (vm_compute; discriminate).
  assert (H4 : Forall (fun d => (Z.of_N d <= INT_MAX)%Z) shape_2_3)
    by (repeat constructor; vm_compute; discriminate).
  split; [exact H1|]. split; [exact H2|]. split; [exact H3|].
  split; [exact H4|].
  exact (header_decode_of_encode false true shape_2_3 Dtype.Float32 _ payload24
           H1 H2 H3 (or_introl eq_refl) H4).
Defined.

Lemma large_dimension_not_loadable_witness :
  In Dtype.UInt8 Dtype.supported /\
  CreateNumpyHeader false shape_0_4G Dtype.UInt8
  = Ret (header_of false shape_0_4G Dtype.UInt8) /\
  size (header_of false shape_0_4G Dtype.UInt8) <= 266 /\
  Exists (fun d => (INT_MAX < Z.of_N d)%Z) shape_0_4G /\
  Load_body false host_memory (header_of false shape_0_4G Dtype.UInt8 ++ [])
  = Throw (std_out_of_range "stoi").
Proof.
  assert (H1 : In Dtype.UInt8 Dtype.supported) by (simpl; tauto).
  assert (H2 : CreateNumpyHeader false shape_0_4G Dtype.UInt8
               = Ret (header_of false shape_0_4G Dtype.UInt8)) by reflexivity.
  assert (H3 : size (header_of false shape_0_4G Dtype.UInt8) <= 266)
    by (vm_compute; discriminate).
  assert (H4 : Exists (fun d => (INT_MAX < Z.of_N d)%Z) shape_0_4G)
    by (apply Exists_cons_tl, Exists_cons_hd; reflexivity).
  split; [exact H1|]. split; [exact H2|]. split; [exact H3|].
  split; [exact H4|].
  exact (proj1 (proj2 (large_dimension_not_loadable false false host_memory
                         shape_0_4G Dtype.UInt8 _ [] H1 H2 H3 H4))).
Defined.

Lemma oversized_header_aborts_witness :
  In Dtype.Int32 Dtype.supported /\
  CreateNumpyHeader true long_shape Dtype.Int32
  = Ret (header_of true long_shape Dtype.Int32) /\
  266 < size (header_of true long_shape Dtype.Int32) /\
  Load_body false host_memory
    (header_of true long_shape Dtype.Int32 ++ payload24)
  = Abort "header[header.size() - 1] == '\n'".
Proof.
  assert (H1 : In Dtype.Int32 Dtype.supported) by (simpl; tauto).
  assert (H2 : CreateNumpyHeader true long_shape Dtype.Int32
               = Ret (header_of true long_shape Dtype.Int32)) by reflexivity.
  assert (H3 : 266 < size (header_of true long_shape Dtype.Int32))
    by (vm_compute; reflexivity).
  split; [exact H1|]. split; [exact H2|]. split; [exact H3|].
  exact (oversized_header_aborts true long_shape Dtype.Int32 _ payload24
           H1 H2 H3 host_memory).
Defined.

Lemma save_load_roundtrip_general_witness :
  exists w1 arr w2,
    NumpySave true empty_world "a.npy" payload24 shape_2_3 Dtype.UInt16
    = (Ret tt, w1) /\
    Load false host_memory w1 "a.npy" = (Ret arr, w2) /\
    GetShape arr = shape_2_3 /\
    GetDtype arr = Ret Dtype.UInt16 /\
    GetFortranOrder arr = false /\
    GetDataPtr arr
    = Ret (firstn (N.to_nat (product shape_2_3
                             * Z.to_N (Dtype.ByteSize Dtype.UInt16)))
             payload24) /\
    open_handles w2 = open_handles empty_world.
Proof.
  assert (H1 : In Dtype.UInt16 Dtype.supported) by (simpl; tauto).
  assert (H2 : can_write empty_world "a.npy" = true) by reflexivity.
  assert (H3 : CreateNumpyHeader true shape_2_3 Dtype.UInt16
               = Ret (header_of true shape_2_3 Dtype.UInt16)) by reflexivity.
  assert (H4 : size (header_of true shape_2_3 Dtype.UInt16) <= 266)
    by (vm_compute; discriminate).
  assert (H5 : Forall (fun d => (Z.of_N d <= INT_MAX)%Z) shape_2_3)
    by (repeat constructor; vm_compute; discriminate).
  assert (H6 : (Z.of_N (product shape_2_3) <= INT_MAX)%Z)
    by (vm_compute; discriminate).
  assert (H7 : product shape_2_3 * Z.to_N (Dtype.ByteSize Dtype.UInt16)
               <= size payload24) by (vm_compute; discriminate).
  assert (H8 : allocates host_memory
                 (product shape_2_3 * Z.to_N (Dtype.ByteSize Dtype.UInt16))).
  { split; [vm_compute; discriminate|reflexivity]. }
  exact (save_load_roundtrip_general false true empty_world "a.npy" payload24
           shape_2_3 Dtype.UInt16 _ H1 H2 H3 H4 (or_introl eq_refl) H5 H6 H7
           host_memory H8).
Defined.

Lemma parsed_header_invariant_witness :
  ParseNumpyHeader false little_endian_file
  = Ret ("i"%char, 4, [2], false, lit "abcdefgh") /\
  Forall (fun d => (Z.of_N d <= INT_MAX)%Z) [2] /\
  exists consumed,
    little_endian_file = consumed ++ lit "abcdefgh" /\
    (12 <= List.length consumed <= 266)%nat.
Proof.
  assert (H : ParseNumpyHeader false little_endian_file
              = Ret ("i"%char, 4, [2], false, lit "abcdefgh"))
    by (vm_compute; reflexivity).
  split; [exact H|].
  exact (parsed_header_invariant false _ _ _ _ _ _ H).
Defined.

Lemma loaded_dimensions_fit_int_witness :
  Load_body false host_memory little_endian_file
  = Ret (mkNumpyArray (Some (lit "abcdefgh")) [2] (Some "i"%char) 4 false 2) /\
  Forall (fun d => (Z.of_N d <= INT_MAX)%Z)
    (GetShape (mkNumpyArray (Some (lit "abcdefgh")) [2] (Some "i"%char) 4
                 false 2)).
Proof.
  assert (H : Load_body false host_memory little_endian_file
              = Ret (mkNumpyArray (Some (lit "abcdefgh")) [2] (Some "i"%char) 4
                       false 2)) by (vm_compute; reflexivity).
  split; [exact H|].
  exact (proj1 (loaded_dimensions_fit_int false host_memory _ _ H)).
Defined.

(** ** A big-endian host *)




(** ** Different arrays, different headers *)

Lemma supported_code_size_inj d1 d2 c :
  In d1 Dtype.supported -> In d2 Dtype.supported ->
  DtypeToChar d1 = Ret c -> DtypeToChar d2 = Ret c ->
  Z.to_N (Dtype.ByteSize d1) = Z.to_N (Dtype.ByteSize d2) ->
  d1 = d2.
Proof.
  intros H1 H2 Hc1 Hc2 Hbs. simpl in H1, H2.
  repeat (destruct H1 as [<-|H1]); try contradiction;
    injection Hc1 as <-;
    repeat (destruct H2 as [<-|H2]); try contradiction;
    try reflexivity; try discriminate Hc2; try discriminate Hbs.
Qed.

(** X20: among headers of at most 266 bytes and shapes with dimensions
    at most [INT_MAX], equal headers come from equal shapes and equal
    element types. *)
Theorem CreateNumpyHeader_injective :
  forall le shape1 shape2 dtype1 dtype2 header,
    In dtype1 Dtype.supported -> In dtype2 Dtype.supported ->
    CreateNumpyHeader le shape1 dtype1 = Ret header ->
    CreateNumpyHeader le shape2 dtype2 = Ret header ->
    size header <= 266 ->
    Forall (fun d => (Z.of_N d <= INT_MAX)%Z) shape1 ->
    Forall (fun d => (Z.of_N d <= INT_MAX)%Z) shape2 ->
    shape1 = shape2 /\ dtype1 = dtype2.
Proof.
  intros le shape1 shape2 dtype1 dtype2 header Hd1 Hd2 Hh1 Hh2 Hsize Hf1 Hf2.
  destruct (ParseNumpyHeader_of_header true le shape1 dtype1 header [] Hd1 Hh1
              Hsize (fun _ => or_intror eq_refl)) as (c1 & Hc1 & Hp1).
  destruct (ParseNumpyHeader_of_header true le shape2 dtype2 header [] Hd2 Hh2
              Hsize (fun _ => or_intror eq_refl)) as (c2 & Hc2 & Hp2).
  rewrite (proj2 (dims_fit_Forall shape1) Hf1) in Hp1.
  rewrite (proj2 (dims_fit_Forall shape2) Hf2) in Hp2.
  rewrite Hp1 in Hp2. injection Hp2 as <- Hbs <-.
  split; [reflexivity|].
  exact (supported_code_size_inj dtype1 dtype2 c1 Hd1 Hd2 Hc1 Hc2 Hbs).
Qed.

Lemma CreateNumpyHeader_injective_witness :
  In Dtype.Float32 Dtype.supported /\
  CreateNumpyHeader true shape_2_3 Dtype.Float32
  = Ret (header_of true shape_2_3 Dtype.Float32) /\
  size (header_of true shape_2_3 Dtype.Float32) <= 266 /\
  Forall (fun d => (Z.of_N d <= INT_MAX)%Z) shape_2_3 /\
  shape_2_3 = shape_2_3 /\ Dtype.Float32 = Dtype.Float32.
Proof.
  assert (H1 : In Dtype.Float32 Dtype.supported) by (simpl; tauto).
  assert (H2 : CreateNumpyHeader true shape_2_3 Dtype.Float32
               = Ret (header_of true shape_2_3 Dtype.Float32)) by reflexivity.
  assert (H3 : size (header_of true shape_2_3 Dtype.Float32) <= 266)
    by (vm_compute; discriminate).
  assert (H4 : Forall (fun d => (Z.of_N d <= INT_MAX)%Z) shape_2_3)
    by (repeat constructor; vm_compute; discriminate).
  split; [exact H1|]. split; [exact H2|]. split; [exact H3|].
  split; [exact H4|].
  exact (CreateNumpyHeader_injective true shape_2_3 shape_2_3 Dtype.Float32
           Dtype.Float32 _ H1 H1 H2 H2 H3 H4 H4).
Defined.
